(** * The OS-command channel and the motion profile supervisors

    A shallow embedding of [oscmd_helpers.py], [profiler_helpers.py] and the
    parts of [toolbox.py] they call, followed by the properties of the
    command/response handshake and of the profile supervision logic.

    Conventions of the embedding
    - Python [int] is [Z]; Python numbers that may be [float] (times,
      accelerations, conversion factors) are exact rationals [Q], so [/] is
      exact division and [int(x)] truncates towards zero.  The code holds
      doubles where the embedding holds rationals: a value of the embedding
      is the real number that the double of the code approximates.  The
      two are the same number where the arithmetic of the code is exact
      (integers, or doubles on which no operation rounds); a truncation
      or a comparison can tell them apart, so a property that fixes the
      outcome of one is stated for the inputs on which the code computes
      exactly.
    - An exception ends a call but keeps the mutations done before it, so a
      computation is a function from the state to a result and a new state.
    - The object dictionary [od] and the state control [sc] are external: a
      call on them is recorded in a trace, and what a read returns is given
      by the environment.
    - [x is c] against a small integer constant is equality of integers
      (CPython keeps one object per integer in -5..256). *)

From Stdlib Require Import ZArith QArith Qabs Qround List String Bool Lia Lqa.
Import ListNotations.

Open Scope Z_scope.

(** ** Python runtime *)

Module Py.

(** The text of a failure, with the values it is formatted with. *)
Inductive message : Type :=
| RequestWhileInProgress
    (* "OS command request was received when another one was already in progress." *)
| OsErrorCode (code : Z) (name : string)
    (* "OS command returned an error (OS error code {}: {})." *)
| UnknownOsErrorCode (code : Z)
    (* "OS command returned an error, but the OS error code is unknown ({})." *)
| NoOsErrorCode
    (* "OS command returned an error (no OS error code)." *)
| NotValidStatus (opcode status : Z)
    (* "Not valid status for OS command {}: {}." *)
| InProgressFor (seconds : Q)
    (* "OS command status was in progress for {} seconds." *)
| TrajectoryNotStarted
    (* "In order to check if the target is reached, a trajectory has to be started." *)
| NoFunctionSelected
    (* "No function was selected." *)
| NoSensorForFunctions (functions : list Z)
    (* "No sensor is configured for any of the following functions: {}." *)
| NoSensorForCommutation.
    (* "No sensor is configured for commutation." *)

Inductive exn : Type :=
| Failed (msg : message)                 (* pytest.fail(msg) *)
| OsCommandException (msg : message)
| ExceptionSensorConfig (msg : message)
| IndexError
| ValueError
| TypeError
| ZeroDivisionError.

Inductive result (A : Type) : Type :=
| Ok (a : A)
| Raised (e : exn)
| OutOfFuel.
Arguments Ok {A} a.
Arguments Raised {A} e.
Arguments OutOfFuel {A}.

(** State and exceptions: the state survives a raise. *)
Definition M (S A : Type) : Type := S -> result A * S.

Definition ret {S A} (a : A) : M S A := fun s => (Ok a, s).

Definition bind {S A B} (m : M S A) (k : A -> M S B) : M S B :=
  fun s =>
    match m s with
    | (Ok a, s') => k a s'
    | (Raised e, s') => (Raised e, s')
    | (OutOfFuel, s') => (OutOfFuel, s')
    end.

Definition raise {S A} (e : exn) : M S A := fun s => (Raised e, s).
Definition gets {S A} (f : S -> A) : M S A := fun s => (Ok (f s), s).
Definition modify {S} (f : S -> S) : M S unit := fun s => (Ok tt, f s).
Definition out_of_fuel {S A} : M S A := fun s => (OutOfFuel, s).

(** [l[i]] on a list: [IndexError] past the end. *)
Definition index {S A} (l : list A) (i : nat) : M S A :=
  match nth_error l i with
  | Some x => ret x
  | None => raise IndexError
  end.

(** [x in l] for a list of integers. *)
Definition mem (x : Z) (l : list Z) : bool := existsb (Z.eqb x) l.

(** [range(a, b)]. *)
Definition range (a b : Z) : list Z :=
  map (fun i => a + Z.of_nat i) (seq 0 (Z.to_nat (b - a))).

(** [bytes(l)] accepts a list of integers in [range(256)] and raises
    [ValueError] otherwise. *)
Definition is_byte (x : Z) : bool := (0 <=? x) && (x <? 256).

Definition bytes {S} (l : list Z) : M S (list Z) :=
  if forallb is_byte l then ret l else raise ValueError.

(** A Python [Enum] class: its members in declaration order, name and value. *)
Definition Enum : Type := list (string * Z).

Definition values (e : Enum) : list Z := map snd e.

Fixpoint name_of (e : Enum) (v : Z) : option string :=
  match e with
  | [] => None
  | (n, w) :: e' => if Z.eqb v w then Some n else name_of e' v
  end.

(** [int(x)] of a number: truncation towards zero.  On a product that the
    code rounded to a double before the call, the result of the code can
    differ by one from the truncation of the exact product. *)
Definition int (x : Q) : Z := Z.quot (Qnum x) (Z.pos (Qden x)).

Definition Qltb (x y : Q) : bool := negb (Qle_bool y x).

(** [math.isclose(a, b, abs_tol=t)]; the relative tolerance keeps its
    default [1e-09].  CPython: [ValueError] on a negative tolerance, then
    [a == b or diff <= |rel_tol * b| or diff <= |rel_tol * a| or
    diff <= abs_tol] with [diff = |b - a|].  CPython evaluates this on
    doubles; the formula below is the same test on the integers that the
    32-bit position objects of the drive can hold, on which [diff] is exact
    and a product with [rel_tol] is never rounded across an integer.  It
    is not the test of the code on integers of 2^53 and more. *)
Definition rel_tol : Q := 1 # 1000000000.

Definition close_enough (a b abs_tol : Q) : bool :=
  let diff := Qabs (b - a) in
  Qeq_bool a b
  || Qle_bool diff (Qabs (rel_tol * b))
  || Qle_bool diff (Qabs (rel_tol * a))
  || Qle_bool diff abs_tol.

Definition isclose {S} (a b abs_tol : Q) : M S bool :=
  if Qltb abs_tol 0 then raise ValueError
  else ret (close_enough a b abs_tol).

End Py.

Import Py.

Declare Scope py_scope.
Delimit Scope py_scope with py.
Notation "x <- c1 ;; c2" := (bind c1 (fun x => c2))
  (at level 100, c1 at next level, right associativity) : py_scope.
Notation "c1 ;; c2" := (bind c1 (fun _ => c2))
  (at level 100, right associativity) : py_scope.
Open Scope py_scope.

(** ** oscmd_helpers.py *)

Module OsCmd.

Inductive OsCmdModes : Type := EXECUTE_NEXT_CMD | ABORT_ALL_CMD.

(** The values of the members of [OsCmdCommand]. *)
Module OsCmdCommand.
Definition ENCODER_REGISTER_COMMUNICATION : Z := 0.
Definition ICMU_CALIBRATION : Z := 1.
Definition OPEN_LOOP_FIELD_MODE : Z := 2.
Definition OSCMD_HRD_STREAMING : Z := 3.
Definition MOTOR_PHASE_ORDER_DETECTION : Z := 4.
Definition COMMUTATION_OFFSET_MEASUREMENT : Z := 5.
Definition OPEN_PHASE_DETECTION : Z := 6.
Definition POLE_PAIR_DETECTION : Z := 7.
Definition PHASE_RESISTANCE_MEASUREMENT : Z := 8.
Definition PHASE_INDUCTANCE_MEASUREMENT : Z := 9.
Definition TORQUE_CONSTANT_MEASUREMENT : Z := 10.
Definition RESERVED_FOR_EXTENSION_CMD : Z := 255.
End OsCmdCommand.

(** The values of the members of [OsCmdStatus]. *)
Module OsCmdStatus.
Definition COMPLETED_NOERROR_NOREPLY : Z := 0.
Definition COMPLETED_NOERROR_WITHREPLY : Z := 1.
Definition COMPLETED_WITHERROR_NOREPLY : Z := 2.
Definition COMPLETED_WITHERROR_WITHREPLY : Z := 3.
Definition IN_PROCESS_0 : Z := 100.
Definition IN_PROCESS_100 : Z := 200.
Definition CMD_IN_PROGRESS : Z := 255.
End OsCmdStatus.

Definition OsCmdErrorCodes : Enum :=
  [ ("CMD_NOT_ALLOWED", 251); ("CMD_ABORTED", 252); ("CMD_TIMEOUT", 253);
    ("UNSUPPORTED_CMD", 254); ("RESERVED_FOR_EXTENSION", 255) ]%string.

Definition OsCmd3ErrorCodes : Enum :=
  [ ("INITIALIZATION_ERROR", 0); ("STREAMING_ERROR", 1);
    ("DURATION_VALUE_ERROR", 2); ("DATA_INDEX_VALUE_ERROR", 3) ]%string.

Definition OsCmd6ErrorCodes : Enum :=
  [ ("OPEN_TERMINAL_A", 0); ("OPEN_TERMINAL_B", 1); ("OPEN_TERMINAL_C", 2);
    ("OPEN_FET_A_HIGH", 3); ("OPEN_FET_A_LOW", 4); ("OPEN_FET_B_HIGH", 5);
    ("OPEN_FET_B_LOW", 6); ("OPEN_FET_C_HIGH", 7); ("OPEN_FET_C_LOW", 8) ]%string.

(** [E(v).name]: [ValueError] when no member of [E] has the value [v]. *)
Definition enum_name {S} (e : Enum) (v : Z) : M S string :=
  match name_of e v with
  | Some n => ret n
  | None => raise ValueError
  end.

(** What a handler does to its surroundings, newest first: the calls on
    [od], and the freeing of the command slot in [get_response]. *)
Inductive event : Type :=
| os_command_mode (mode : OsCmdModes)      (* od.os_command_mode(mode) *)
| os_command_command (b : list Z)          (* od.os_command_command(bytes) *)
| os_command_response (r : list Z)         (* od.os_command_response() -> r *)
| slot_freed.                              (* self.current_command = None *)

Definition is_write (e : event) : bool :=
  match e with os_command_command _ => true | _ => false end.
Definition is_read (e : event) : bool :=
  match e with os_command_response _ => true | _ => false end.
Definition is_free (e : event) : bool :=
  match e with slot_freed => true | _ => false end.

Definition writes (t : list event) : nat := List.length (filter is_write t).
Definition reads (t : list event) : nat := List.length (filter is_read t).
Definition frees (t : list event) : nat := List.length (filter is_free t).

Record OsCmdHandler : Type := mkOsCmdHandler {
  current_command : option (list Z);
  current_mode : OsCmdModes;
  status_in_progress : list Z
}.

(** [OsCmdHandler.__init__] *)
Definition OsCmdHandler_init : OsCmdHandler :=
  {| current_command := None;
     current_mode := EXECUTE_NEXT_CMD;
     status_in_progress :=
       [OsCmdStatus.CMD_IN_PROGRESS]
         ++ range OsCmdStatus.IN_PROCESS_0 (OsCmdStatus.IN_PROCESS_100 + 1) |}.

(** A command handler ([self.och], [self.timeout]) together with the wall
    clock in seconds and the trace of what was done so far. *)
Record sys : Type := mkSys {
  och : OsCmdHandler;
  timeout : Q;
  clock : Q;
  trace : list event
}.

(** Every adapter's [__init__(od, timeout)]. *)
Definition Handler_init (timeout : Q) (now : Q) : sys :=
  {| och := OsCmdHandler_init; timeout := timeout; clock := now; trace := [] |}.

Definition set_current_command (c : option (list Z)) (s : sys) : sys :=
  {| och := {| current_command := c;
               current_mode := current_mode (och s);
               status_in_progress := status_in_progress (och s) |};
     timeout := timeout s; clock := clock s; trace := trace s |}.

Definition set_current_mode (m : OsCmdModes) (s : sys) : sys :=
  {| och := {| current_command := current_command (och s);
               current_mode := m;
               status_in_progress := status_in_progress (och s) |};
     timeout := timeout s; clock := clock s; trace := trace s |}.

Definition set_timeout (t : Q) (s : sys) : sys :=
  {| och := och s; timeout := t; clock := clock s; trace := trace s |}.

Definition record (e : event) (s : sys) : sys :=
  {| och := och s; timeout := timeout s; clock := clock s; trace := e :: trace s |}.

(** [time.sleep(d)], taken to last exactly [d]. *)
Definition sleep (d : Q) : M sys unit :=
  modify (fun s => {| och := och s; timeout := timeout s;
                      clock := (clock s + d)%Q; trace := trace s |}).

(** [time.time()] *)
Definition time : M sys Q := gets clock.

Definition poll_interval : Q := 1 # 100.

Section Channel.

(** The device: what the [n]-th read of the response register returns. *)
Variable device : nat -> list Z.

(** [OsCmdHandler.change_mode] *)
Definition change_mode (mode : OsCmdModes) : M sys unit :=
  modify (set_current_mode mode) ;;
  modify (record (os_command_mode mode)).

(** [OsCmdHandler.execute_command] *)
Definition execute_command (command : list Z) : M sys unit :=
  current <- gets (fun s => current_command (och s)) ;;
  match current with
  | Some _ => raise (Failed RequestWhileInProgress)
  | None =>
      modify (set_current_command (Some command)) ;;
      b <- bytes command ;;
      modify (record (os_command_command b))
  end.

(** [OsCmdHandler.get_response] *)
Definition get_response : M sys (list Z) :=
  n <- gets (fun s => reads (trace s)) ;;
  let response := device n in
  modify (record (os_command_response response)) ;;
  status <- index response 0 ;;
  in_progress <- gets (fun s => status_in_progress (och s)) ;;
  (if negb (mem status in_progress)
   then modify (set_current_command None) ;; modify (record slot_freed)
   else ret tt) ;;
  ret response.

(** [OsCmdHandler.get_active_command] *)
Definition get_active_command : M sys (option (list Z)) :=
  gets (fun s => current_command (och s)).

End Channel.

(** *** The command adapters

    The eleven handler classes share the body of their polling method
    ([check_response]; [get_response] for the open-loop field mode) up to
    the points listed in [adapter]. *)

Inductive value : Type :=
| VInt (z : Z)
| VTrue.

Inductive reply : Type :=
| NoReply     (* COMPLETED_NOERROR_NOREPLY: return True *)
| ReplyByte   (* COMPLETED_NOERROR_WITHREPLY: return response[2] *)
| ReplyU16    (* ... response[2] << 8 | response[3] *)
| ReplyU32.   (* ... response[2] << 24 | response[3] << 16 | response[4] << 8 | response[5] *)

Record adapter : Type := mkAdapter {
  reply_kind : reply;
  specific_codes : option Enum;     (* the second error enumeration looked up *)
  error_noreply_branch : bool;      (* has the COMPLETED_WITHERROR_NOREPLY branch *)
  message_opcode : Z;               (* the opcode named by "Not valid status" *)
  timeout_is_exception : bool       (* timeout raises OsCommandException *)
}.

Definition EncoderRegisterCommunicationHandler : adapter :=
  mkAdapter ReplyByte None true OsCmdCommand.ENCODER_REGISTER_COMMUNICATION false.
Definition IcmuCalibrationModeHandler : adapter :=
  mkAdapter NoReply None true OsCmdCommand.ICMU_CALIBRATION false.
Definition HrdStreamingHandler : adapter :=
  mkAdapter NoReply (Some OsCmd3ErrorCodes) true OsCmdCommand.OSCMD_HRD_STREAMING false.
Definition PhaseOrderDetectionHandler : adapter :=
  mkAdapter ReplyByte None true OsCmdCommand.COMMUTATION_OFFSET_MEASUREMENT false.
Definition CommutationOffsetMeasurementHandler : adapter :=
  mkAdapter ReplyU16 None true OsCmdCommand.COMMUTATION_OFFSET_MEASUREMENT false.
Definition OpenLoopFieldModeHandler : adapter :=
  mkAdapter NoReply None false OsCmdCommand.OPEN_PHASE_DETECTION false.
Definition OpenPhaseDetectionHandler : adapter :=
  mkAdapter NoReply (Some OsCmd6ErrorCodes) false OsCmdCommand.OPEN_PHASE_DETECTION false.
Definition PolePairDetectionHandler : adapter :=
  mkAdapter ReplyByte None true OsCmdCommand.POLE_PAIR_DETECTION false.
Definition PhaseResistanceMeasurementHandler : adapter :=
  mkAdapter ReplyU32 None true OsCmdCommand.PHASE_RESISTANCE_MEASUREMENT false.
Definition PhaseInductanceMeasurementHandler : adapter :=
  mkAdapter ReplyU32 None true OsCmdCommand.PHASE_INDUCTANCE_MEASUREMENT true.
Definition TorqueConstantMeasurementHandler : adapter :=
  mkAdapter ReplyU32 None true OsCmdCommand.TORQUE_CONSTANT_MEASUREMENT false.

Definition adapters : list adapter :=
  [ EncoderRegisterCommunicationHandler; IcmuCalibrationModeHandler;
    HrdStreamingHandler; PhaseOrderDetectionHandler;
    CommutationOffsetMeasurementHandler; OpenLoopFieldModeHandler;
    OpenPhaseDetectionHandler; PolePairDetectionHandler;
    PhaseResistanceMeasurementHandler; PhaseInductanceMeasurementHandler;
    TorqueConstantMeasurementHandler ].

(** The status on which the adapter returns. *)
Definition success_status (a : adapter) : Z :=
  match reply_kind a with
  | NoReply => OsCmdStatus.COMPLETED_NOERROR_NOREPLY
  | _ => OsCmdStatus.COMPLETED_NOERROR_WITHREPLY
  end.

(** The reply decoding rules. *)
Definition decode_u16 (r2 r3 : Z) : Z := Z.lor (Z.shiftl r2 8) r3.

Definition decode_u32 (r2 r3 r4 r5 : Z) : Z :=
  Z.lor (Z.lor (Z.lor (Z.shiftl r2 24) (Z.shiftl r3 16)) (Z.shiftl r4 8)) r5.

Definition decode (k : reply) (response : list Z) : M sys value :=
  match k with
  | NoReply => ret VTrue
  | ReplyByte => r2 <- index response 2 ;; ret (VInt r2)
  | ReplyU16 =>
      r2 <- index response 2 ;; r3 <- index response 3 ;;
      ret (VInt (decode_u16 r2 r3))
  | ReplyU32 =>
      r2 <- index response 2 ;; r3 <- index response 3 ;;
      r4 <- index response 4 ;; r5 <- index response 5 ;;
      ret (VInt (decode_u32 r2 r3 r4 r5))
  end.

(** The branch of COMPLETED_WITHERROR_WITHREPLY. *)
Definition error_with_reply {A} (a : adapter) (response : list Z) : M sys A :=
  code <- index response 2 ;;
  if mem code (values OsCmdErrorCodes) then
    os_error_code <- enum_name OsCmdErrorCodes code ;;
    raise (OsCommandException (OsErrorCode code os_error_code))
  else
    match specific_codes a with
    | Some codes =>
        if mem code (values codes) then
          os_error_code <- enum_name codes code ;;
          raise (OsCommandException (OsErrorCode code os_error_code))
        else raise (Failed (UnknownOsErrorCode code))
    | None => raise (Failed (UnknownOsErrorCode code))
    end.

Section Adapters.

Variable device : nat -> list Z.

(** One turn of the [while True] loop; [None] when the loop goes on. *)
Definition check_once (a : adapter) (deadline : Q) : M sys (option value) :=
  response <- get_response device ;;
  sleep poll_interval ;;
  status <- index response 0 ;;
  in_progress <- gets (fun s => status_in_progress (och s)) ;;
  returned <-
    (if status =? success_status a then
       v <- decode (reply_kind a) response ;; ret (Some v)
     else if status =? OsCmdStatus.COMPLETED_WITHERROR_WITHREPLY then
       error_with_reply a response
     else if error_noreply_branch a
             && (status =? OsCmdStatus.COMPLETED_WITHERROR_NOREPLY) then
       raise (OsCommandException NoOsErrorCode)
     else if mem status in_progress then ret None
     else raise (Failed (NotValidStatus (message_opcode a) status))) ;;
  match returned with
  | Some v => ret (Some v)
  | None =>
      now <- time ;;
      if Qltb deadline now then
        seconds <- gets timeout ;;
        if timeout_is_exception a
        then raise (OsCommandException (InProgressFor seconds))
        else raise (Failed (InProgressFor seconds))
      else ret None
  end.

Fixpoint poll_loop (fuel : nat) (a : adapter) (deadline : Q) : M sys value :=
  match fuel with
  | O => out_of_fuel
  | S fuel' =>
      returned <- check_once a deadline ;;
      match returned with
      | Some v => ret v
      | None => poll_loop fuel' a deadline
      end
  end.

(** [check_response]: [timeout = time.time() + self.timeout], then the loop. *)
Definition check_response (fuel : nat) (a : adapter) : M sys value :=
  now <- time ;;
  seconds <- gets timeout ;;
  poll_loop fuel a (now + seconds)%Q.

(** The commands.  [start_procedure] of the handlers that send only
    their opcode. *)
Definition start_procedure (b0 : Z) : M sys unit :=
  execute_command [b0; 0; 0; 0; 0; 0; 0; 0].

(** [EncoderRegisterCommunicationHandler.read_register] *)
Definition read_register (encoder_connector register_address slave_address : Z)
  : M sys unit :=
  let b0 := OsCmdCommand.ENCODER_REGISTER_COMMUNICATION in
  let b1 := encoder_connector in
  let b2 := Z.lor 0 (Z.shiftl slave_address 1) in
  let b3 := register_address in
  execute_command [b0; b1; b2; b3; 0; 0; 0; 0].

(** [EncoderRegisterCommunicationHandler.write_register] *)
Definition write_register
  (encoder_connector register_address register_value slave_address : Z)
  : M sys unit :=
  let b0 := OsCmdCommand.ENCODER_REGISTER_COMMUNICATION in
  let b1 := encoder_connector in
  let b2 := Z.lor 1 (Z.shiftl slave_address 1) in
  let b3 := register_address in
  let b4 := register_value in
  execute_command [b0; b1; b2; b3; b4; 0; 0; 0].

(** [IcmuCalibrationModeHandler.enable_mode]; [mode] is the value of the
    member of [IcmuCalibrationModes]. *)
Definition enable_mode (encoder_connector mode : Z) : M sys unit :=
  let b0 := OsCmdCommand.ICMU_CALIBRATION in
  let b1 := Z.lor encoder_connector (Z.shiftl mode 3) in
  execute_command [b0; b1; 0; 0; 0; 0; 0; 0].

(** [HrdStreamingHandler.start_stream] *)
Definition start_stream : M sys unit :=
  let b0 := OsCmdCommand.OSCMD_HRD_STREAMING in
  let b1 := 1 in
  execute_command [b0; b1; 0; 0; 0; 0; 0; 0].

(** [HrdStreamingHandler.configure_stream] *)
Definition configure_stream (data_index duration_in_ms : Z) : M sys unit :=
  modify (set_timeout (inject_Z (duration_in_ms * 1000 + 1))) ;;
  let b0 := OsCmdCommand.OSCMD_HRD_STREAMING in
  let b1 := 0 in
  let b2 := data_index in
  let b3 := Z.land (Z.shiftr duration_in_ms 8) 255 in
  let b4 := Z.land duration_in_ms 255 in
  execute_command [b0; b1; b2; b3; b4; 0; 0; 0].

(** The seven setters of [OpenLoopFieldModeHandler]: [b1] selects the
    parameter, [b2..b5] carry the value, most significant byte first. *)
Definition field_mode_command (b1 value : Z) : list Z :=
  let b0 := 2 in
  let b5 := Z.land value 255 in
  let b4 := Z.shiftr (Z.land value 65280) 8 in
  let b3 := Z.shiftr (Z.land value 16711680) 16 in
  let b2 := Z.shiftr (Z.land value 4278190080) 24 in
  [b0; b1; b2; b3; b4; b5; 0; 0].

Definition set_starting_angle_milli_radian (v : Z) : M sys unit :=
  execute_command (field_mode_command 0 v).
Definition set_ending_angle_milli_radian (v : Z) : M sys unit :=
  execute_command (field_mode_command 1 v).
Definition set_max_rotational_speed_rad_per_second (v : Z) : M sys unit :=
  execute_command (field_mode_command 2 v).
Definition set_rotational_acceleration_rad_per_squared_second (v : Z) : M sys unit :=
  execute_command (field_mode_command 3 v).
Definition set_length_start_per_thousand_rated_current (v : Z) : M sys unit :=
  execute_command (field_mode_command 4 v).
Definition set_length_end_per_thousand_rated_current (v : Z) : M sys unit :=
  execute_command (field_mode_command 5 v).
Definition set_length_speed_per_thousand_rated_current_per_second (v : Z) : M sys unit :=
  execute_command (field_mode_command 6 v).

End Adapters.

(** The in-progress statuses: IN_PROCESS_0 .. IN_PROCESS_100 and the
    sentinel CMD_IN_PROGRESS. *)
Definition in_progress_status (status : Z) : Prop :=
  OsCmdStatus.IN_PROCESS_0 <= status <= OsCmdStatus.IN_PROCESS_100
  \/ status = OsCmdStatus.CMD_IN_PROGRESS.

(** The terminal statuses. *)
Definition terminal_status (status : Z) : Prop :=
  status = OsCmdStatus.COMPLETED_NOERROR_NOREPLY
  \/ status = OsCmdStatus.COMPLETED_NOERROR_WITHREPLY
  \/ status = OsCmdStatus.COMPLETED_WITHERROR_NOREPLY
  \/ status = OsCmdStatus.COMPLETED_WITHERROR_WITHREPLY.

(** The channel of [s] was made by [OsCmdHandler.__init__]; no method
    assigns [status_in_progress] afterwards. *)
Definition constructed (s : sys) : Prop :=
  status_in_progress (och s) = status_in_progress OsCmdHandler_init.

(** A command is in flight: its terminal status was not yet polled. *)
Definition in_flight (s : sys) : Prop := current_command (och s) <> None.

(** The failure of an adapter whose command stayed in progress. *)
Definition timed_out (a : adapter) (seconds : Q) : exn :=
  if timeout_is_exception a
  then OsCommandException (InProgressFor seconds)
  else Failed (InProgressFor seconds).

(** The state after the read and the sleep of one turn of the loop, when
    the status read is in progress. *)
Definition turned (response : list Z) (s : sys) : sys :=
  {| och := och s; timeout := timeout s;
     clock := (clock s + poll_interval)%Q;
     trace := os_command_response response :: trace s |}.

(** What [error_with_reply] raises for an error code. *)
Definition reported_error (a : adapter) (code : Z) : exn :=
  if mem code (values OsCmdErrorCodes) then
    match name_of OsCmdErrorCodes code with
    | Some n => OsCommandException (OsErrorCode code n)
    | None => ValueError
    end
  else
    match specific_codes a with
    | Some codes =>
        if mem code (values codes) then
          match name_of codes code with
          | Some n => OsCommandException (OsErrorCode code n)
          | None => ValueError
          end
        else Failed (UnknownOsErrorCode code)
    | None => Failed (UnknownOsErrorCode code)
    end.

(** The error codes an adapter knows: the generic ones and those of its
    own opcode. *)
Definition known_codes (a : adapter) : Enum :=
  OsCmdErrorCodes
    ++ match specific_codes a with Some codes => codes | None => [] end.

(** The value an adapter returns for a response that is long enough for
    its reply. *)
Definition reply_value (k : reply) (response : list Z) : value :=
  match k with
  | NoReply => VTrue
  | ReplyByte => VInt (nth 2 response 0)
  | ReplyU16 => VInt (decode_u16 (nth 2 response 0) (nth 3 response 0))
  | ReplyU32 =>
      VInt (decode_u32 (nth 2 response 0) (nth 3 response 0)
              (nth 4 response 0) (nth 5 response 0))
  end.

(** The state after the read and the sleep of one turn of the loop, when
    the status read is not in progress: the slot is freed. *)
Definition finished (response : list Z) (s : sys) : sys :=
  {| och := {| current_command := None;
               current_mode := current_mode (och s);
               status_in_progress := status_in_progress (och s) |};
     timeout := timeout s;
     clock := (clock s + poll_interval)%Q;
     trace := slot_freed :: os_command_response response :: trace s |}.

End OsCmd.

(** ** toolbox.py *)

Module Toolbox.

(** The values of the members of [SensorFunctions]. *)
Module SensorFunctions.
Definition DISABLED : Z := 0.
Definition COMMUTATION_AND_MOTION_CONTROL_FEEDBACK : Z := 1.
Definition COMMUTATION_AND_MONITORING : Z := 2.
Definition MOTION_CONTROL_FEEDBACK_ONLY : Z := 3.
Definition MONITORING_ONLY : Z := 4.
Definition COMMUTATION_ONLY : Z := 5.
Definition POSITION : Z := 6.
Definition COMMUTATION_AND_VELOCITY : Z := 7.
End SensorFunctions.

(** The configuration objects of the device that the toolbox reads. *)
Record od : Type := mkOd {
  si_unit_velocity : Z;
  gear_ratio_motor_revolutions : Z;
  gear_ratio_shaft_revolutions : Z;
  feedback_sensor_ports_subindex : Z;
  feedback_sensor_ports : Z -> Z;
  parameter : Z -> Z -> Z
}.

(** The loop shared by the encoder look-ups: the first configured sensor
    port whose function is one of [functions]. *)
Fixpoint first_sensor (d : od) (functions : list Z) (subindexes : list Z)
  : option Z :=
  match subindexes with
  | [] => None
  | subindex :: rest =>
      let sensor_config_index := feedback_sensor_ports d (subindex + 1) in
      if negb (sensor_config_index =? 0)
         && mem (parameter d sensor_config_index 2) functions
      then Some sensor_config_index
      else first_sensor d functions rest
  end.

(** [get_motion_encoder_config_index]; an argument left out is [None]. *)
Definition get_motion_encoder_config_index {S} (d : od)
    (position_control velocity_control : option bool) : M S Z :=
  let falsy (b : option bool) :=
    match b with Some true => false | _ => true end in
  if falsy position_control && falsy velocity_control then
    raise (ExceptionSensorConfig NoFunctionSelected)
  else
    let selected_functions :=
      match position_control, velocity_control with
      | Some true, Some false => [SensorFunctions.POSITION]
      | Some false, Some true => [SensorFunctions.COMMUTATION_AND_VELOCITY]
      | _, _ =>
          [SensorFunctions.COMMUTATION_AND_MOTION_CONTROL_FEEDBACK;
           SensorFunctions.MOTION_CONTROL_FEEDBACK_ONLY]
            ++ (match velocity_control with
                | None => [SensorFunctions.POSITION] | _ => [] end)
            ++ (match position_control with
                | None => [SensorFunctions.COMMUTATION_AND_VELOCITY] | _ => [] end)
      end in
    match first_sensor d selected_functions
            (range 0 (feedback_sensor_ports_subindex d)) with
    | Some i => ret i
    | None => raise (ExceptionSensorConfig (NoSensorForFunctions selected_functions))
    end.

(** [get_commutation_encoder_config_index] *)
Definition get_commutation_encoder_config_index {S} (d : od) : M S Z :=
  match first_sensor d
          [SensorFunctions.COMMUTATION_AND_MOTION_CONTROL_FEEDBACK;
           SensorFunctions.COMMUTATION_AND_MONITORING;
           SensorFunctions.COMMUTATION_ONLY;
           SensorFunctions.COMMUTATION_AND_VELOCITY]
          (range 0 (feedback_sensor_ports_subindex d)) with
  | Some i => ret i
  | None => raise (ExceptionSensorConfig NoSensorForCommutation)
  end.

(** [get_si_unit_scaling_factor]: falls off the end, so returns [None],
    when no comparison holds. *)
Definition get_si_unit_scaling_factor (d : od) : option Z :=
  let si_unit_velocity := si_unit_velocity d in
  if si_unit_velocity =? 11814656 then Some 1
  else if si_unit_velocity =? 4290004736 then Some 10
  else if si_unit_velocity =? 4273227520 then Some 100
  else if si_unit_velocity =? 4256450304 then Some 1000
  else None.

(** [a // b] *)
Definition floordiv {S} (a b : Z) : M S Z :=
  if b =? 0 then raise ZeroDivisionError else ret (a / b).

(** [get_gearbox_ratio] *)
Definition get_gearbox_ratio {S} (d : od) : M S Z :=
  floordiv (gear_ratio_motor_revolutions d) (gear_ratio_shaft_revolutions d).

(** [get_gear_ratio] *)
Definition get_gear_ratio {S} (d : od) : M S Z :=
  position_control_encoder_index <-
    get_motion_encoder_config_index d (Some true) None ;;
  commutation_encoder_index <- get_commutation_encoder_config_index d ;;
  if negb (position_control_encoder_index =? commutation_encoder_index)
  then get_gearbox_ratio d
  else ret 1.

(** [get_tachometer_ratio] *)
Definition get_tachometer_ratio {S} (d : od) : M S Z :=
  velocity_control_encoder_index <-
    get_motion_encoder_config_index d None (Some true) ;;
  commutation_encoder_index <- get_commutation_encoder_config_index d ;;
  if negb (velocity_control_encoder_index =? commutation_encoder_index)
  then get_gearbox_ratio d
  else ret 1.

(** The loop of [get_sensor_function_for_position_control] and of
    [get_sensor_function_for_velocity_control]: the function of the first
    configured sensor port whose function is one of [functions]. *)
Fixpoint first_function (d : od) (functions : list Z) (subindexes : list Z)
  : option Z :=
  match subindexes with
  | [] => None
  | subindex :: rest =>
      let sensor_config_index := feedback_sensor_ports d (subindex + 1) in
      if negb (sensor_config_index =? 0)
         && mem (parameter d sensor_config_index 2) functions
      then Some (parameter d sensor_config_index 2)
      else first_function d functions rest
  end.

(** [get_sensor_function_for_position_control]; [None] stands for its one
    failure, ExceptionSensorConfig("No sensor is configured for position
    control."). *)
Definition get_sensor_function_for_position_control (d : od) : option Z :=
  first_function d
    [SensorFunctions.COMMUTATION_AND_MOTION_CONTROL_FEEDBACK;
     SensorFunctions.MOTION_CONTROL_FEEDBACK_ONLY;
     SensorFunctions.POSITION]
    (range 0 (feedback_sensor_ports_subindex d)).

(** [get_sensor_function_for_velocity_control]; [None] stands for its one
    failure, ExceptionSensorConfig("No sensor is configured for velocity
    control."). *)
Definition get_sensor_function_for_velocity_control (d : od) : option Z :=
  first_function d
    [SensorFunctions.COMMUTATION_AND_MOTION_CONTROL_FEEDBACK;
     SensorFunctions.MOTION_CONTROL_FEEDBACK_ONLY;
     SensorFunctions.COMMUTATION_AND_VELOCITY]
    (range 0 (feedback_sensor_ports_subindex d)).

(** [get_rpm_unit]: falls off the end, so returns [None], when no
    comparison holds. *)
Definition get_rpm_unit (d : od) : option string :=
  let si_unit_velocity := si_unit_velocity d in
  if si_unit_velocity =? 11814656 then Some "rpm"%string
  else if si_unit_velocity =? 4290004736 then Some "deci-rpm"%string
  else if si_unit_velocity =? 4273227520 then Some "centi-rpm"%string
  else if si_unit_velocity =? 4256450304 then Some "mili-rpm"%string
  else None.

(** [get_data_overflows]: the indexes [i] in [range(1, len(data))] at which
    the data steps from above the high threshold to below the low one
    (positive overflows), and the other way round (negative overflows).
    The thresholds are the exact products here; the code rounds each of
    them to a double, which can move a sample that lies on a threshold to
    its other side. *)
Definition get_data_overflows (data : list Q)
    (data_resolution max_step_relative : Q) : list nat * list nat :=
  let low_overflow_threshold := (data_resolution * max_step_relative)%Q in
  let high_overflow_threshold := (data_resolution * (1 - max_step_relative))%Q in
  let steps := seq 1 (List.length data - 1) in
  (filter (fun i => Qltb high_overflow_threshold (nth (i - 1) data 0%Q)
                    && Qltb (nth i data 0%Q) low_overflow_threshold) steps,
   filter (fun i => Qltb (nth (i - 1) data 0%Q) low_overflow_threshold
                    && Qltb high_overflow_threshold (nth i data 0%Q)) steps).

(** [l[position:] = [f(x) for x in l[position:]]] *)
Definition map_from (position : nat) (f : Q -> Q) (l : list Q) : list Q :=
  firstn position l ++ map f (skipn position l).

(** The two loops of [remove_data_overflows], for the positions that its
    call of [get_data_overflows] returned: the samples from a positive
    overflow on are moved up by the resolution, those from a negative
    overflow on are moved down by it. *)
Definition shift_overflows (positive_overflows negative_overflows : list nat)
    (data : list Q) (data_resolution : Q) : list Q :=
  let continuous_data :=
    fold_left (fun c position => map_from position (fun x => x + data_resolution)%Q c)
      positive_overflows data in
  fold_left (fun c position => map_from position (fun x => x - data_resolution)%Q c)
    negative_overflows continuous_data.

(** [remove_data_overflows] *)
Definition remove_data_overflows (data : list Q)
    (data_resolution max_step_relative : Q) : list Q :=
  let (positive_overflows, negative_overflows) :=
    get_data_overflows data data_resolution max_step_relative in
  shift_overflows positive_overflows negative_overflows data data_resolution.

End Toolbox.

(** ** profiler_helpers.py *)

Module Profiler.

Inductive VelocityParametersFrame : Type :=
| MOTOR_SHAFT_FRAME
| DRIVE_SHAFT_FRAME
| VELOCITY_CONTROL_FRAME
| POSITION_CONTROL_FRAME.

Inductive OP_MODES : Type := PROFILE_TORQUE | PROFILE_VELOCITY | PROFILE_POSITION.

(** The calls of a supervisor on [od] and [sc], newest first. *)
Inductive call : Type :=
| od_torque_slope (v : Q)
| od_target_torque (v : Q)
| od_profile_acceleration (v : Z)
| od_profile_deceleration (v : Z)
| od_profile_velocity (v : Z)
| od_target_velocity (v : Z)
| od_target_position (v : Z)
| od_position_demand_internal_value (v : Z)   (* a read that returned v *)
| sc_set_op_mode (m : OP_MODES)
| sc_enable_operation
| sc_pp_start_next_position_now
| sc_pp_reset_bits.


(** A supervisor object with the wall clock and the calls made so far. *)
Record env (H : Type) : Type := mkEnv {
  self : H;
  clock : Q;
  calls : list call
}.
Arguments mkEnv {H} self clock calls.
Arguments self {H} e.
Arguments clock {H} e.
Arguments calls {H} e.

Definition update {H} (f : H -> H) : M (env H) unit :=
  modify (fun e => mkEnv (f (self e)) (clock e) (calls e)).

Definition invoke {H} (c : call) : M (env H) unit :=
  modify (fun e => mkEnv (self e) (clock e) (c :: calls e)).

(** [time.sleep(d)], taken to last exactly [d]. *)
Definition sleep {H} (d : Q) : M (env H) unit :=
  modify (fun e => mkEnv (self e) (clock e + d)%Q (calls e)).

(** [time.time()] *)
Definition time {H} : M (env H) Q := gets clock.

(** [a / b] on integers. *)
Definition truediv {S} (a b : Z) : M S Q :=
  if b =? 0 then raise ZeroDivisionError
  else ret (inject_Z a / inject_Z b)%Q.

(** [x * self.si_unit_scaling_factor]: [TypeError] when the factor is [None]. *)
Definition times_si {S} (x : Q) (si : option Z) : M S Q :=
  match si with
  | Some f => ret (x * inject_Z f)%Q
  | None => raise TypeError
  end.

(** [if v is not None: set v] *)
Definition when_given {H A} (v : option A) (set : A -> H -> H) : M (env H) unit :=
  match v with
  | Some x => update (set x)
  | None => ret tt
  end.

(** *** TorqueProfileHandler *)
Module Torque.

Record t : Type := mk {
  torque_slope : Q;
  target_torque : Q;
  target_tolerance : Q;
  profiler_timeout : option Q;
  stabilization_duration : option Q
}.

Definition init : t := mk 0 0 0 None None.

Definition set_torque_slope v h :=
  mk v (target_torque h) (target_tolerance h) (profiler_timeout h)
     (stabilization_duration h).
Definition set_target v h :=
  mk (torque_slope h) v (target_tolerance h) (profiler_timeout h)
     (stabilization_duration h).
Definition set_target_tolerance v h :=
  mk (torque_slope h) (target_torque h) v (profiler_timeout h)
     (stabilization_duration h).
Definition set_profiler_timeout v h :=
  mk (torque_slope h) (target_torque h) (target_tolerance h) (Some v)
     (stabilization_duration h).
Definition set_stabilization_duration v h :=
  mk (torque_slope h) (target_torque h) (target_tolerance h)
     (profiler_timeout h) (Some v).

(** [TorqueProfileHandler.set_profiler_configuration] *)
Definition set_profiler_configuration
    (torque_slope target_tolerance : Q)
    (profiler_timeout stabilization_duration : option Q) : M (env t) unit :=
  update (set_torque_slope torque_slope) ;;
  h <- gets self ;;
  invoke (od_torque_slope (Torque.torque_slope h)) ;;
  update (set_target_tolerance target_tolerance) ;;
  when_given profiler_timeout set_profiler_timeout ;;
  when_given stabilization_duration set_stabilization_duration.

(** [TorqueProfileHandler.set_target_torque] *)
Definition set_target_torque (target_torque : Q) : M (env t) unit :=
  update (set_target target_torque) ;;
  h <- gets self ;;
  invoke (od_target_torque (Torque.target_torque h)).

End Torque.

(** *** VelocityProfileHandler *)
Module Velocity.

Record t : Type := mk {
  si_unit_scaling_factor : option Z;
  tachometer_ratio_factor : Z;
  gear_ratio_factor : Z;
  gearbox_ratio : Z;
  acceleration : Q;
  deceleration : Q;
  target_tolerance : Q;
  profiler_timeout : Q;
  stabilization_duration : Q;
  stabilization_time : option Q;
  target_velocity : Z;
  configured_frame : option VelocityParametersFrame;
  configured_frame_to_velocity_control_frame : Q
}.

Definition DEFAULT_PROFILER_TIMEOUT : Q := 20.
Definition DEFAULT_STABILIZATION_DURATION : Q := 2.

(** [VelocityProfileHandler.__init__] *)
Definition init {S} (d : Toolbox.od) : M S t :=
  let si := Toolbox.get_si_unit_scaling_factor d in
  tachometer <- Toolbox.get_tachometer_ratio d ;;
  gear <- Toolbox.get_gear_ratio d ;;
  gearbox <- Toolbox.get_gearbox_ratio d ;;
  ret (mk si tachometer gear gearbox 0 0 0
          DEFAULT_PROFILER_TIMEOUT DEFAULT_STABILIZATION_DURATION None
          0 None 0).

Definition set_acceleration v h :=
  mk (si_unit_scaling_factor h) (tachometer_ratio_factor h) (gear_ratio_factor h)
     (gearbox_ratio h) v (deceleration h) (target_tolerance h)
     (profiler_timeout h) (stabilization_duration h) (stabilization_time h)
     (target_velocity h) (configured_frame h)
     (configured_frame_to_velocity_control_frame h).
Definition set_deceleration v h :=
  mk (si_unit_scaling_factor h) (tachometer_ratio_factor h) (gear_ratio_factor h)
     (gearbox_ratio h) (acceleration h) v (target_tolerance h)
     (profiler_timeout h) (stabilization_duration h) (stabilization_time h)
     (target_velocity h) (configured_frame h)
     (configured_frame_to_velocity_control_frame h).
Definition set_target_tolerance v h :=
  mk (si_unit_scaling_factor h) (tachometer_ratio_factor h) (gear_ratio_factor h)
     (gearbox_ratio h) (acceleration h) (deceleration h) v
     (profiler_timeout h) (stabilization_duration h) (stabilization_time h)
     (target_velocity h) (configured_frame h)
     (configured_frame_to_velocity_control_frame h).
Definition set_profiler_timeout v h :=
  mk (si_unit_scaling_factor h) (tachometer_ratio_factor h) (gear_ratio_factor h)
     (gearbox_ratio h) (acceleration h) (deceleration h) (target_tolerance h)
     v (stabilization_duration h) (stabilization_time h)
     (target_velocity h) (configured_frame h)
     (configured_frame_to_velocity_control_frame h).
Definition set_stabilization_duration v h :=
  mk (si_unit_scaling_factor h) (tachometer_ratio_factor h) (gear_ratio_factor h)
     (gearbox_ratio h) (acceleration h) (deceleration h) (target_tolerance h)
     (profiler_timeout h) v (stabilization_time h)
     (target_velocity h) (configured_frame h)
     (configured_frame_to_velocity_control_frame h).
Definition set_stabilization_time v h :=
  mk (si_unit_scaling_factor h) (tachometer_ratio_factor h) (gear_ratio_factor h)
     (gearbox_ratio h) (acceleration h) (deceleration h) (target_tolerance h)
     (profiler_timeout h) (stabilization_duration h) (Some v)
     (target_velocity h) (configured_frame h)
     (configured_frame_to_velocity_control_frame h).
Definition set_target v h :=
  mk (si_unit_scaling_factor h) (tachometer_ratio_factor h) (gear_ratio_factor h)
     (gearbox_ratio h) (acceleration h) (deceleration h) (target_tolerance h)
     (profiler_timeout h) (stabilization_duration h) (stabilization_time h)
     v (configured_frame h)
     (configured_frame_to_velocity_control_frame h).
Definition set_configured_frame v h :=
  mk (si_unit_scaling_factor h) (tachometer_ratio_factor h) (gear_ratio_factor h)
     (gearbox_ratio h) (acceleration h) (deceleration h) (target_tolerance h)
     (profiler_timeout h) (stabilization_duration h) (stabilization_time h)
     (target_velocity h) (Some v)
     (configured_frame_to_velocity_control_frame h).
Definition set_factor v h :=
  mk (si_unit_scaling_factor h) (tachometer_ratio_factor h) (gear_ratio_factor h)
     (gearbox_ratio h) (acceleration h) (deceleration h) (target_tolerance h)
     (profiler_timeout h) (stabilization_duration h) (stabilization_time h)
     (target_velocity h) (configured_frame h) v.

(** The [if]/[elif] chain on [self.configured_frame]. *)
Definition select_factor (frame : VelocityParametersFrame) : M (env t) unit :=
  h <- gets self ;;
  match frame with
  | DRIVE_SHAFT_FRAME =>
      f <- truediv (gearbox_ratio h) (tachometer_ratio_factor h) ;;
      update (set_factor f)
  | MOTOR_SHAFT_FRAME =>
      f <- truediv 1 (tachometer_ratio_factor h) ;;
      update (set_factor f)
  | VELOCITY_CONTROL_FRAME =>
      update (set_factor 1)
  | POSITION_CONTROL_FRAME =>
      f <- truediv (gear_ratio_factor h) (tachometer_ratio_factor h) ;;
      update (set_factor f)
  end.

(** [VelocityProfileHandler.set_profiler_configuration].  The products are
    exact here and doubles in the code: outside the velocity control frame
    the integer that [int] makes of one can differ by one from the integer
    the code writes. *)
Definition set_profiler_configuration
    (velocity_parameters_frame : VelocityParametersFrame)
    (acceleration deceleration target_tolerance : Q)
    (profiler_timeout stabilization_duration : option Q) : M (env t) unit :=
  update (set_configured_frame velocity_parameters_frame) ;;
  select_factor velocity_parameters_frame ;;
  h <- gets self ;;
  let factor := configured_frame_to_velocity_control_frame h in
  update (set_target_tolerance (target_tolerance * factor)%Q) ;;
  update (set_acceleration (acceleration * factor)%Q) ;;
  update (set_deceleration (deceleration * factor)%Q) ;;
  h <- gets self ;;
  a <- times_si (Velocity.acceleration h) (si_unit_scaling_factor h) ;;
  invoke (od_profile_acceleration (int a)) ;;
  d <- times_si (Velocity.deceleration h) (si_unit_scaling_factor h) ;;
  invoke (od_profile_deceleration (int d)) ;;
  when_given profiler_timeout set_profiler_timeout ;;
  when_given stabilization_duration set_stabilization_duration ;;
  update (set_target 0) ;;
  h <- gets self ;;
  invoke (od_target_velocity (target_velocity h)).

(** [VelocityProfileHandler.set_target_velocity].  The product with the
    frame factor is exact here and a double in the code. *)
Definition set_target_velocity (target_velocity : Q) : M (env t) unit :=
  h <- gets self ;;
  update (set_target
            (int (target_velocity * configured_frame_to_velocity_control_frame h)%Q)) ;;
  h <- gets self ;;
  v <- times_si (inject_Z (Velocity.target_velocity h)) (si_unit_scaling_factor h) ;;
  invoke (od_target_velocity (int v)) ;;
  now <- time ;;
  update (set_stabilization_time (now + stabilization_duration h)%Q).

End Velocity.

(** *** ProfilePositionHandler *)
Module Position.

Record t : Type := mk {
  si_unit_scaling_factor : option Z;
  tachometer_ratio_factor : Z;
  gear_ratio_factor : Z;
  gearbox_ratio : Z;
  acceleration : Q;
  deceleration : Q;
  max_velocity : Q;
  target_tolerance : Q;
  profiler_timeout : Q;
  stabilization_duration : Q;
  stabilization_time : option Q;
  target_position : option Z;
  configured_frame : option VelocityParametersFrame;
  configured_frame_to_position_control_frame : Q
}.

Definition DEFAULT_TARGET_TOLERANCE : Q := 30.
Definition DEFAULT_PROFILER_TIMEOUT : Q := 20.
Definition DEFAULT_STABILIZATION_DURATION : Q := 2.

(** [ProfilePositionHandler.__init__] *)
Definition init {S} (d : Toolbox.od) : M S t :=
  let si := Toolbox.get_si_unit_scaling_factor d in
  tachometer <- Toolbox.get_tachometer_ratio d ;;
  gear <- Toolbox.get_gear_ratio d ;;
  gearbox <- Toolbox.get_gearbox_ratio d ;;
  ret (mk si tachometer gear gearbox 0 0 0
          DEFAULT_TARGET_TOLERANCE DEFAULT_PROFILER_TIMEOUT
          DEFAULT_STABILIZATION_DURATION None None None 0).

Definition set_acceleration v h :=
  mk (si_unit_scaling_factor h) (tachometer_ratio_factor h) (gear_ratio_factor h)
     (gearbox_ratio h) v (deceleration h) (max_velocity h) (target_tolerance h)
     (profiler_timeout h) (stabilization_duration h) (stabilization_time h)
     (target_position h) (configured_frame h)
     (configured_frame_to_position_control_frame h).
Definition set_deceleration v h :=
  mk (si_unit_scaling_factor h) (tachometer_ratio_factor h) (gear_ratio_factor h)
     (gearbox_ratio h) (acceleration h) v (max_velocity h) (target_tolerance h)
     (profiler_timeout h) (stabilization_duration h) (stabilization_time h)
     (target_position h) (configured_frame h)
     (configured_frame_to_position_control_frame h).
Definition set_max_velocity v h :=
  mk (si_unit_scaling_factor h) (tachometer_ratio_factor h) (gear_ratio_factor h)
     (gearbox_ratio h) (acceleration h) (deceleration h) v (target_tolerance h)
     (profiler_timeout h) (stabilization_duration h) (stabilization_time h)
     (target_position h) (configured_frame h)
     (configured_frame_to_position_control_frame h).
Definition set_target_tolerance v h :=
  mk (si_unit_scaling_factor h) (tachometer_ratio_factor h) (gear_ratio_factor h)
     (gearbox_ratio h) (acceleration h) (deceleration h) (max_velocity h) v
     (profiler_timeout h) (stabilization_duration h) (stabilization_time h)
     (target_position h) (configured_frame h)
     (configured_frame_to_position_control_frame h).
Definition set_profiler_timeout v h :=
  mk (si_unit_scaling_factor h) (tachometer_ratio_factor h) (gear_ratio_factor h)
     (gearbox_ratio h) (acceleration h) (deceleration h) (max_velocity h)
     (target_tolerance h) v (stabilization_duration h) (stabilization_time h)
     (target_position h) (configured_frame h)
     (configured_frame_to_position_control_frame h).
Definition set_stabilization_duration v h :=
  mk (si_unit_scaling_factor h) (tachometer_ratio_factor h) (gear_ratio_factor h)
     (gearbox_ratio h) (acceleration h) (deceleration h) (max_velocity h)
     (target_tolerance h) (profiler_timeout h) v (stabilization_time h)
     (target_position h) (configured_frame h)
     (configured_frame_to_position_control_frame h).
Definition set_stabilization_time v h :=
  mk (si_unit_scaling_factor h) (tachometer_ratio_factor h) (gear_ratio_factor h)
     (gearbox_ratio h) (acceleration h) (deceleration h) (max_velocity h)
     (target_tolerance h) (profiler_timeout h) (stabilization_duration h) (Some v)
     (target_position h) (configured_frame h)
     (configured_frame_to_position_control_frame h).
Definition set_target v h :=
  mk (si_unit_scaling_factor h) (tachometer_ratio_factor h) (gear_ratio_factor h)
     (gearbox_ratio h) (acceleration h) (deceleration h) (max_velocity h)
     (target_tolerance h) (profiler_timeout h) (stabilization_duration h)
     (stabilization_time h) (Some v) (configured_frame h)
     (configured_frame_to_position_control_frame h).
Definition set_configured_frame v h :=
  mk (si_unit_scaling_factor h) (tachometer_ratio_factor h) (gear_ratio_factor h)
     (gearbox_ratio h) (acceleration h) (deceleration h) (max_velocity h)
     (target_tolerance h) (profiler_timeout h) (stabilization_duration h)
     (stabilization_time h) (target_position h) (Some v)
     (configured_frame_to_position_control_frame h).
Definition set_factor v h :=
  mk (si_unit_scaling_factor h) (tachometer_ratio_factor h) (gear_ratio_factor h)
     (gearbox_ratio h) (acceleration h) (deceleration h) (max_velocity h)
     (target_tolerance h) (profiler_timeout h) (stabilization_duration h)
     (stabilization_time h) (target_position h) (configured_frame h) v.

(** The [if]/[elif] chain on [self.configured_frame]. *)
Definition select_factor (frame : VelocityParametersFrame) : M (env t) unit :=
  h <- gets self ;;
  match frame with
  | DRIVE_SHAFT_FRAME =>
      f <- truediv (gearbox_ratio h) (gear_ratio_factor h) ;;
      update (set_factor f)
  | MOTOR_SHAFT_FRAME =>
      f <- truediv 1 (gear_ratio_factor h) ;;
      update (set_factor f)
  | POSITION_CONTROL_FRAME =>
      update (set_factor 1)
  | VELOCITY_CONTROL_FRAME =>
      f <- truediv (tachometer_ratio_factor h) (gear_ratio_factor h) ;;
      update (set_factor f)
  end.

(** [ProfilePositionHandler.set_profiler_configuration].  The products are
    exact here and doubles in the code: outside the position control frame
    the integer that [int] makes of one can differ by one from the integer
    the code writes. *)
Definition set_profiler_configuration
    (velocity_parameters_frame : VelocityParametersFrame)
    (acceleration deceleration max_velocity : Q)
    (target_tolerance profiler_timeout stabilization_duration : option Q)
  : M (env t) unit :=
  update (set_configured_frame velocity_parameters_frame) ;;
  select_factor velocity_parameters_frame ;;
  h <- gets self ;;
  let factor := configured_frame_to_position_control_frame h in
  update (set_acceleration (acceleration * factor)%Q) ;;
  update (set_deceleration (deceleration * factor)%Q) ;;
  update (set_max_velocity (max_velocity * factor)%Q) ;;
  h <- gets self ;;
  a <- times_si (Position.acceleration h) (si_unit_scaling_factor h) ;;
  invoke (od_profile_acceleration (int a)) ;;
  d <- times_si (Position.deceleration h) (si_unit_scaling_factor h) ;;
  invoke (od_profile_deceleration (int d)) ;;
  v <- times_si (Position.max_velocity h) (si_unit_scaling_factor h) ;;
  invoke (od_profile_velocity (int v)) ;;
  when_given target_tolerance set_target_tolerance ;;
  when_given profiler_timeout set_profiler_timeout ;;
  when_given stabilization_duration set_stabilization_duration.

(** [ProfilePositionHandler.start_trajectory] *)
Definition start_trajectory (target_position : Z) : M (env t) unit :=
  update (set_target target_position) ;;
  invoke (od_target_position target_position) ;;
  invoke sc_pp_start_next_position_now ;;
  sleep (1 # 100) ;;
  invoke sc_pp_reset_bits ;;
  now <- time ;;
  h <- gets self ;;
  update (set_stabilization_time (now + stabilization_duration h)%Q).

(** [ProfilePositionHandler.is_target_reached]; [demand] is what
    [od.position_demand_internal_value()] returns to this call. *)
Definition is_target_reached (expected_position : option Z) (demand : Z)
  : M (env t) bool :=
  h <- gets self ;;
  match Position.target_position h with
  | None => raise (Failed TrajectoryNotStarted)
  | Some target =>
      let expected_position_internal :=
        match expected_position with
        | None => target
        | Some e => e
        end in
      invoke (od_position_demand_internal_value demand) ;;
      close <- isclose (inject_Z demand) (inject_Z expected_position_internal)
                 (Position.target_tolerance h) ;;
      now <- time ;;
      if close then
        match Position.stabilization_time h with
        | None => raise TypeError
        | Some deadline => if Qltb deadline now then ret true else ret false
        end
      else
        update (set_stabilization_time (now + stabilization_duration h)%Q) ;;
        ret false
  end.

(** A caller that polls: before each call of [is_target_reached] it lets
    [wait] seconds pass; the call is made with [expected] and the device
    answers [demand].  The answers of the calls are returned in order. *)
Record poll : Type := mkPoll {
  wait : Q;
  demand : Z;
  expected : option Z
}.

Fixpoint run_polls (polls : list poll) : M (env t) (list bool) :=
  match polls with
  | [] => ret []
  | p :: rest =>
      sleep (wait p) ;;
      b <- is_target_reached (expected p) (demand p) ;;
      bs <- run_polls rest ;;
      ret (b :: bs)
  end.

(** The wall-clock time of the [k]-th call made by [run_polls] when it
    starts at [now]. *)
Fixpoint poll_time (now : Q) (polls : list poll) (k : nat) : Q :=
  match polls with
  | [] => now
  | p :: rest =>
      match k with
      | O => (now + wait p)%Q
      | S k' => poll_time (now + wait p)%Q rest k'
      end
  end.

(** The demand of a poll is close to what the poll expects, in the sense
    of the [math.isclose] call of [is_target_reached]. *)
Definition in_tolerance (tolerance : Q) (target : Z) (p : poll) : bool :=
  close_enough (inject_Z (demand p))
    (inject_Z (match expected p with None => target | Some e => e end))
    tolerance.

(** The state after a call of [is_target_reached] that did not raise: the
    read is recorded, and the deadline moves when the demand is not close. *)
Definition polled (tolerance : Q) (target : Z) (p : poll)
    (e : env t) : env t :=
  mkEnv (if in_tolerance tolerance target p then self e
         else set_stabilization_time
                (clock e + stabilization_duration (self e))%Q (self e))
        (clock e)
        (od_position_demand_internal_value (demand p) :: calls e).

(** [ProfilePositionHandler.set_op_mode] *)
Definition set_op_mode : M (env t) unit := invoke (sc_set_op_mode PROFILE_POSITION).

(** [ProfilePositionHandler.enable_profiler] *)
Definition enable_profiler : M (env t) unit := invoke sc_enable_operation.

(** How [go_to_position] ends. *)
Inductive gone : Type :=
| Reached
    (* return *)
| NotAchieved (expected_position : option Z) (demand : Z) (target : option Z)
    (* pytest.fail("Expected position ({}) wasn't achieved ({}) when setting
       target position ({}).") *)
| Crashed (e : exn)
    (* an exception of start_trajectory or is_target_reached *)
| Unfinished.
    (* the fuel of the model ran out *)

(** The number of reads of the demand position made so far. *)
Definition demand_reads (c : list call) : nat :=
  List.length
    (filter (fun x => match x with
                      | od_position_demand_internal_value _ => true
                      | _ => false
                      end) c).

(** The [while True] loop of [go_to_position]; the device answers the
    [n]-th read of the demand position with [demand_at n]. *)
Fixpoint go_loop (demand_at : nat -> Z) (fuel : nat)
    (expected_position : option Z) (timeout : Q) (e : env t) : gone * env t :=
  match fuel with
  | O => (Unfinished, e)
  | S fuel' =>
      let e1 := mkEnv (self e) (clock e + (1 # 100))%Q (calls e) in
      match is_target_reached expected_position
              (demand_at (demand_reads (calls e1))) e1 with
      | (Ok true, e2) => (Reached, e2)
      | (Ok false, e2) =>
          if Qltb timeout (clock e2) then
            let demand_position_internal := demand_at (demand_reads (calls e2)) in
            (NotAchieved expected_position demand_position_internal
               (target_position (self e2)),
             mkEnv (self e2) (clock e2)
               (od_position_demand_internal_value demand_position_internal
                  :: calls e2))
          else go_loop demand_at fuel' expected_position timeout e2
      | (Raised x, e2) => (Crashed x, e2)
      | (OutOfFuel, e2) => (Unfinished, e2)
      end
  end.

(** [ProfilePositionHandler.go_to_position] *)
Definition go_to_position (demand_at : nat -> Z) (fuel : nat)
    (target_position : Z) (expected_position : option Z) (e : env t)
  : gone * env t :=
  match start_trajectory target_position e with
  | (Ok _, e1) =>
      let timeout := (clock e1 + profiler_timeout (self e1))%Q in
      go_loop demand_at fuel expected_position timeout e1
  | (Raised x, e1) => (Crashed x, e1)
  | (OutOfFuel, e1) => (Unfinished, e1)
  end.

End Position.

(** The conversion rule as the specification words it: the factor from
    the configured frame to the position-control frame, *)
Definition rule_to_position_control
    (gearbox_ratio gear_ratio tachometer_ratio : Z)
    (frame : VelocityParametersFrame) : Q :=
  match frame with
  | POSITION_CONTROL_FRAME => 1
  | MOTOR_SHAFT_FRAME => 1 / inject_Z gear_ratio
  | DRIVE_SHAFT_FRAME => inject_Z gearbox_ratio / inject_Z gear_ratio
  | VELOCITY_CONTROL_FRAME => inject_Z tachometer_ratio / inject_Z gear_ratio
  end%Q.

(** and the symmetric factor to the velocity-control frame. *)
Definition rule_to_velocity_control
    (gearbox_ratio gear_ratio tachometer_ratio : Z)
    (frame : VelocityParametersFrame) : Q :=
  match frame with
  | VELOCITY_CONTROL_FRAME => 1
  | MOTOR_SHAFT_FRAME => 1 / inject_Z tachometer_ratio
  | DRIVE_SHAFT_FRAME => inject_Z gearbox_ratio / inject_Z tachometer_ratio
  | POSITION_CONTROL_FRAME => inject_Z gear_ratio / inject_Z tachometer_ratio
  end%Q.

End Profiler.

(** * Properties *)

(** ** The command/response channel *)

Section ChannelFacts.

Import OsCmd.

Variable device : nat -> list Z.

Lemma in_progress_status_mem (status : Z) :
  mem status (status_in_progress OsCmdHandler_init) = true
  <-> in_progress_status status.
Proof.
  unfold in_progress_status, OsCmdHandler_init, mem,
    OsCmdStatus.IN_PROCESS_0, OsCmdStatus.IN_PROCESS_100,
    OsCmdStatus.CMD_IN_PROGRESS; cbn [status_in_progress].
  rewrite existsb_exists. split.
  - intros [x [Hin Heq]]. apply Z.eqb_eq in Heq. subst x.
    destruct Hin as [H | H]; [right; lia |].
    unfold range in H. apply in_map_iff in H.
    destruct H as [i [Hi Hseq]]. apply in_seq in Hseq. left. lia.
  - intros [H | H].
    + exists status. split; [| apply Z.eqb_refl].
      right. unfold range. apply in_map_iff.
      exists (Z.to_nat (status - 100)). split; [lia |].
      apply in_seq. lia.
    + exists status. split; [| apply Z.eqb_refl]. left. lia.
Qed.

Lemma terminal_status_not_mem (status : Z) :
  terminal_status status ->
  mem status (status_in_progress OsCmdHandler_init) = false.
Proof.
  intros H. destruct (mem status _) eqn:E; [| reflexivity].
  apply in_progress_status_mem in E.
  unfold terminal_status, in_progress_status,
    OsCmdStatus.COMPLETED_NOERROR_NOREPLY, OsCmdStatus.COMPLETED_NOERROR_WITHREPLY,
    OsCmdStatus.COMPLETED_WITHERROR_NOREPLY, OsCmdStatus.COMPLETED_WITHERROR_WITHREPLY,
    OsCmdStatus.IN_PROCESS_0, OsCmdStatus.IN_PROCESS_100,
    OsCmdStatus.CMD_IN_PROGRESS in *.
  lia.
Qed.

(** C1.  With a command in flight, [execute_command] fails with the
    "request while another one in progress" failure and leaves the state,
    hence the trace of register accesses, as it was: nothing is written.
    With no command in flight and a command made of bytes, it writes the
    command register exactly once and the command becomes the one in
    flight. *)
Theorem execute_command_single_outstanding (s : sys) (command : list Z) :
  (in_flight s ->
     execute_command command s = (Raised (Failed RequestWhileInProgress), s))
  /\ (~ in_flight s -> forallb is_byte command = true ->
      exists s',
        execute_command command s = (Ok tt, s')
        /\ trace s' = os_command_command command :: trace s
        /\ writes (trace s') = S (writes (trace s))
        /\ current_command (och s') = Some command
        /\ in_flight s').
Proof.
  unfold in_flight, execute_command, bind, gets. split.
  - intros H. destruct (current_command (och s)); [reflexivity | congruence].
  - intros H Hb. destruct (current_command (och s)) eqn:E.
    + exfalso. apply H. discriminate.
    + unfold bytes, modify, ret. rewrite Hb. cbn.
      eexists. split; [reflexivity |]. cbn. repeat split. discriminate.
Qed.

Lemma execute_command_single_outstanding_witness :
  let command := [5; 0; 0; 0; 0; 0; 0; 0] in
  let idle := Handler_init 25 0 in
  let busy := set_current_command (Some command) idle in
  execute_command command busy = (Raised (Failed RequestWhileInProgress), busy)
  /\ exists s',
       execute_command command idle = (Ok tt, s')
       /\ trace s' = os_command_command command :: trace idle
       /\ writes (trace s') = S (writes (trace idle))
       /\ current_command (och s') = Some command
       /\ in_flight s'.
Proof.
  intros command idle busy. split.
  - apply (proj1 (execute_command_single_outstanding busy command)).
    unfold in_flight. simpl. discriminate.
  - apply (proj2 (execute_command_single_outstanding idle command)).
    + unfold in_flight. simpl. intros H. apply H. reflexivity.
    + reflexivity.
Defined.

(** What one call of [get_response] does, by the status it reads. *)
Lemma get_response_in_progress (s : sys) (status : Z) (rest : list Z) :
  device (reads (trace s)) = status :: rest ->
  mem status (status_in_progress (och s)) = true ->
  get_response device s
  = (Ok (status :: rest), record (os_command_response (status :: rest)) s).
Proof.
  intros Hd Hm. unfold get_response, bind, gets, modify, index, ret.
  rewrite Hd. cbn. rewrite Hm. reflexivity.
Qed.

Lemma get_response_finished (s : sys) (status : Z) (rest : list Z) :
  device (reads (trace s)) = status :: rest ->
  mem status (status_in_progress (och s)) = false ->
  get_response device s
  = (Ok (status :: rest),
     record slot_freed
       (set_current_command None
          (record (os_command_response (status :: rest)) s))).
Proof.
  intros Hd Hm. unfold get_response, bind, gets, modify, index, ret.
  rewrite Hd. cbn. rewrite Hm. reflexivity.
Qed.

(** C2.  On a channel made by [__init__], a poll that reads a status of
    the in-progress set (IN_PROCESS_0..IN_PROCESS_100 or CMD_IN_PROGRESS)
    returns the raw response and only records the read: the in-flight
    marker is untouched.  A poll that reads one of the four terminal
    statuses returns the raw response, performs one read, frees the slot
    exactly once, and leaves no active command. *)
Theorem get_response_marker (s : sys) (status : Z) (rest : list Z) :
  constructed s ->
  device (reads (trace s)) = status :: rest ->
  (in_progress_status status ->
     exists s',
       get_response device s = (Ok (status :: rest), s')
       /\ och s' = och s
       /\ frees (trace s') = frees (trace s)
       /\ reads (trace s') = S (reads (trace s))
       /\ writes (trace s') = writes (trace s))
  /\ (terminal_status status ->
      exists s',
        get_response device s = (Ok (status :: rest), s')
        /\ current_command (och s') = None
        /\ fst (get_active_command s') = Ok None
        /\ frees (trace s') = S (frees (trace s))
        /\ reads (trace s') = S (reads (trace s))
        /\ writes (trace s') = writes (trace s)).
Proof.
  intros Hc Hd. split; intros Hs.
  - apply in_progress_status_mem in Hs. rewrite <- Hc in Hs.
    rewrite (get_response_in_progress s status rest Hd Hs).
    eexists. split; [reflexivity |]. cbn. auto.
  - apply terminal_status_not_mem in Hs. rewrite <- Hc in Hs.
    rewrite (get_response_finished s status rest Hd Hs).
    eexists. split; [reflexivity |]. cbn. auto.
Qed.

End ChannelFacts.

Lemma get_response_marker_witness :
  let command := [5; 0; 0; 0; 0; 0; 0; 0] in
  let s := OsCmd.set_current_command (Some command) (OsCmd.Handler_init 25 0) in
  (exists s',
     OsCmd.get_response (fun _ => [150; 0; 0; 0; 0; 0; 0; 0]) s
     = (Ok [150; 0; 0; 0; 0; 0; 0; 0], s')
     /\ OsCmd.och s' = OsCmd.och s
     /\ OsCmd.frees (OsCmd.trace s') = OsCmd.frees (OsCmd.trace s)
     /\ OsCmd.reads (OsCmd.trace s') = S (OsCmd.reads (OsCmd.trace s))
     /\ OsCmd.writes (OsCmd.trace s') = OsCmd.writes (OsCmd.trace s))
  /\ (exists s',
        OsCmd.get_response (fun _ => [1; 0; 1; 44; 0; 0; 0; 0]) s
        = (Ok [1; 0; 1; 44; 0; 0; 0; 0], s')
        /\ OsCmd.current_command (OsCmd.och s') = None
        /\ fst (OsCmd.get_active_command s') = Ok None
        /\ OsCmd.frees (OsCmd.trace s') = S (OsCmd.frees (OsCmd.trace s))
        /\ OsCmd.reads (OsCmd.trace s') = S (OsCmd.reads (OsCmd.trace s))
        /\ OsCmd.writes (OsCmd.trace s') = OsCmd.writes (OsCmd.trace s)).
Proof.
  intros command s. split.
  - apply (proj1 (get_response_marker (fun _ => [150; 0; 0; 0; 0; 0; 0; 0])
                    s 150 [0; 0; 0; 0; 0; 0; 0] eq_refl eq_refl)).
    left. unfold OsCmd.OsCmdStatus.IN_PROCESS_0, OsCmd.OsCmdStatus.IN_PROCESS_100. lia.
  - apply (proj2 (get_response_marker (fun _ => [1; 0; 1; 44; 0; 0; 0; 0])
                    s 1 [0; 1; 44; 0; 0; 0; 0] eq_refl eq_refl)).
    right. left. reflexivity.
Defined.

(** ** The command adapters *)

Section AdapterFacts.

Import OsCmd.

Variable device : nat -> list Z.

Lemma success_status_cases (a : adapter) :
  success_status a = 0 \/ success_status a = 1.
Proof. unfold success_status. destruct (reply_kind a); auto. Qed.

Lemma get_response_returns (s : sys) (status : Z) (rest : list Z) :
  device (reads (trace s)) = status :: rest ->
  exists s1, get_response device s = (Ok (status :: rest), s1)
             /\ timeout s1 = timeout s
             /\ status_in_progress (och s1) = status_in_progress (och s).
Proof.
  intros Hd.
  destruct (mem status (status_in_progress (och s))) eqn:Hm.
  - rewrite (get_response_in_progress device s status rest Hd Hm).
    eexists. split; [reflexivity |]. cbn. auto.
  - rewrite (get_response_finished device s status rest Hd Hm).
    eexists. split; [reflexivity |]. cbn. auto.
Qed.

Lemma check_response_unfold (fuel : nat) (a : adapter) (s : sys) :
  check_response device fuel a s
  = poll_loop device fuel a (clock s + timeout s)%Q s.
Proof. reflexivity. Qed.

(** A poll that reads the status on which the adapter returns. *)
Lemma poll_loop_success (a : adapter) (fuel : nat) (deadline : Q) (s : sys)
    (status : Z) (rest : list Z) :
  device (reads (trace s)) = status :: rest ->
  status = success_status a ->
  forall s0, fst (poll_loop device (S fuel) a deadline s)
             = fst (decode (reply_kind a) (status :: rest) s0).
Proof.
  intros Hd Hs s0. cbn [poll_loop]. unfold check_once. unfold bind at 1 2.
  destruct (get_response_returns s status rest Hd) as [s1 [-> _]].
  unfold bind, sleep, modify, index, gets, ret. cbn.
  rewrite Hs, Z.eqb_refl.
  destruct (reply_kind a);
    destruct rest as [| r1 [| r2 [| r3 [| r4 [| r5 rest]]]]]; reflexivity.
Qed.

(** *** Byte packing *)

Lemma testbit_byte_mask (k n : Z) :
  0 <= k -> 0 <= n ->
  Z.testbit (Z.shiftl 255 k) n = (k <=? n) && (n <? k + 8).
Proof.
  intros Hk Hn. change 255 with (Z.ones 8).
  rewrite Z.shiftl_spec by assumption.
  destruct (Z.leb_spec k n); cbn [andb].
  - destruct (Z.ltb_spec n (k + 8)).
    + apply Z.ones_spec_low. lia.
    + apply Z.ones_spec_high. lia.
  - apply Z.testbit_neg_r. lia.
Qed.

Lemma testbit_above (v n : Z) :
  0 <= v < 2 ^ 32 -> 32 <= n -> Z.testbit v n = false.
Proof.
  intros Hv Hn. destruct (Z.eq_dec v 0) as [-> | Hz]; [apply Z.bits_0 |].
  apply Z.bits_above_log2; [lia |].
  assert (Z.log2 v < 32) by (apply Z.log2_lt_pow2; lia). lia.
Qed.

(** The byte of [v] at bit offset [k], put back at its offset. *)
Lemma testbit_byte_field (v k n : Z) :
  0 <= k -> 0 <= n ->
  Z.testbit (Z.shiftl (Z.shiftr (Z.land v (Z.shiftl 255 k)) k) k) n
  = Z.testbit v n && ((k <=? n) && (n <? k + 8)).
Proof.
  intros Hk Hn. rewrite Z.shiftl_spec by assumption.
  destruct (Z.leb_spec k n) as [Hkn | Hkn].
  - rewrite Z.shiftr_spec by lia.
    replace (n - k + k) with n by lia.
    rewrite Z.land_spec, testbit_byte_mask by lia.
    destruct (Z.leb_spec k n); [reflexivity | lia].
  - rewrite Z.testbit_neg_r by lia. cbn. rewrite andb_false_r. reflexivity.
Qed.

Lemma decode_u32_field_mode (v : Z) :
  0 <= v < 2 ^ 32 ->
  decode_u32 (Z.shiftr (Z.land v 4278190080) 24)
             (Z.shiftr (Z.land v 16711680) 16)
             (Z.shiftr (Z.land v 65280) 8)
             (Z.land v 255) = v.
Proof.
  intros Hv. unfold decode_u32.
  change (Z.land v 255)
    with (Z.shiftl (Z.shiftr (Z.land v (Z.shiftl 255 0)) 0) 0).
  change 4278190080 with (Z.shiftl 255 24).
  change 16711680 with (Z.shiftl 255 16).
  change 65280 with (Z.shiftl 255 8).
  apply Z.bits_inj'. intros n Hn.
  rewrite !Z.lor_spec, !testbit_byte_field by lia.
  destruct (Z.ltb_spec n 32) as [H32 | H32].
  - destruct (Z.testbit v n); [| reflexivity]. cbn [andb].
    destruct (Z.leb_spec 24 n), (Z.leb_spec 16 n), (Z.leb_spec 8 n),
      (Z.leb_spec 0 n), (Z.ltb_spec n (24 + 8)), (Z.ltb_spec n (16 + 8)),
      (Z.ltb_spec n (8 + 8)), (Z.ltb_spec n (0 + 8)); cbn; try reflexivity; lia.
  - rewrite (testbit_above v n Hv H32). reflexivity.
Qed.

(** C7.  A value below 2^32 packed by an open-loop field-mode setter into
    the command bytes b2..b5 is recovered by the four-byte big-endian reply
    rule from any response that carries those four bytes at positions 2..5. *)
Theorem field_mode_value_round_trip (b1 v : Z) (response : list Z) (s : sys) :
  0 <= v < 2 ^ 32 ->
  firstn 4 (skipn 2 response) = firstn 4 (skipn 2 (field_mode_command b1 v)) ->
  decode ReplyU32 response s = (Ok (VInt v), s).
Proof.
  intros Hv Hbytes.
  unfold field_mode_command in Hbytes.
  destruct response as [| r0 [| r1 [| r2 [| r3 [| r4 [| r5 rest]]]]]];
    cbn [firstn skipn] in Hbytes; try discriminate.
  injection Hbytes as -> -> -> ->.
  unfold decode, bind, index, ret. cbn [nth_error].
  rewrite (decode_u32_field_mode v Hv). reflexivity.
Qed.

(** C8.  On COMPLETED_NOERROR_WITHREPLY the commutation-offset adapter
    returns [response[2] << 8 | response[3]]; for the reply bytes 0x01 and
    0x2C this is 300. *)
Theorem commutation_offset_decoded (fuel : nat) (s : sys) (r1 r2 r3 : Z)
    (rest : list Z) :
  device (reads (trace s))
  = OsCmdStatus.COMPLETED_NOERROR_WITHREPLY :: r1 :: r2 :: r3 :: rest ->
  fst (check_response device (S fuel) CommutationOffsetMeasurementHandler s)
  = Ok (VInt (Z.lor (Z.shiftl r2 8) r3))
  /\ (r2 = 1 -> r3 = 44 ->
      fst (check_response device (S fuel) CommutationOffsetMeasurementHandler s)
      = Ok (VInt 300)).
Proof.
  intros Hd. rewrite check_response_unfold.
  rewrite (poll_loop_success CommutationOffsetMeasurementHandler fuel _ s _ _
             Hd eq_refl s).
  split; [reflexivity |]. intros -> ->. reflexivity.
Qed.

(** *** Device errors *)

Lemma error_with_reply_raises (A : Type) (a : adapter) (r0 r1 code : Z)
    (rest : list Z) (s : sys) :
  error_with_reply (A := A) a (r0 :: r1 :: code :: rest) s
  = (Raised (reported_error a code), s).
Proof.
  unfold error_with_reply, reported_error, enum_name, bind, index, ret, raise.
  cbn [nth_error].
  destruct (mem code (values OsCmdErrorCodes)).
  - destruct (name_of OsCmdErrorCodes code); reflexivity.
  - destruct (specific_codes a) as [codes |]; [| reflexivity].
    destruct (mem code (values codes)); [| reflexivity].
    destruct (name_of codes code); reflexivity.
Qed.

Lemma poll_loop_error_with_reply (a : adapter) (fuel : nat) (deadline : Q)
    (s : sys) (r1 code : Z) (rest : list Z) :
  device (reads (trace s))
  = OsCmdStatus.COMPLETED_WITHERROR_WITHREPLY :: r1 :: code :: rest ->
  fst (poll_loop device (S fuel) a deadline s) = Raised (reported_error a code).
Proof.
  intros Hd. cbn [poll_loop]. unfold check_once. unfold bind at 1 2.
  destruct (get_response_returns s _ _ Hd) as [s1 [-> _]].
  unfold bind, sleep, modify, index, gets, ret, success_status.
  destruct (reply_kind a); cbn -[error_with_reply];
    rewrite error_with_reply_raises; reflexivity.
Qed.

Lemma mem_In (x : Z) (l : list Z) : mem x l = true <-> In x l.
Proof.
  unfold mem. rewrite existsb_exists. split.
  - intros [y [Hy He]]. apply Z.eqb_eq in He. subst. exact Hy.
  - intros H. exists x. split; [exact H | apply Z.eqb_refl].
Qed.

Lemma mem_not_In (x : Z) (l : list Z) : ~ In x l -> mem x l = false.
Proof.
  intros H. destruct (mem x l) eqn:E; [| reflexivity].
  apply mem_In in E. contradiction.
Qed.

(** C9.  In every turn of the polling loop of each of the eleven adapters
    that reads COMPLETED_WITHERROR_WITHREPLY with the error code
    [response[2]]: when the code is a member, with name [name], of the
    generic error codes or of the error codes of the adapter's own opcode,
    the adapter raises [OsCommandException] with the code and that name;
    when it is a member of neither, the adapter fails with the
    unknown-error-code failure carrying the raw code; it never returns a
    value. *)
Theorem error_with_reply_reported (a : adapter) (fuel : nat) (deadline : Q)
    (s : sys) (r1 code : Z) (rest : list Z) :
  In a adapters ->
  device (reads (trace s))
  = OsCmdStatus.COMPLETED_WITHERROR_WITHREPLY :: r1 :: code :: rest ->
  let outcome := fst (poll_loop device (S fuel) a deadline s) in
  (forall name, In (name, code) (known_codes a) ->
     outcome = Raised (OsCommandException (OsErrorCode code name)))
  /\ (~ In code (values (known_codes a)) ->
      outcome = Raised (Failed (UnknownOsErrorCode code)))
  /\ (forall v, outcome <> Ok v).
Proof.
  intros Ha Hd outcome. subst outcome.
  rewrite (poll_loop_error_with_reply a fuel deadline s r1 code rest Hd).
  split; [| split].
  - intros name Hin. unfold reported_error.
    cbn in Ha.
    repeat (destruct Ha as [<- | Ha]; [
      cbn in Hin;
      repeat (destruct Hin as [Hin | Hin]; [injection Hin as <- <-; reflexivity |]);
      contradiction |]).
    contradiction.
  - intros Hn. unfold known_codes, values in Hn. rewrite map_app in Hn.
    unfold reported_error.
    rewrite (mem_not_In code (values OsCmdErrorCodes))
      by (intros H; apply Hn; apply in_or_app; left; exact H).
    destruct (specific_codes a) as [codes |]; [| reflexivity].
    rewrite (mem_not_In code (values codes))
      by (intros H; apply Hn; apply in_or_app; right; exact H).
    reflexivity.
  - intros v. discriminate.
Qed.

(** *** Timeout *)

Lemma check_once_in_progress (a : adapter) (deadline : Q) (s : sys)
    (status : Z) (rest : list Z) :
  constructed s ->
  device (reads (trace s)) = status :: rest ->
  in_progress_status status ->
  check_once device a deadline s
  = if Qltb deadline (clock s + poll_interval)
    then (Raised (timed_out a (timeout s)), turned (status :: rest) s)
    else (Ok None, turned (status :: rest) s).
Proof.
  intros Hc Hd Hs.
  assert (Hm : mem status (status_in_progress (och s)) = true)
    by (rewrite Hc; apply in_progress_status_mem; exact Hs).
  unfold check_once. unfold bind at 1.
  rewrite (get_response_in_progress device s status rest Hd Hm).
  unfold in_progress_status, OsCmdStatus.IN_PROCESS_0, OsCmdStatus.IN_PROCESS_100,
    OsCmdStatus.CMD_IN_PROGRESS in Hs.
  assert (H0 : (status =? success_status a) = false)
    by (destruct (success_status_cases a) as [-> | ->]; apply Z.eqb_neq; lia).
  assert (H3 : (status =? OsCmdStatus.COMPLETED_WITHERROR_WITHREPLY) = false)
    by (apply Z.eqb_neq; unfold OsCmdStatus.COMPLETED_WITHERROR_WITHREPLY; lia).
  assert (H2 : (status =? OsCmdStatus.COMPLETED_WITHERROR_NOREPLY) = false)
    by (apply Z.eqb_neq; unfold OsCmdStatus.COMPLETED_WITHERROR_NOREPLY; lia).
  unfold bind, sleep, modify, index, gets, time, ret, raise, timed_out. cbn.
  rewrite H0, H3, H2, andb_false_r, Hm.
  cbn. destruct (Qltb deadline (clock s + poll_interval)); [| reflexivity].
  destruct (timeout_is_exception a); reflexivity.
Qed.

(** The loop on a device that stays in progress: within [n] turns when the
    deadline is less than [n] poll intervals away. *)
Lemma poll_loop_times_out (a : adapter) (deadline : Q) :
  (forall n, exists status rest,
      device n = status :: rest /\ in_progress_status status) ->
  forall (n : nat) (s : sys),
    constructed s ->
    (clock s <= deadline)%Q ->
    (deadline - clock s < inject_Z (Z.of_nat n) * poll_interval)%Q ->
    forall fuel, (n <= fuel)%nat ->
      exists s',
        poll_loop device fuel a deadline s = (Raised (timed_out a (timeout s)), s')
        /\ (deadline < clock s')%Q
        /\ (clock s' <= deadline + poll_interval)%Q.
Proof.
  intros Hdev n. induction n as [| n IH]; intros s Hc Hle Hlt fuel Hfuel.
  - exfalso. change (inject_Z (Z.of_nat 0)) with 0%Q in Hlt.
    unfold poll_interval in Hlt. lra.
  - destruct fuel as [| fuel]; [lia |].
    destruct (Hdev (reads (trace s))) as [status [rest [Hd Hs]]].
    cbn [poll_loop]. unfold bind at 1.
    rewrite (check_once_in_progress a deadline s status rest Hc Hd Hs).
    destruct (Qltb deadline (clock s + poll_interval)) eqn:Hq.
    + eexists. split; [reflexivity |]. cbn [clock turned].
      unfold Qltb in Hq. apply negb_true_iff in Hq.
      split.
      * apply Qnot_le_lt. intros H. apply Qle_bool_iff in H. congruence.
      * lra.
    + unfold Qltb in Hq. apply negb_false_iff in Hq. apply Qle_bool_iff in Hq.
      destruct (IH (turned (status :: rest) s)) with (fuel := fuel)
        as [s' [Hrun [Hafter Hbound]]].
      * exact Hc.
      * exact Hq.
      * cbn [clock turned]. rewrite Nat2Z.inj_succ in Hlt.
        unfold Z.succ in Hlt. rewrite inject_Z_plus in Hlt.
        change (inject_Z 1) with 1%Q in Hlt.
        unfold poll_interval in *. set (x := inject_Z (Z.of_nat n)) in *. lra.
      * lia.
      * exists s'. split; [exact Hrun | split; assumption].
Qed.

(** C3.  With a timeout that is not negative, on a device whose every
    response carries an in-progress status, [check_response] ends (for all
    sufficient fuel) by raising the adapter's "in progress for ... seconds"
    failure; the clock, which advances by one poll interval in each turn,
    has then passed the timeout by at most one poll interval. *)
Theorem check_response_times_out (a : adapter) (s : sys) :
  constructed s ->
  (0 <= timeout s)%Q ->
  (forall n, exists status rest,
      device n = status :: rest /\ in_progress_status status) ->
  exists n, forall fuel, (n <= fuel)%nat ->
    exists s',
      check_response device fuel a s = (Raised (timed_out a (timeout s)), s')
      /\ (timeout s < clock s' - clock s)%Q
      /\ (clock s' - clock s <= timeout s + poll_interval)%Q.
Proof.
  intros Hc Ht Hdev.
  set (f := Qfloor (timeout s * 100)).
  assert (Hf : 0 <= f).
  { change 0 with (Qfloor 0). apply Qfloor_resp_le. lra. }
  exists (S (Z.to_nat f)). intros fuel Hfuel.
  rewrite check_response_unfold.
  destruct (poll_loop_times_out a (clock s + timeout s)%Q Hdev
              (S (Z.to_nat f)) s Hc) with (fuel := fuel)
    as [s' [Hrun [Hafter Hbound]]].
  - lra.
  - rewrite Nat2Z.inj_succ, Z2Nat.id by exact Hf.
    unfold Z.succ. pose proof (Qlt_floor (timeout s * 100)) as Hfl.
    fold f in Hfl. unfold poll_interval.
    set (x := inject_Z (f + 1)) in *. lra.
  - exact Hfuel.
  - exists s'. split; [exact Hrun |]. split; lra.
Qed.

End AdapterFacts.

(** The same on concrete devices. *)

Lemma field_mode_value_round_trip_witness :
  OsCmd.decode OsCmd.ReplyU32 [1; 0; 18; 52; 86; 120; 0; 0] (OsCmd.Handler_init 25 0)
  = (Ok (OsCmd.VInt 305419896), OsCmd.Handler_init 25 0).
Proof.
  apply (field_mode_value_round_trip 0 305419896).
  - split; [lia | reflexivity].
  - reflexivity.
Defined.

Lemma commutation_offset_decoded_witness :
  let device := fun _ : nat => [1; 0; 1; 44; 0; 0; 0; 0] in
  let s := OsCmd.Handler_init 25 0 in
  fst (OsCmd.check_response device 1 OsCmd.CommutationOffsetMeasurementHandler s)
  = Ok (OsCmd.VInt 300).
Proof.
  intros device s.
  apply (proj2 (commutation_offset_decoded device 0 s 0 1 44 [0; 0; 0; 0] eq_refl));
    reflexivity.
Defined.

Lemma error_with_reply_reported_witness :
  let device := fun _ : nat => [3; 0; 252; 0; 0; 0; 0; 0] in
  let s := OsCmd.Handler_init 1 0 in
  let a := OsCmd.EncoderRegisterCommunicationHandler in
  let outcome := fst (OsCmd.poll_loop device 1 a 1 s) in
  (forall name, In (name, 252) (OsCmd.known_codes a) ->
     outcome = Raised (OsCommandException (OsErrorCode 252 name)))
  /\ (~ In 252 (values (OsCmd.known_codes a)) ->
      outcome = Raised (Failed (UnknownOsErrorCode 252)))
  /\ (forall v, outcome <> Ok v).
Proof.
  intros device s a.
  apply (error_with_reply_reported device a 0 1 s 0 252 [0; 0; 0; 0; 0]).
  - left. reflexivity.
  - reflexivity.
Defined.

Example error_with_reply_known :
  fst (OsCmd.check_response (fun _ => [3; 0; 2; 0; 0; 0; 0; 0]) 1
         OsCmd.OpenPhaseDetectionHandler (OsCmd.Handler_init 25 0))
  = Raised (OsCommandException (OsErrorCode 2 "OPEN_TERMINAL_C")).
Proof. reflexivity. Qed.

Example error_with_reply_unknown :
  fst (OsCmd.check_response (fun _ => [3; 0; 2; 0; 0; 0; 0; 0]) 1
         OsCmd.PolePairDetectionHandler (OsCmd.Handler_init 25 0))
  = Raised (Failed (UnknownOsErrorCode 2)).
Proof. reflexivity. Qed.

Lemma check_response_times_out_witness :
  let device := fun _ : nat => [100; 0; 0; 0; 0; 0; 0; 0] in
  let s := OsCmd.Handler_init 1 0 in
  let a := OsCmd.EncoderRegisterCommunicationHandler in
  exists n, forall fuel, (n <= fuel)%nat ->
    exists s',
      OsCmd.check_response device fuel a s
      = (Raised (OsCmd.timed_out a (OsCmd.timeout s)), s')
      /\ (OsCmd.timeout s < OsCmd.clock s' - OsCmd.clock s)%Q
      /\ (OsCmd.clock s' - OsCmd.clock s <= OsCmd.timeout s + OsCmd.poll_interval)%Q.
Proof.
  intros device s a.
  apply (check_response_times_out device a s).
  - reflexivity.
  - discriminate.
  - intros n. exists 100, [0; 0; 0; 0; 0; 0; 0]. split; [reflexivity |].
    left. split; discriminate.
Defined.

(** With a negative timeout the loop still makes its one poll. *)
Example check_response_negative_timeout :
  let device := fun _ : nat => [255; 0; 0; 0; 0; 0; 0; 0] in
  let run := OsCmd.check_response device 1
               OsCmd.EncoderRegisterCommunicationHandler (OsCmd.Handler_init (-1) 0) in
  fst run = Raised (Failed (InProgressFor (-1)))
  /\ Qred (OsCmd.clock (snd run)) = (1 # 100)%Q
  /\ OsCmd.reads (OsCmd.trace (snd run)) = 1%nat.
Proof. vm_compute. repeat split. Qed.

Example check_response_times_out_run :
  let device := fun _ : nat => [255; 0; 0; 0; 0; 0; 0; 0] in
  let run := OsCmd.check_response device 200
               OsCmd.EncoderRegisterCommunicationHandler (OsCmd.Handler_init 1 0) in
  fst run = Raised (Failed (InProgressFor 1))
  /\ Qred (OsCmd.clock (snd run)) = (101 # 100)%Q
  /\ OsCmd.reads (OsCmd.trace (snd run)) = 101%nat.
Proof. vm_compute. repeat split. Qed.

(** ** The SI-unit scaling factor *)

Lemma get_si_unit_scaling_factor_unknown (d : Toolbox.od) :
  ~ In (Toolbox.si_unit_velocity d)
       [11814656; 4290004736; 4273227520; 4256450304] ->
  Toolbox.get_si_unit_scaling_factor d = None.
Proof.
  intros H. unfold Toolbox.get_si_unit_scaling_factor.
  destruct (Z.eqb_spec (Toolbox.si_unit_velocity d) 11814656) as [E | _];
    [exfalso; apply H; rewrite E; cbn; auto |].
  destruct (Z.eqb_spec (Toolbox.si_unit_velocity d) 4290004736) as [E | _];
    [exfalso; apply H; rewrite E; cbn; auto |].
  destruct (Z.eqb_spec (Toolbox.si_unit_velocity d) 4273227520) as [E | _];
    [exfalso; apply H; rewrite E; cbn; auto |].
  destruct (Z.eqb_spec (Toolbox.si_unit_velocity d) 4256450304) as [E | _];
    [exfalso; apply H; rewrite E; cbn; auto 6 |].
  reflexivity.
Qed.

Lemma velocity_init_scaling_factor (d : Toolbox.od) (S : Type) (st st' : S)
    (h : Profiler.Velocity.t) :
  Profiler.Velocity.init d st = (Ok h, st') ->
  Profiler.Velocity.si_unit_scaling_factor h = Toolbox.get_si_unit_scaling_factor d.
Proof.
  intros Hinit. unfold Profiler.Velocity.init, bind, ret in Hinit.
  destruct (Toolbox.get_tachometer_ratio d st) as [[? | ? |] s1]; try discriminate.
  destruct (Toolbox.get_gear_ratio d s1) as [[? | ? |] s2]; try discriminate.
  destruct (Toolbox.get_gearbox_ratio d s2) as [[? | ? |] s3]; try discriminate.
  injection Hinit as <- _. reflexivity.
Qed.

Lemma position_init_scaling_factor (d : Toolbox.od) (S : Type) (st st' : S)
    (h : Profiler.Position.t) :
  Profiler.Position.init d st = (Ok h, st') ->
  Profiler.Position.si_unit_scaling_factor h = Toolbox.get_si_unit_scaling_factor d.
Proof.
  intros Hinit. unfold Profiler.Position.init, bind, ret in Hinit.
  destruct (Toolbox.get_tachometer_ratio d st) as [[? | ? |] s1]; try discriminate.
  destruct (Toolbox.get_gear_ratio d s1) as [[? | ? |] s2]; try discriminate.
  destruct (Toolbox.get_gearbox_ratio d s2) as [[? | ? |] s3]; try discriminate.
  injection Hinit as <- _. reflexivity.
Qed.

(** C10.  [get_si_unit_scaling_factor] returns 1, 10, 100 and 1000 for the
    four coded SI prefixes and a factor for no other code: for every other
    code it returns [None], and a velocity or position supervisor built on
    such a device holds [None] as its scaling factor. *)
Theorem si_unit_scaling_factor_known_codes (d : Toolbox.od) :
  let code := Toolbox.si_unit_velocity d in
  let factor := Toolbox.get_si_unit_scaling_factor d in
  (code = 11814656 -> factor = Some 1)
  /\ (code = 4290004736 -> factor = Some 10)
  /\ (code = 4273227520 -> factor = Some 100)
  /\ (code = 4256450304 -> factor = Some 1000)
  /\ (forall f, factor = Some f ->
        In (code, f) [(11814656, 1); (4290004736, 10);
                      (4273227520, 100); (4256450304, 1000)])
  /\ (~ In code [11814656; 4290004736; 4273227520; 4256450304] ->
      factor = None
      /\ (forall (S : Type) (st st' : S) h,
            Profiler.Velocity.init d st = (Ok h, st') ->
            Profiler.Velocity.si_unit_scaling_factor h = None)
      /\ (forall (S : Type) (st st' : S) h,
            Profiler.Position.init d st = (Ok h, st') ->
            Profiler.Position.si_unit_scaling_factor h = None)).
Proof.
  intros code factor. subst code factor.
  split; [| split; [| split; [| split; [| split]]]].
  - unfold Toolbox.get_si_unit_scaling_factor. intros ->. reflexivity.
  - unfold Toolbox.get_si_unit_scaling_factor. intros ->. reflexivity.
  - unfold Toolbox.get_si_unit_scaling_factor. intros ->. reflexivity.
  - unfold Toolbox.get_si_unit_scaling_factor. intros ->. reflexivity.
  - unfold Toolbox.get_si_unit_scaling_factor. intros f.
    destruct (Z.eqb_spec (Toolbox.si_unit_velocity d) 11814656) as [-> | _];
      [intros [= <-]; cbn; auto |].
    destruct (Z.eqb_spec (Toolbox.si_unit_velocity d) 4290004736) as [-> | _];
      [intros [= <-]; cbn; auto |].
    destruct (Z.eqb_spec (Toolbox.si_unit_velocity d) 4273227520) as [-> | _];
      [intros [= <-]; cbn; auto |].
    destruct (Z.eqb_spec (Toolbox.si_unit_velocity d) 4256450304) as [-> | _];
      [intros [= <-]; cbn; auto 6 |].
    discriminate.
  - intros H. pose proof (get_si_unit_scaling_factor_unknown d H) as Hnone.
    split; [exact Hnone | split].
    + intros S st st' h Hinit.
      rewrite (velocity_init_scaling_factor d S st st' h Hinit). exact Hnone.
    + intros S st st' h Hinit.
      rewrite (position_init_scaling_factor d S st st' h Hinit). exact Hnone.
Qed.

(** A device with one encoder, used for commutation and motion control, a
    1:1 gearbox and an SI prefix code that is none of the four. *)
Lemma si_unit_scaling_factor_known_codes_witness :
  let d := Toolbox.mkOd 0 1 1 1 (fun _ => 8720) (fun _ _ => 1) in
  Toolbox.get_si_unit_scaling_factor d = None
  /\ (forall (S : Type) (st st' : S) h,
        Profiler.Velocity.init d st = (Ok h, st') ->
        Profiler.Velocity.si_unit_scaling_factor h = None)
  /\ (forall (S : Type) (st st' : S) h,
        Profiler.Position.init d st = (Ok h, st') ->
        Profiler.Position.si_unit_scaling_factor h = None).
Proof.
  intros d.
  apply (si_unit_scaling_factor_known_codes d).
  cbn. intros [H | [H | [H | [H | H]]]]; try discriminate H. exact H.
Defined.

Example supervisor_on_unknown_si_prefix :
  let d := Toolbox.mkOd 0 1 1 1 (fun _ => 8720) (fun _ _ => 1) in
  fst (Profiler.Velocity.init d tt)
  = Ok (Profiler.Velocity.mk None 1 1 1 0 0 0 20 2 None 0 None 0).
Proof. reflexivity. Qed.

(** ** The motion profile supervisors *)

Section ProfilerFacts.

Import Profiler.

(** *** Configuration and frame conversion *)

Lemma truediv_nonzero (S : Type) (a b : Z) (s : S) :
  b <> 0 -> truediv a b s = (Ok (inject_Z a / inject_Z b)%Q, s).
Proof.
  intros H. unfold truediv. destruct (Z.eqb_spec b 0); [contradiction | reflexivity].
Qed.

Lemma position_select_factor (frame : VelocityParametersFrame) (e : env Position.t) :
  frame = POSITION_CONTROL_FRAME \/ Position.gear_ratio_factor (self e) <> 0 ->
  Position.select_factor frame e
  = (Ok tt,
     mkEnv (Position.set_factor
              (rule_to_position_control (Position.gearbox_ratio (self e))
                 (Position.gear_ratio_factor (self e))
                 (Position.tachometer_ratio_factor (self e)) frame) (self e))
       (clock e) (calls e)).
Proof.
  intros H. unfold Position.select_factor, bind, gets, update, modify.
  destruct frame; cbn [rule_to_position_control];
    try (destruct H as [H | H]; [discriminate H |];
         rewrite (truediv_nonzero _ _ _ _ H); reflexivity).
  reflexivity.
Qed.


Lemma position_configuration_state (frame : VelocityParametersFrame)
    (a d v : Q) (tol pt sd : option Q) (e : env Position.t) :
  let h := self e in
  let k := rule_to_position_control (Position.gearbox_ratio h)
             (Position.gear_ratio_factor h) (Position.tachometer_ratio_factor h) frame in
  frame = POSITION_CONTROL_FRAME \/ Position.gear_ratio_factor h <> 0 ->
  let e' := snd (Position.set_profiler_configuration frame a d v tol pt sd e) in
  Position.configured_frame (self e') = Some frame
  /\ Position.configured_frame_to_position_control_frame (self e') = k
  /\ Position.acceleration (self e') = (a * k)%Q
  /\ Position.deceleration (self e') = (d * k)%Q
  /\ Position.max_velocity (self e') = (v * k)%Q.
Proof.
  intros h k Hk e'. subst h k e'.
  remember (Position.set_profiler_configuration frame a d v tol pt sd e) as r eqn:Hr.
  unfold Position.set_profiler_configuration in Hr.
  unfold bind at 1 in Hr. unfold update at 1, modify at 1 in Hr.
  unfold bind at 1 in Hr.
  rewrite position_select_factor in Hr by exact Hk.
  unfold bind, gets, update, modify, times_si, invoke, when_given, ret, raise in Hr.
  cbn in Hr.
  destruct (Position.si_unit_scaling_factor (self e)); cbn in Hr;
    [destruct tol, pt, sd; cbn in Hr |]; subst r; cbn; repeat split.
Qed.

Lemma velocity_select_factor (frame : VelocityParametersFrame) (e : env Velocity.t) :
  frame = VELOCITY_CONTROL_FRAME \/ Velocity.tachometer_ratio_factor (self e) <> 0 ->
  Velocity.select_factor frame e
  = (Ok tt,
     mkEnv (Velocity.set_factor
              (rule_to_velocity_control (Velocity.gearbox_ratio (self e))
                 (Velocity.gear_ratio_factor (self e))
                 (Velocity.tachometer_ratio_factor (self e)) frame) (self e))
       (clock e) (calls e)).
Proof.
  intros H. unfold Velocity.select_factor, bind, gets, update, modify.
  destruct frame; cbn [rule_to_velocity_control];
    try (destruct H as [H | H]; [discriminate H |];
         rewrite (truediv_nonzero _ _ _ _ H); reflexivity).
  reflexivity.
Qed.

Lemma velocity_configuration_state (frame : VelocityParametersFrame)
    (a d tol : Q) (pt sd : option Q) (e : env Velocity.t) :
  let h := self e in
  let k := rule_to_velocity_control (Velocity.gearbox_ratio h)
             (Velocity.gear_ratio_factor h) (Velocity.tachometer_ratio_factor h) frame in
  frame = VELOCITY_CONTROL_FRAME \/ Velocity.tachometer_ratio_factor h <> 0 ->
  let e' := snd (Velocity.set_profiler_configuration frame a d tol pt sd e) in
  Velocity.configured_frame (self e') = Some frame
  /\ Velocity.configured_frame_to_velocity_control_frame (self e') = k
  /\ Velocity.acceleration (self e') = (a * k)%Q
  /\ Velocity.deceleration (self e') = (d * k)%Q
  /\ Velocity.target_tolerance (self e') = (tol * k)%Q.
Proof.
  intros h k Hk e'. subst h k e'.
  remember (Velocity.set_profiler_configuration frame a d tol pt sd e) as r eqn:Hr.
  unfold Velocity.set_profiler_configuration in Hr.
  unfold bind at 1 in Hr. unfold update at 1, modify at 1 in Hr.
  unfold bind at 1 in Hr.
  rewrite velocity_select_factor in Hr by exact Hk.
  unfold bind, gets, update, modify, times_si, invoke, when_given, ret, raise in Hr.
  cbn in Hr.
  destruct (Velocity.si_unit_scaling_factor (self e)); cbn in Hr;
    [destruct pt, sd; cbn in Hr |]; subst r; cbn; repeat split.
Qed.





(** C4.  After [set_profiler_configuration] the conversion factor of the
    position supervisor is 1 for the position-control frame, 1/gear_ratio
    for the motor-shaft frame, gearbox_ratio/gear_ratio for the drive-shaft
    frame and tachometer_ratio/gear_ratio for the velocity-control frame
    (the divisor being non-zero); that of the velocity supervisor is the
    symmetric one with tachometer_ratio as the divisor.  Configured in its
    own control frame a supervisor has the factor 1 and stores every given
    value unchanged. *)
Theorem conversion_factor_selected (frame : VelocityParametersFrame) :
  (forall (e : env Position.t) (a d v : Q) (tol pt sd : option Q),
      let h := self e in
      frame = POSITION_CONTROL_FRAME \/ Position.gear_ratio_factor h <> 0 ->
      let e' := snd (Position.set_profiler_configuration frame a d v tol pt sd e) in
      Position.configured_frame_to_position_control_frame (self e')
      = rule_to_position_control (Position.gearbox_ratio h)
          (Position.gear_ratio_factor h) (Position.tachometer_ratio_factor h) frame
      /\ (frame = POSITION_CONTROL_FRAME ->
          Position.configured_frame_to_position_control_frame (self e') = 1%Q
          /\ (Position.acceleration (self e') == a)%Q
          /\ (Position.deceleration (self e') == d)%Q
          /\ (Position.max_velocity (self e') == v)%Q))
  /\ (forall (e : env Velocity.t) (a d tol : Q) (pt sd : option Q),
        let h := self e in
        frame = VELOCITY_CONTROL_FRAME \/ Velocity.tachometer_ratio_factor h <> 0 ->
        let e' := snd (Velocity.set_profiler_configuration frame a d tol pt sd e) in
        Velocity.configured_frame_to_velocity_control_frame (self e')
        = rule_to_velocity_control (Velocity.gearbox_ratio h)
            (Velocity.gear_ratio_factor h) (Velocity.tachometer_ratio_factor h) frame
        /\ (frame = VELOCITY_CONTROL_FRAME ->
            Velocity.configured_frame_to_velocity_control_frame (self e') = 1%Q
            /\ (Velocity.acceleration (self e') == a)%Q
            /\ (Velocity.deceleration (self e') == d)%Q
            /\ (Velocity.target_tolerance (self e') == tol)%Q)).
Proof.
  split.
  - intros e a d v tol pt sd h Hk e'.
    destruct (position_configuration_state frame a d v tol pt sd e Hk)
      as [_ [Hf [Ha [Hd Hv]]]].
    fold e' in Hf, Ha, Hd, Hv. fold h in Hf, Ha, Hd, Hv.
    split; [exact Hf |]. intros ->.
    rewrite Hf, Ha, Hd, Hv. cbn [rule_to_position_control].
    repeat split; apply Qmult_1_r.
  - intros e a d tol pt sd h Hk e'.
    destruct (velocity_configuration_state frame a d tol pt sd e Hk)
      as [_ [Hf [Ha [Hd Ht]]]].
    fold e' in Hf, Ha, Hd, Ht. fold h in Hf, Ha, Hd, Ht.
    split; [exact Hf |]. intros ->.
    rewrite Hf, Ha, Hd, Ht. cbn [rule_to_velocity_control].
    repeat split; apply Qmult_1_r.
Qed.

(** *** Stabilization *)

Lemma Qltb_lt (x y : Q) : Qltb x y = true <-> (x < y)%Q.
Proof.
  unfold Qltb. rewrite negb_true_iff. split.
  - intros H. apply Qnot_le_lt. intros Hle. apply Qle_bool_iff in Hle. congruence.
  - intros H. destruct (Qle_bool y x) eqn:E; [| reflexivity].
    apply Qle_bool_iff in E. lra.
Qed.

Lemma Qltb_ge (x y : Q) : Qltb x y = false <-> (y <= x)%Q.
Proof.
  unfold Qltb. rewrite negb_false_iff. apply Qle_bool_iff.
Qed.

(** What [math.isclose] with an absolute tolerance accepts. *)
Lemma close_enough_spec (a b tol : Q) :
  (0 <= tol)%Q ->
  close_enough a b tol = true
  <-> (Qabs (b - a) <= tol
       \/ Qabs (b - a) <= Qabs (rel_tol * b)
       \/ Qabs (b - a) <= Qabs (rel_tol * a))%Q.
Proof.
  intros Ht. unfold close_enough. rewrite !orb_true_iff, !Qle_bool_iff.
  split.
  - intros [[[H | H] | H] | H]; auto.
    apply Qeq_bool_iff in H. left.
    assert (E : (b - a == 0)%Q) by lra.
    rewrite (Qabs_wd _ _ E). exact Ht.
  - intros [H | [H | H]]; auto.
Qed.

Lemma is_target_reached_step (e : env Position.t) (target : Z) (d0 : Q)
    (p : Position.poll) :
  Position.target_position (self e) = Some target ->
  Position.stabilization_time (self e) = Some d0 ->
  let tol := Position.target_tolerance (self e) in
  Position.is_target_reached (Position.expected p) (Position.demand p) e
  = if Qltb tol 0
    then (Raised ValueError,
          mkEnv (self e) (clock e)
            (od_position_demand_internal_value (Position.demand p) :: calls e))
    else (Ok (Position.in_tolerance tol target p && Qltb d0 (clock e)),
          Position.polled tol target p e).
Proof.
  intros Ht Hd tol. subst tol.
  unfold Position.is_target_reached, bind, gets. cbn. rewrite Ht.
  unfold bind, invoke, modify, isclose, Position.polled, Position.in_tolerance. cbn.
  destruct (Qltb (Position.target_tolerance (self e)) 0); [reflexivity |].
  unfold ret, time, gets, update, modify, bind. cbn.
  destruct (close_enough _ _ _); cbn.
  - rewrite Hd. destruct (Qltb d0 (clock e)); reflexivity.
  - reflexivity.
Qed.

Lemma polled_fields (tol : Q) (target : Z) (p : Position.poll) (e : env Position.t) :
  Position.target_position (self (Position.polled tol target p e))
  = Position.target_position (self e)
  /\ Position.target_tolerance (self (Position.polled tol target p e))
     = Position.target_tolerance (self e)
  /\ Position.stabilization_duration (self (Position.polled tol target p e))
     = Position.stabilization_duration (self e)
  /\ clock (Position.polled tol target p e) = clock e.
Proof.
  unfold Position.polled. destruct (Position.in_tolerance tol target p); cbn; auto.
Qed.

Lemma run_polls_cons (p : Position.poll) (rest : list Position.poll)
    (e : env Position.t) (target : Z) (d0 : Q) (answers : list bool)
    (e2 : env Position.t) :
  Position.target_position (self e) = Some target ->
  Position.stabilization_time (self e) = Some d0 ->
  Position.run_polls (p :: rest) e = (Ok answers, e2) ->
  let tol := Position.target_tolerance (self e) in
  let ew := mkEnv (self e) (clock e + Position.wait p)%Q (calls e) in
  exists bs,
    answers = (Position.in_tolerance tol target p && Qltb d0 (clock ew)) :: bs
    /\ Position.run_polls rest (Position.polled tol target p ew) = (Ok bs, e2).
Proof.
  intros Ht Hd Hrun tol ew.
  cbn [Position.run_polls] in Hrun. unfold bind at 1 in Hrun.
  unfold sleep, modify in Hrun. fold ew in Hrun.
  unfold bind at 1 in Hrun.
  rewrite (is_target_reached_step ew target d0 p Ht Hd) in Hrun.
  cbn [self ew] in Hrun. fold tol in Hrun.
  destruct (Qltb tol 0); [discriminate Hrun |].
  unfold bind at 1 in Hrun.
  destruct (Position.run_polls rest (Position.polled tol target p ew)) as [[bs | ? |] e3];
    try discriminate Hrun.
  unfold ret in Hrun. injection Hrun as <- <-.
  exists bs. split; reflexivity.
Qed.

Lemma run_polls_sound (polls : list Position.poll) :
  forall (e : env Position.t) (target : Z) (d0 : Q) (answers : list bool)
         (e2 : env Position.t),
    Position.target_position (self e) = Some target ->
    Position.stabilization_time (self e) = Some d0 ->
    (d0 <= clock e + Position.stabilization_duration (self e))%Q ->
    (forall p, In p polls -> (0 <= Position.wait p)%Q) ->
    Position.run_polls polls e = (Ok answers, e2) ->
    forall k, nth_error answers k = Some true ->
      (d0 < Position.poll_time (clock e) polls k)%Q
      /\ forall j p, (j <= k)%nat -> nth_error polls j = Some p ->
           (Position.poll_time (clock e) polls k
              - Position.stabilization_duration (self e)
            <= Position.poll_time (clock e) polls j)%Q ->
           Position.in_tolerance (Position.target_tolerance (self e)) target p = true.
Proof.
  induction polls as [| p rest IH];
    intros e target d0 answers e2 Ht Hd Hinv Hwait Hrun k Hk.
  - cbn in Hrun. unfold ret in Hrun. injection Hrun as <- _.
    destruct k; discriminate Hk.
  - destruct (run_polls_cons p rest e target d0 answers e2 Ht Hd Hrun)
      as [bs [-> Hrest]].
    set (tol := Position.target_tolerance (self e)) in *.
    set (D := Position.stabilization_duration (self e)) in *.
    set (ew := mkEnv (self e) (clock e + Position.wait p)%Q (calls e)) in *.
    assert (Hw : (0 <= Position.wait p)%Q) by (apply Hwait; left; reflexivity).
    destruct k as [| k].
    + cbn in Hk. injection Hk as Hk. apply andb_true_iff in Hk.
      destruct Hk as [Hin Hlate]. apply Qltb_lt in Hlate. cbn in Hlate.
      cbn [Position.poll_time]. split; [exact Hlate |].
      intros j q Hj Hq _. assert (j = 0%nat) by lia. subst j.
      cbn in Hq. injection Hq as <-. exact Hin.
    + cbn [nth_error] in Hk. cbn [Position.poll_time].
      destruct (polled_fields tol target p ew) as [Ft [Ftol [Fd Fc]]].
      cbn [self clock ew] in Ft, Ftol, Fd, Fc. fold ew in Ft, Ftol, Fd, Fc.
      destruct (Position.in_tolerance tol target p) eqn:Hin.
      * (* the poll was in tolerance: the deadline stays *)
        assert (Hd1 : Position.stabilization_time (self (Position.polled tol target p ew))
                      = Some d0)
          by (unfold Position.polled; rewrite Hin; exact Hd).
        destruct (IH (Position.polled tol target p ew) target d0 bs e2) with (k := k)
          as [Hlate Hwin]; try assumption.
        -- rewrite Ft. exact Ht.
        -- rewrite Fd, Fc. fold D. unfold ew. cbn [clock]. lra.
        -- intros q Hq. apply Hwait. right. exact Hq.
        -- rewrite Fc in Hlate, Hwin. rewrite Fd, Ftol in Hwin.
           split; [exact Hlate |].
           intros [| j] q Hj Hq Hnear.
           ++ cbn in Hq. injection Hq as <-. exact Hin.
           ++ cbn [nth_error] in Hq. apply (Hwin j q); [lia | exact Hq | exact Hnear].
      * (* the poll was out of tolerance: the deadline moves *)
        assert (Hd1 : Position.stabilization_time (self (Position.polled tol target p ew))
                      = Some (clock ew + D)%Q)
          by (unfold Position.polled; rewrite Hin; reflexivity).
        destruct (IH (Position.polled tol target p ew) target (clock ew + D)%Q bs e2)
          with (k := k) as [Hlate Hwin]; try assumption.
        -- rewrite Ft. exact Ht.
        -- rewrite Fd, Fc. fold D. unfold ew. cbn [clock]. lra.
        -- intros q Hq. apply Hwait. right. exact Hq.
        -- rewrite Fc in Hlate, Hwin. rewrite Fd, Ftol in Hwin.
           cbn [clock ew] in Hlate, Hwin |- *.
           split; [lra |].
           intros [| j] q Hj Hq Hnear.
           ++ cbn [Position.poll_time] in Hnear. fold D in Hnear. lra.
           ++ cbn [nth_error] in Hq. apply (Hwin j q); [lia | exact Hq | exact Hnear].
Qed.

Lemma run_polls_returns (polls : list Position.poll) :
  forall (e : env Position.t) (target : Z) (d0 : Q),
    Position.target_position (self e) = Some target ->
    Position.stabilization_time (self e) = Some d0 ->
    (0 <= Position.target_tolerance (self e))%Q ->
    exists answers e2,
      Position.run_polls polls e = (Ok answers, e2)
      /\ List.length answers = List.length polls.
Proof.
  induction polls as [| p rest IH]; intros e target d0 Ht Hd Htol.
  - exists [], e. split; reflexivity.
  - set (tol := Position.target_tolerance (self e)) in *.
    set (ew := mkEnv (self e) (clock e + Position.wait p)%Q (calls e)).
    assert (Hneg : Qltb tol 0 = false) by (apply Qltb_ge; exact Htol).
    destruct (polled_fields tol target p ew) as [Ft [Ftol [Fd Fc]]].
    assert (Hd1 : exists d1,
               Position.stabilization_time (self (Position.polled tol target p ew)) = Some d1).
    { unfold Position.polled. destruct (Position.in_tolerance tol target p); cbn; eauto. }
    destruct Hd1 as [d1 Hd1].
    destruct (IH (Position.polled tol target p ew) target d1) as [bs [e2 [Hrest Hlen]]].
    + rewrite Ft. exact Ht.
    + exact Hd1.
    + rewrite Ftol. exact Htol.
    + exists ((Position.in_tolerance tol target p && Qltb d0 (clock ew)) :: bs), e2.
      split; [| cbn; rewrite Hlen; reflexivity].
      cbn [Position.run_polls]. unfold bind at 1. unfold sleep, modify. fold ew.
      unfold bind at 1.
      rewrite (is_target_reached_step ew target d0 p Ht Hd).
      cbn [self ew]. fold tol. rewrite Hneg.
      unfold bind at 1. rewrite Hrest. reflexivity.
Qed.

Lemma start_trajectory_runs (target : Z) (e : env Position.t) :
  Position.start_trajectory target e
  = (Ok tt,
     mkEnv (Position.set_stabilization_time
              (clock e + (1 # 100) + Position.stabilization_duration (self e))%Q
              (Position.set_target target (self e)))
       (clock e + (1 # 100))%Q
       (sc_pp_reset_bits :: sc_pp_start_next_position_now
          :: od_target_position target :: calls e)).
Proof. reflexivity. Qed.

(** X28.  The stabilization logic of [is_target_reached].  After
    [start_trajectory], for polls made at times that do not decrease:
    - with a tolerance that is not negative every call of
      [is_target_reached] returns;
    - a call answers [True] only when more than the stabilization duration
      has passed since the trajectory was started and every poll made
      within the last stabilization duration, this one included, read a
      demand that [math.isclose] accepts for the expected position;
    - a call that reads a demand that is not accepted answers [False] and
      sets the deadline to now plus the stabilization duration; a call
      that reads an accepted demand keeps the deadline, and answers [True]
      only when the deadline has passed;
    - [math.isclose] accepts a demand when it differs from the expected
      position by at most the target tolerance or by at most 1e-9 times
      the magnitude of either of the two. *)
Theorem target_reached_only_after_stabilization (e0 : env Position.t)
    (target : Z) (polls : list Position.poll) :
  let tol := Position.target_tolerance (self e0) in
  let D := Position.stabilization_duration (self e0) in
  let e1 := snd (Position.start_trajectory target e0) in
  (forall p, In p polls -> (0 <= Position.wait p)%Q) ->
  ((0 <= tol)%Q ->
     exists answers e2,
       Position.run_polls polls e1 = (Ok answers, e2)
       /\ List.length answers = List.length polls)
  /\ (forall answers e2,
        Position.run_polls polls e1 = (Ok answers, e2) ->
        forall k, nth_error answers k = Some true ->
          let t := Position.poll_time (clock e1) polls k in
          (clock e1 + D < t)%Q
          /\ forall j p, (j <= k)%nat -> nth_error polls j = Some p ->
               (t - D <= Position.poll_time (clock e1) polls j)%Q ->
               Position.in_tolerance tol target p = true)
  /\ (forall (e : env Position.t) (d0 : Q) (p : Position.poll),
        Position.target_position (self e) = Some target ->
        Position.stabilization_time (self e) = Some d0 ->
        (0 <= Position.target_tolerance (self e))%Q ->
        let close := Position.in_tolerance (Position.target_tolerance (self e)) target p in
        let r := Position.is_target_reached (Position.expected p) (Position.demand p) e in
        (close = false ->
           fst r = Ok false
           /\ Position.stabilization_time (self (snd r))
              = Some (clock e + Position.stabilization_duration (self e))%Q)
        /\ (close = true ->
            Position.stabilization_time (self (snd r)) = Some d0)
        /\ (fst r = Ok true -> close = true /\ (d0 < clock e)%Q))
  /\ (forall p : Position.poll,
        (0 <= tol)%Q ->
        let x := inject_Z (match Position.expected p with
                           | None => target | Some x => x end) in
        let d := inject_Z (Position.demand p) in
        Position.in_tolerance tol target p = true
        <-> (Qabs (x - d) <= tol
             \/ Qabs (x - d) <= Qabs (rel_tol * x)
             \/ Qabs (x - d) <= Qabs (rel_tol * d))%Q).
Proof.
  intros tol D e1 Hwait.
  assert (He1 : e1 = mkEnv (Position.set_stabilization_time
                              (clock e0 + (1 # 100) + D)%Q
                              (Position.set_target target (self e0)))
                       (clock e0 + (1 # 100))%Q
                       (sc_pp_reset_bits :: sc_pp_start_next_position_now
                          :: od_target_position target :: calls e0))
    by (unfold e1; rewrite start_trajectory_runs; reflexivity).
  split; [| split; [| split]].
  - intros Htol.
    apply (run_polls_returns polls e1 target (clock e0 + (1 # 100) + D)%Q);
      rewrite He1; cbn; auto.
  - intros answers e2 Hrun k Hk t.
    destruct (run_polls_sound polls e1 target (clock e1 + D)%Q answers e2)
      with (k := k) as [Hlate Hwin]; try assumption.
    + rewrite He1. reflexivity.
    + rewrite He1. reflexivity.
    + rewrite He1. cbn. apply Qle_refl.
    + split; [exact Hlate |].
      intros j p Hj Hp Hnear. apply (Hwin j p Hj Hp).
      replace (Position.stabilization_duration (self e1)) with D
        by (rewrite He1; reflexivity).
      exact Hnear.
  - intros e d0 p Ht Hd Htol close r. subst r.
    rewrite (is_target_reached_step e target d0 p Ht Hd).
    assert (Hneg : Qltb (Position.target_tolerance (self e)) 0 = false)
      by (apply Qltb_ge; exact Htol).
    rewrite Hneg. fold close. unfold Position.polled. fold close.
    split; [| split].
    + intros ->. cbn. split; reflexivity.
    + intros ->. cbn. exact Hd.
    + cbn. intros [= H]. apply andb_true_iff in H. destruct H as [Hc Hl].
      split; [exact Hc | apply Qltb_lt; exact Hl].
  - intros p Htol x d. unfold Position.in_tolerance.
    rewrite (close_enough_spec _ _ _ Htol). reflexivity.
Qed.

End ProfilerFacts.

(** The same on concrete supervisors.  [plain_position] is what
    [ProfilePositionHandler.__init__] makes on a device with one encoder, a
    1:1 gearbox and the SI prefix code of the factor 1. *)

Example plain_position_init :
  let d := Toolbox.mkOd 11814656 1 1 1 (fun _ => 8720) (fun _ _ => 1) in
  fst (Profiler.Position.init d tt)
  = Ok (Profiler.Position.mk (Some 1) 1 1 1 0 0 0 30 20 2 None None None 0).
Proof. reflexivity. Qed.

Lemma conversion_factor_selected_witness :
  let h := Profiler.Position.mk (Some 1) 2 3 6 0 0 0 30 20 2 None None None 0 in
  let e' := snd (Profiler.Position.set_profiler_configuration
                   Profiler.DRIVE_SHAFT_FRAME 1000 1000 1000 None None None
                   (Profiler.mkEnv h 0 [])) in
  Profiler.Position.configured_frame_to_position_control_frame (Profiler.self e')
  = (inject_Z 6 / inject_Z 3)%Q.
Proof.
  intros h e'.
  apply (proj1 (conversion_factor_selected Profiler.DRIVE_SHAFT_FRAME)
           (Profiler.mkEnv h 0 []) 1000%Q 1000%Q 1000%Q None None None).
  right. cbn. discriminate.
Defined.

Example velocity_target_in_motor_shaft_frame :
  let h := Profiler.Velocity.mk (Some 10) 2 1 1 0 0 0 20 2 None 0 None 0 in
  let e1 := snd (Profiler.Velocity.set_profiler_configuration
                   Profiler.MOTOR_SHAFT_FRAME 1000 1000 5 None None
                   (Profiler.mkEnv h 0 [])) in
  let e2 := snd (Profiler.Velocity.set_target_velocity 100 e1) in
  Profiler.Velocity.target_velocity (Profiler.self e2) = 50
  /\ Profiler.calls e2
     = [Profiler.od_target_velocity 500; Profiler.od_target_velocity 0;
        Profiler.od_profile_deceleration 5000;
        Profiler.od_profile_acceleration 5000].
Proof. vm_compute. split; reflexivity. Qed.



Example set_profiler_configuration_keeps_torque_target :
  let e1 := snd (Profiler.Torque.set_target_torque 5
                   (Profiler.mkEnv Profiler.Torque.init 0 [])) in
  let run := Profiler.Torque.set_profiler_configuration 100 10 None None e1 in
  fst run = Ok tt
  /\ Profiler.calls (snd run)
     = [Profiler.od_torque_slope 100; Profiler.od_target_torque 5]
  /\ Profiler.Torque.target_torque (Profiler.self (snd run)) = 5%Q.
Proof. vm_compute. repeat split. Qed.

(** A trajectory to 1000 that starts 500 ticks away, tolerance 30,
    stabilization 2 s, polled once a second: the demand enters the
    tolerance at the second poll; the answer is [True] from the fourth. *)
Example position_target_scenario :
  let h := Profiler.Position.mk (Some 1) 1 1 1 0 0 0 30 20 2 None None None 0 in
  let e1 := snd (Profiler.Position.start_trajectory 1000 (Profiler.mkEnv h 0 [])) in
  let polls := map (fun d => Profiler.Position.mkPoll 1 d None)
                   [500; 980; 1000; 1000; 1000] in
  fst (Profiler.Position.run_polls polls e1)
  = Ok [false; false; false; true; true].
Proof. vm_compute. reflexivity. Qed.

Lemma target_reached_only_after_stabilization_witness :
  let h := Profiler.Position.mk (Some 1) 1 1 1 0 0 0 30 20 2 None None None 0 in
  let e0 := Profiler.mkEnv h 0 [] in
  let e1 := snd (Profiler.Position.start_trajectory 1000 e0) in
  let polls := map (fun d => Profiler.Position.mkPoll 1 d None)
                   [500; 980; 1000; 1000; 1000] in
  (exists answers e2,
      Profiler.Position.run_polls polls e1 = (Ok answers, e2)
      /\ List.length answers = List.length polls)
  /\ (let t := Profiler.Position.poll_time (Profiler.clock e1) polls 3 in
      (Profiler.clock e1 + 2 < t)%Q
      /\ forall j p, (j <= 3)%nat -> nth_error polls j = Some p ->
           (t - 2 <= Profiler.Position.poll_time (Profiler.clock e1) polls j)%Q ->
           Profiler.Position.in_tolerance 30 1000 p = true).
Proof.
  intros h e0 e1 polls.
  assert (Hwait : forall p, In p polls -> (0 <= Profiler.Position.wait p)%Q).
  { intros p Hp. cbn in Hp.
    repeat (destruct Hp as [<- | Hp]; [discriminate |]). contradiction. }
  split.
  - apply (proj1 (target_reached_only_after_stabilization e0 1000 polls Hwait)).
    discriminate.
  - apply (proj1 (proj2 (target_reached_only_after_stabilization e0 1000 polls Hwait))
             [false; false; false; true; true]
             (snd (Profiler.Position.run_polls polls e1))).
    + vm_compute. reflexivity.
    + reflexivity.
Defined.

(** C6.  The code at the input where it leaves the claim: the tolerance
    is set to 1 tick, the stabilization duration is 2 s, a trajectory to
    2000000000 is started; a poll three seconds later reads the demand
    2000000002, two ticks from the target and so outside the tolerance,
    and [is_target_reached] answers [True].  [math.isclose] is called with
    [abs_tol] alone, and its default relative tolerance accepts the
    demand. *)
Lemma target_reached_outside_absolute_tolerance :
  let h := Profiler.Position.mk (Some 1) 1 1 1 0 0 0 30 20 2 None None None 0 in
  let e0 := snd (Profiler.Position.set_profiler_configuration
                   Profiler.POSITION_CONTROL_FRAME 1000 1000 1000
                   (Some 1%Q) None None (Profiler.mkEnv h 0 [])) in
  let e1 := snd (Profiler.Position.start_trajectory 2000000000 e0) in
  let p := Profiler.Position.mkPoll 3 2000000002 None in
  Profiler.Position.target_tolerance (Profiler.self e1) = 1%Q
  /\ Profiler.Position.stabilization_duration (Profiler.self e1) = 2%Q
  /\ fst (Profiler.Position.run_polls [p] e1) = Ok [true]
  /\ ~ (Qabs (inject_Z 2000000002 - inject_Z 2000000000)
        <= Profiler.Position.target_tolerance (Profiler.self e1))%Q.
Proof. vm_compute. repeat split. intros H. apply H. reflexivity. Qed.

(** * Further properties of the code *)

(** ** The command/response channel and the adapters *)

Section ChannelExtras.

Import OsCmd.

Variable device : nat -> list Z.

(** X1.  [execute_command] stores the command before it converts it to
    bytes.  On an idle channel a command with an item outside 0..255
    raises [ValueError] and nothing is written to the device, yet the
    command is left as the current one: the channel is taken, and every
    later [execute_command] fails with "request received when another one
    was already in progress". *)
Theorem execute_command_invalid_bytes (s : sys) (command : list Z) :
  ~ in_flight s ->
  forallb is_byte command = false ->
  let s' := set_current_command (Some command) s in
  execute_command command s = (Raised ValueError, s')
  /\ trace s' = trace s
  /\ in_flight s'
  /\ forall next, execute_command next s'
                  = (Raised (Failed RequestWhileInProgress), s').
Proof.
  intros Hidle Hb s'. split; [| split; [| split]].
  - unfold in_flight in Hidle. unfold execute_command, bind, gets.
    destruct (current_command (och s)) eqn:Hc.
    + exfalso. apply Hidle. discriminate.
    + unfold bytes, modify, raise. rewrite Hb. reflexivity.
  - reflexivity.
  - unfold in_flight. cbn. discriminate.
  - intros next. reflexivity.
Qed.

Lemma get_response_keeps (s : sys) :
  let s' := snd (get_response device s) in
  status_in_progress (och s') = status_in_progress (och s)
  /\ current_mode (och s') = current_mode (och s)
  /\ timeout s' = timeout s
  /\ clock s' = clock s
  /\ writes (trace s') = writes (trace s)
  /\ reads (trace s') = S (reads (trace s)).
Proof.
  cbv zeta. destruct (device (reads (trace s))) as [| status rest] eqn:Hd.
  - unfold get_response, bind, gets, modify, index, ret, raise.
    rewrite Hd. cbn. repeat split.
  - destruct (mem status (status_in_progress (och s))) eqn:Hm.
    + rewrite (get_response_in_progress device s status rest Hd Hm).
      cbn. repeat split.
    + rewrite (get_response_finished device s status rest Hd Hm).
      cbn. repeat split.
Qed.

Lemma bind_keeps (A B : Type) (m : M sys A) (k : A -> M sys B) :
  (forall s, snd (m s) = s) -> (forall a s, snd (k a s) = s) ->
  forall s, snd (bind m k s) = s.
Proof.
  intros Hm Hk s. unfold bind. specialize (Hm s).
  destruct (m s) as [[a | e |] s1]; cbn in Hm; subst s1; cbn; auto.
Qed.

Lemma index_keeps (l : list Z) (i : nat) (s : sys) : snd (index l i s) = s.
Proof. unfold index. destruct (nth_error l i); reflexivity. Qed.

Lemma decode_keeps (k : reply) (response : list Z) (s : sys) :
  snd (decode k response s) = s.
Proof.
  revert s. destruct k; cbn [decode]; try reflexivity;
    repeat (apply bind_keeps; [intros; apply index_keeps | intros ?]);
    reflexivity.
Qed.

Lemma error_with_reply_keeps (A : Type) (a : adapter) (response : list Z) (s : sys) :
  snd (error_with_reply (A := A) a response s) = s.
Proof.
  revert s. unfold error_with_reply.
  apply bind_keeps; [intros; apply index_keeps | intros code s].
  unfold enum_name.
  destruct (mem code (values OsCmdErrorCodes)).
  - destruct (name_of OsCmdErrorCodes code); reflexivity.
  - destruct (specific_codes a) as [codes |]; [| reflexivity].
    destruct (mem code (values codes)); [| reflexivity].
    destruct (name_of codes code); reflexivity.
Qed.

(** The state after one turn of the loop: that of the read, a poll interval
    later unless the read itself raised. *)
Lemma check_once_state (a : adapter) (deadline : Q) (s : sys) :
  snd (check_once device a deadline s)
  = match get_response device s with
    | (Ok _, s1) =>
        {| och := och s1; timeout := timeout s1;
           clock := (clock s1 + poll_interval)%Q; trace := trace s1 |}
    | (_, s1) => s1
    end.
Proof.
  unfold check_once. unfold bind at 1.
  destruct (get_response device s) as [[response | e |] s1]; try reflexivity.
  unfold bind at 1. unfold sleep at 1, modify at 1.
  set (s2 := {| och := och s1; timeout := timeout s1;
                clock := (clock s1 + poll_interval)%Q; trace := trace s1 |}).
  revert s2. apply bind_keeps; [intros; apply index_keeps | intros status].
  apply bind_keeps; [reflexivity | intros in_progress].
  apply bind_keeps.
  - intros s2.
    destruct (status =? success_status a).
    + revert s2. apply bind_keeps; [apply decode_keeps | reflexivity].
    + destruct (status =? OsCmdStatus.COMPLETED_WITHERROR_WITHREPLY);
        [apply error_with_reply_keeps |].
      destruct (error_noreply_branch a
                && (status =? OsCmdStatus.COMPLETED_WITHERROR_NOREPLY));
        [reflexivity |].
      destruct (mem status in_progress); reflexivity.
  - intros [v |] s2; [reflexivity |].
    revert s2. apply bind_keeps; [reflexivity | intros now s2].
    destruct (Qltb deadline now); [| reflexivity].
    destruct (timeout_is_exception a); reflexivity.
Qed.

Lemma check_once_keeps (a : adapter) (deadline : Q) (s : sys) :
  let s' := snd (check_once device a deadline s) in
  status_in_progress (och s') = status_in_progress (och s)
  /\ current_mode (och s') = current_mode (och s)
  /\ timeout s' = timeout s
  /\ writes (trace s') = writes (trace s)
  /\ reads (trace s') = S (reads (trace s)).
Proof.
  cbv zeta. rewrite check_once_state.
  pose proof (get_response_keeps s) as H. cbv zeta in H.
  destruct (get_response device s) as [[response | e |] s1];
    cbn [snd och timeout trace] in *; tauto.
Qed.

Lemma poll_loop_keeps (a : adapter) (deadline : Q) (fuel : nat) :
  forall s,
    let s' := snd (poll_loop device fuel a deadline s) in
    status_in_progress (och s') = status_in_progress (och s)
    /\ current_mode (och s') = current_mode (och s)
    /\ timeout s' = timeout s
    /\ writes (trace s') = writes (trace s)
    /\ (reads (trace s) <= reads (trace s') <= reads (trace s) + fuel)%nat.
Proof.
  induction fuel as [| fuel IH]; intros s; cbv zeta.
  - cbn. repeat split; lia.
  - cbn [poll_loop]. unfold bind.
    pose proof (check_once_keeps a deadline s) as H. cbv zeta in H.
    destruct (check_once device a deadline s) as [[[v |] | e |] s1];
      cbn [snd] in *.
    + unfold ret. cbn [snd]. intuition lia.
    + specialize (IH s1). cbv zeta in IH.
      destruct H as [H1 [H2 [H3 [H4 H5]]]].
      destruct IH as [I1 [I2 [I3 [I4 I5]]]].
      repeat split; try congruence; lia.
    + intuition lia.
    + intuition lia.
Qed.

(** X2.  [check_response] of every adapter only polls.  Whatever the
    device answers and however the call ends, it writes no command, it
    reads the response register at most once per turn of its loop, and it
    leaves the adapter's timeout, the channel's mode and the list of the
    in-progress statuses as they were. *)
Theorem check_response_never_writes (fuel : nat) (a : adapter) (s : sys) :
  let s' := snd (check_response device fuel a s) in
  writes (trace s') = writes (trace s)
  /\ (reads (trace s) <= reads (trace s') <= reads (trace s) + fuel)%nat
  /\ timeout s' = timeout s
  /\ current_mode (och s') = current_mode (och s)
  /\ (constructed s -> constructed s').
Proof.
  cbv zeta. rewrite check_response_unfold.
  pose proof (poll_loop_keeps a (clock s + timeout s)%Q fuel s) as H.
  cbv zeta in H. destruct H as [H1 [H2 [H3 [H4 H5]]]].
  repeat split; try assumption; try lia.
  unfold constructed. congruence.
Qed.


Lemma turned_reads (response : list Z) (s : sys) :
  reads (trace (turned response s)) = S (reads (trace s)).
Proof. reflexivity. Qed.

(** [k] turns of the loop on statuses in progress, the deadline not passed. *)
Lemma poll_loop_waits (a : adapter) (deadline : Q) (k : nat) :
  forall (s : sys) (fuel : nat),
    constructed s ->
    (forall j, (j < k)%nat ->
       exists status rest,
         device (reads (trace s) + j) = status :: rest
         /\ in_progress_status status) ->
    (clock s + inject_Z (Z.of_nat k) * poll_interval <= deadline)%Q ->
    exists s1,
      poll_loop device (k + fuel) a deadline s = poll_loop device fuel a deadline s1
      /\ och s1 = och s
      /\ timeout s1 = timeout s
      /\ (clock s1 == clock s + inject_Z (Z.of_nat k) * poll_interval)%Q
      /\ reads (trace s1) = (reads (trace s) + k)%nat
      /\ writes (trace s1) = writes (trace s)
      /\ frees (trace s1) = frees (trace s).
Proof.
  induction k as [| k IH]; intros s fuel Hc Hdev Htime.
  - exists s. cbn [Nat.add]. repeat split; try lia.
    change (inject_Z (Z.of_nat 0)) with 0%Q. lra.
  - destruct (Hdev 0%nat) as [status [rest [Hd Hs]]]; [lia |].
    rewrite Nat.add_0_r in Hd.
    rewrite Nat2Z.inj_succ in Htime. unfold Z.succ in Htime.
    rewrite inject_Z_plus in Htime. change (inject_Z 1) with 1%Q in Htime.
    assert (Hk : (0 <= inject_Z (Z.of_nat k))%Q).
    { change 0%Q with (inject_Z 0). rewrite <- Zle_Qle. lia. }
    assert (Hq : Qltb deadline (clock s + poll_interval) = false).
    { unfold Qltb. apply negb_false_iff. apply Qle_bool_iff.
      unfold poll_interval in *. set (x := inject_Z (Z.of_nat k)) in *. lra. }
    destruct (IH (turned (status :: rest) s) fuel) as [s1 [Hrun H1]].
    + exact Hc.
    + intros j Hj. rewrite turned_reads.
      destruct (Hdev (S j)) as [st [r [Hd' Hs']]]; [lia |].
      exists st, r. split; [| exact Hs'].
      rewrite <- Hd'. f_equal. lia.
    + cbn [clock turned]. unfold poll_interval in *.
      set (x := inject_Z (Z.of_nat k)) in *. lra.
    + exists s1. split.
      * cbn [Nat.add poll_loop]. unfold bind at 1.
        rewrite (check_once_in_progress device a deadline s status rest Hc Hd Hs).
        rewrite Hq. exact Hrun.
      * destruct H1 as [Ho [Ht [Hcl [Hr [Hw Hf]]]]].
        rewrite turned_reads in Hr. cbn [clock turned] in Hcl.
        repeat split; try assumption; try lia.
        rewrite Hcl, Nat2Z.inj_succ. unfold Z.succ. rewrite inject_Z_plus.
        change (inject_Z 1) with 1%Q. unfold poll_interval.
        set (x := inject_Z (Z.of_nat k)). lra.
Qed.

(** The turn that reads the status on which the adapter returns. *)
Lemma poll_loop_returns (a : adapter) (fuel : nat) (deadline : Q) (s : sys)
    (status : Z) (rest : list Z) :
  constructed s ->
  device (reads (trace s)) = status :: rest ->
  status = success_status a ->
  (5 <= List.length rest)%nat ->
  poll_loop device (S fuel) a deadline s
  = (Ok (reply_value (reply_kind a) (status :: rest)), finished (status :: rest) s).
Proof.
  intros Hc Hd Hs Hlen.
  assert (Hm : mem status (status_in_progress (och s)) = false).
  { rewrite Hc. apply terminal_status_not_mem. unfold terminal_status.
    rewrite Hs. unfold success_status. destruct (reply_kind a); auto. }
  cbn [poll_loop]. unfold check_once. unfold bind at 1 2.
  rewrite (get_response_finished device s status rest Hd Hm).
  unfold bind, sleep, modify, index, gets, ret. cbn.
  rewrite Hs, Z.eqb_refl.
  destruct rest as [| r1 [| r2 [| r3 [| r4 [| r5 rest]]]]]; cbn in Hlen; try lia.
  destruct (reply_kind a); reflexivity.
Qed.

(** X3.  A command that the device reports in progress for [k] polls and
    then as completed with the status on which the adapter returns: when
    the response carries the reply bytes and the [k] polls fit in the
    timeout, [check_response] returns the decoded reply after exactly
    [k + 1] reads and [k + 1] poll intervals, has freed the channel once
    and has written nothing. *)
Theorem check_response_returns_after_progress (a : adapter) (s : sys)
    (k : nat) (status : Z) (rest : list Z) :
  constructed s ->
  (forall j, (j < k)%nat ->
     exists st r, device (reads (trace s) + j) = st :: r /\ in_progress_status st) ->
  device (reads (trace s) + k) = status :: rest ->
  status = success_status a ->
  (5 <= List.length rest)%nat ->
  (inject_Z (Z.of_nat k) * poll_interval <= timeout s)%Q ->
  forall fuel, (k < fuel)%nat ->
    exists s',
      check_response device fuel a s
      = (Ok (reply_value (reply_kind a) (status :: rest)), s')
      /\ ~ in_flight s'
      /\ (clock s' == clock s + inject_Z (Z.of_nat (S k)) * poll_interval)%Q
      /\ reads (trace s') = (reads (trace s) + S k)%nat
      /\ writes (trace s') = writes (trace s)
      /\ frees (trace s') = S (frees (trace s)).
Proof.
  intros Hc Hdev Hd Hs Hlen Htime fuel Hfuel.
  rewrite check_response_unfold.
  destruct (poll_loop_waits a (clock s + timeout s)%Q k s (fuel - k) Hc Hdev)
    as [s1 [Hrun [Ho [Ht [Hcl [Hr [Hw Hf]]]]]]]; [lra |].
  replace (k + (fuel - k))%nat with fuel in Hrun by lia.
  rewrite Hrun.
  destruct (fuel - k)%nat as [| fuel'] eqn:Hfk; [lia |].
  assert (Hc1 : constructed s1) by (unfold constructed in *; congruence).
  rewrite <- Hr in Hd.
  rewrite (poll_loop_returns a fuel' _ s1 status rest Hc1 Hd Hs Hlen).
  eexists. split; [reflexivity |].
  cbn [finished och current_command clock trace].
  split; [unfold in_flight; cbn; auto |].
  split.
  - rewrite Hcl, Nat2Z.inj_succ. unfold Z.succ. rewrite inject_Z_plus.
    change (inject_Z 1) with 1%Q. unfold poll_interval.
    set (x := inject_Z (Z.of_nat k)). lra.
  - unfold reads, writes, frees in *. cbn. repeat split; lia.
Qed.

Example check_response_returns_after_progress_run :
  let device := fun n : nat =>
    if (n <? 3)%nat then [120; 0; 0; 0; 0; 0; 0; 0] else [1; 0; 1; 44; 0; 0; 0; 0] in
  let run := check_response device 10 CommutationOffsetMeasurementHandler
               (Handler_init 25 0) in
  fst run = Ok (VInt 300) /\ reads (trace (snd run)) = 4%nat.
Proof. vm_compute. split; reflexivity. Qed.

Lemma poll_loop_in_progress_keeps_och (a : adapter) (deadline : Q) (fuel : nat) :
  (forall n, exists status rest,
      device n = status :: rest /\ in_progress_status status) ->
  forall s, constructed s ->
            och (snd (poll_loop device fuel a deadline s)) = och s.
Proof.
  intros Hdev. induction fuel as [| fuel IH]; intros s Hc; [reflexivity |].
  destruct (Hdev (reads (trace s))) as [status [rest [Hd Hs]]].
  cbn [poll_loop]. unfold bind at 1.
  rewrite (check_once_in_progress device a deadline s status rest Hc Hd Hs).
  destruct (Qltb deadline (clock s + poll_interval)); [reflexivity |].
  rewrite (IH (turned (status :: rest) s) Hc). reflexivity.
Qed.

(** X4.  A time-out leaves the channel taken.  On a device that stays in
    progress, a command that was accepted and then timed out in
    [check_response] is still the current command, so every further
    [execute_command] on that handler fails. *)
Theorem timed_out_command_blocks_channel (a : adapter) (s : sys)
    (command : list Z) :
  constructed s ->
  (0 <= timeout s)%Q ->
  (forall n, exists status rest,
      device n = status :: rest /\ in_progress_status status) ->
  ~ in_flight s ->
  forallb is_byte command = true ->
  exists n, forall fuel, (n <= fuel)%nat ->
    exists s1 s2,
      execute_command command s = (Ok tt, s1)
      /\ check_response device fuel a s1 = (Raised (timed_out a (timeout s)), s2)
      /\ current_command (och s2) = Some command
      /\ forall next,
           execute_command next s2 = (Raised (Failed RequestWhileInProgress), s2).
Proof.
  intros Hc Ht Hdev Hidle Hb.
  set (s1 := record (os_command_command command)
               (set_current_command (Some command) s)).
  assert (E1 : execute_command command s = (Ok tt, s1)).
  { unfold in_flight in Hidle. unfold execute_command, bind, gets.
    destruct (current_command (och s)) eqn:Hcur.
    - exfalso. apply Hidle. discriminate.
    - unfold bytes, modify, ret. rewrite Hb. reflexivity. }
  assert (Hc1 : constructed s1) by exact Hc.
  set (f := Qfloor (timeout s * 100)).
  assert (Hf : 0 <= f).
  { change 0 with (Qfloor 0). apply Qfloor_resp_le. lra. }
  exists (S (Z.to_nat f)). intros fuel Hfuel.
  destruct (poll_loop_times_out device a (clock s1 + timeout s1)%Q Hdev
              (S (Z.to_nat f)) s1 Hc1) with (fuel := fuel)
    as [s2 [Hrun _]].
  - cbn. lra.
  - cbn [clock timeout s1 record set_current_command].
    rewrite Nat2Z.inj_succ, Z2Nat.id by exact Hf.
    unfold Z.succ. pose proof (Qlt_floor (timeout s * 100)) as Hfl.
    fold f in Hfl. unfold poll_interval.
    set (x := inject_Z (f + 1)) in *. lra.
  - exact Hfuel.
  - exists s1, s2. split; [exact E1 |].
    rewrite check_response_unfold. split; [exact Hrun |].
    assert (Ho : och s2 = och s1).
    { replace s2 with (snd (poll_loop device fuel a (clock s1 + timeout s1)%Q s1))
        by (rewrite Hrun; reflexivity).
      apply poll_loop_in_progress_keeps_och; assumption. }
    assert (Hcur : current_command (och s2) = Some command)
      by (rewrite Ho; reflexivity).
    split; [exact Hcur |].
    intros next. unfold execute_command, bind, gets. rewrite Hcur. reflexivity.
Qed.

(** X5.  The statuses no branch returns on.  A status that is not in
    progress, not the adapter's success status and not "completed with
    error, with reply" ends the loop at the first poll: with
    [OsCommandException] "no OS error code" when it is "completed with
    error, no reply" and the adapter has that branch, and with the failure
    "Not valid status for OS command <opcode>: <status>" otherwise.  The
    read has freed the channel before. *)
Theorem unhandled_status_reported (a : adapter) (fuel : nat) (deadline : Q)
    (s : sys) (status : Z) (rest : list Z) :
  constructed s ->
  device (reads (trace s)) = status :: rest ->
  ~ in_progress_status status ->
  status <> success_status a ->
  status <> OsCmdStatus.COMPLETED_WITHERROR_WITHREPLY ->
  poll_loop device (S fuel) a deadline s
  = (Raised (if error_noreply_branch a
                && (status =? OsCmdStatus.COMPLETED_WITHERROR_NOREPLY)
             then OsCommandException NoOsErrorCode
             else Failed (NotValidStatus (message_opcode a) status)),
     finished (status :: rest) s).
Proof.
  intros Hc Hd Hnp Hns Hn3.
  assert (Hm : mem status (status_in_progress (och s)) = false).
  { destruct (mem status (status_in_progress (och s))) eqn:E; [| reflexivity].
    exfalso. apply Hnp. apply in_progress_status_mem. rewrite <- Hc. exact E. }
  cbn [poll_loop]. unfold check_once. unfold bind at 1 2.
  rewrite (get_response_finished device s status rest Hd Hm).
  apply Z.eqb_neq in Hns, Hn3.
  unfold OsCmdStatus.COMPLETED_WITHERROR_NOREPLY,
    OsCmdStatus.COMPLETED_WITHERROR_WITHREPLY in *.
  unfold bind, sleep, modify, index, gets, ret, raise.
  cbn -[Z.eqb mem].
  rewrite Hns, Hn3.
  destruct (error_noreply_branch a && (status =? 2)); [reflexivity |].
  rewrite Hm. reflexivity.
Qed.

(** X6.  Responses that are too short.  An empty response raises
    [IndexError] in [get_response], before the sleep and with the channel
    still taken; a response with the success status and fewer than three
    bytes raises [IndexError] where an adapter with a reply reads it, after
    the channel has been freed. *)
Theorem short_response_raises_index_error (a : adapter) (fuel : nat) (s : sys) :
  (device (reads (trace s)) = [] ->
   check_response device (S fuel) a s
   = (Raised IndexError, record (os_command_response []) s))
  /\ (forall status rest,
        constructed s ->
        device (reads (trace s)) = status :: rest ->
        status = success_status a ->
        reply_kind a <> NoReply ->
        (List.length rest < 2)%nat ->
        check_response device (S fuel) a s
        = (Raised IndexError, finished (status :: rest) s)).
Proof.
  split.
  - intros Hd. rewrite check_response_unfold. cbn [poll_loop].
    unfold check_once, get_response, bind, gets, modify, index, raise.
    rewrite Hd. reflexivity.
  - intros status rest Hc Hd Hs Hk Hlen.
    assert (Hm : mem status (status_in_progress (och s)) = false).
    { rewrite Hc. apply terminal_status_not_mem. unfold terminal_status.
      rewrite Hs. unfold success_status. destruct (reply_kind a); auto. }
    rewrite check_response_unfold. cbn [poll_loop].
    unfold check_once. unfold bind at 1 2.
    rewrite (get_response_finished device s status rest Hd Hm).
    unfold bind, sleep, modify, index, gets, ret. cbn.
    rewrite Hs, Z.eqb_refl.
    destruct rest as [| r1 [| r2 rest]]; cbn in Hlen; try lia;
      destruct (reply_kind a); try contradiction; reflexivity.
Qed.

End ChannelExtras.

Lemma execute_command_invalid_bytes_witness :
  let s := OsCmd.Handler_init 1 0 in
  let s' := OsCmd.set_current_command (Some [0; 1; 256; 0; 0; 0; 0; 0]) s in
  OsCmd.execute_command [0; 1; 256; 0; 0; 0; 0; 0] s = (Raised ValueError, s')
  /\ OsCmd.trace s' = OsCmd.trace s
  /\ OsCmd.in_flight s'
  /\ forall next, OsCmd.execute_command next s'
                  = (Raised (Failed RequestWhileInProgress), s').
Proof.
  intros s s'.
  apply (execute_command_invalid_bytes s [0; 1; 256; 0; 0; 0; 0; 0]).
  - unfold OsCmd.in_flight. simpl. intros H. apply H. reflexivity.
  - reflexivity.
Defined.

Lemma check_response_never_writes_witness :
  let device := fun _ : nat => [3; 0; 252; 0; 0; 0; 0; 0] in
  let s := OsCmd.Handler_init 25 0 in
  let s' := snd (OsCmd.check_response device 5 OsCmd.PolePairDetectionHandler s) in
  OsCmd.writes (OsCmd.trace s') = OsCmd.writes (OsCmd.trace s)
  /\ OsCmd.constructed s'.
Proof.
  intros device s s'.
  pose proof (check_response_never_writes device 5 OsCmd.PolePairDetectionHandler s)
    as H.
  split; [apply H | apply H; reflexivity].
Defined.

Lemma check_response_returns_after_progress_witness :
  let device := fun n : nat =>
    if (n <? 3)%nat then [120; 0; 0; 0; 0; 0; 0; 0] else [1; 0; 1; 44; 0; 0; 0; 0] in
  let a := OsCmd.CommutationOffsetMeasurementHandler in
  let s := OsCmd.Handler_init 25 0 in
  exists s',
    OsCmd.check_response device 10 a s
    = (Ok (OsCmd.reply_value (OsCmd.reply_kind a) [1; 0; 1; 44; 0; 0; 0; 0]), s')
    /\ ~ OsCmd.in_flight s'
    /\ (OsCmd.clock s' == OsCmd.clock s + inject_Z (Z.of_nat 4) * OsCmd.poll_interval)%Q
    /\ OsCmd.reads (OsCmd.trace s') = (OsCmd.reads (OsCmd.trace s) + 4)%nat
    /\ OsCmd.writes (OsCmd.trace s') = OsCmd.writes (OsCmd.trace s)
    /\ OsCmd.frees (OsCmd.trace s') = S (OsCmd.frees (OsCmd.trace s)).
Proof.
  intros device a s.
  apply (check_response_returns_after_progress device a s 3 1 [0; 1; 44; 0; 0; 0; 0]).
  - reflexivity.
  - intros j Hj. exists 120, [0; 0; 0; 0; 0; 0; 0]. split.
    + destruct j as [| [| [| j]]]; [reflexivity | reflexivity | reflexivity | lia].
    + left. split; discriminate.
  - reflexivity.
  - reflexivity.
  - simpl. lia.
  - discriminate.
  - lia.
Defined.

Lemma timed_out_command_blocks_channel_witness :
  let device := fun _ : nat => [100; 0; 0; 0; 0; 0; 0; 0] in
  let a := OsCmd.EncoderRegisterCommunicationHandler in
  let s := OsCmd.Handler_init 1 0 in
  let command := [0; 1; 0; 5; 0; 0; 0; 0] in
  exists n, forall fuel, (n <= fuel)%nat ->
    exists s1 s2,
      OsCmd.execute_command command s = (Ok tt, s1)
      /\ OsCmd.check_response device fuel a s1
         = (Raised (OsCmd.timed_out a (OsCmd.timeout s)), s2)
      /\ OsCmd.current_command (OsCmd.och s2) = Some command
      /\ forall next,
           OsCmd.execute_command next s2
           = (Raised (Failed RequestWhileInProgress), s2).
Proof.
  intros device a s command.
  apply (timed_out_command_blocks_channel device a s command).
  - reflexivity.
  - discriminate.
  - intros n. exists 100, [0; 0; 0; 0; 0; 0; 0]. split; [reflexivity |].
    left. split; discriminate.
  - unfold OsCmd.in_flight. simpl. intros H. apply H. reflexivity.
  - reflexivity.
Defined.

Lemma unhandled_status_reported_witness :
  let a := OsCmd.EncoderRegisterCommunicationHandler in
  let s := OsCmd.Handler_init 1 0 in
  OsCmd.poll_loop (fun _ => [0; 0; 0; 0; 0; 0; 0; 0]) 1 a 1 s
  = (Raised (Failed (NotValidStatus 0 0)),
     OsCmd.finished [0; 0; 0; 0; 0; 0; 0; 0] s)
  /\ OsCmd.poll_loop (fun _ => [2; 0; 0; 0; 0; 0; 0; 0]) 1 a 1 s
     = (Raised (OsCommandException NoOsErrorCode),
        OsCmd.finished [2; 0; 0; 0; 0; 0; 0; 0] s).
Proof.
  intros a s. split.
  - apply (unhandled_status_reported (fun _ => [0; 0; 0; 0; 0; 0; 0; 0]) a 0 1 s
             0 [0; 0; 0; 0; 0; 0; 0]).
    + reflexivity.
    + reflexivity.
    + intros [[H _] | H]; [apply H; reflexivity | discriminate H].
    + discriminate.
    + discriminate.
  - apply (unhandled_status_reported (fun _ => [2; 0; 0; 0; 0; 0; 0; 0]) a 0 1 s
             2 [0; 0; 0; 0; 0; 0; 0]).
    + reflexivity.
    + reflexivity.
    + intros [[H _] | H]; [apply H; reflexivity | discriminate H].
    + discriminate.
    + discriminate.
Defined.

Lemma short_response_raises_index_error_witness :
  let a := OsCmd.CommutationOffsetMeasurementHandler in
  let s := OsCmd.Handler_init 25 0 in
  OsCmd.check_response (fun _ => []) 1 a s
  = (Raised IndexError, OsCmd.record (OsCmd.os_command_response []) s)
  /\ OsCmd.check_response (fun _ => [1; 0]) 1 a s
     = (Raised IndexError, OsCmd.finished [1; 0] s).
Proof.
  intros a s. split.
  - apply (proj1 (short_response_raises_index_error (fun _ => []) a 0 s)).
    reflexivity.
  - apply (proj2 (short_response_raises_index_error (fun _ => [1; 0]) a 0 s) 1 [0]).
    + reflexivity.
    + reflexivity.
    + reflexivity.
    + discriminate.
    + simpl. lia.
Defined.

(** ** The commands the adapters build *)

Section CommandExtras.

Import OsCmd.

Lemma land_byte (v : Z) : Z.land v 255 = v mod 256.
Proof. change 255 with (Z.ones 8). rewrite Z.land_ones by lia. reflexivity. Qed.

Lemma byte_of_field (v k : Z) :
  0 <= k ->
  Z.shiftr (Z.land v (Z.shiftl 255 k)) k = (Z.shiftr v k) mod 256.
Proof.
  intros Hk. rewrite Z.shiftr_land, Z.shiftr_shiftl_l by lia.
  rewrite Z.sub_diag, Z.shiftl_0_r. apply land_byte.
Qed.

Lemma mod_256_is_byte (x : Z) : is_byte (x mod 256) = true.
Proof.
  unfold is_byte. pose proof (Z.mod_pos_bound x 256 ltac:(lia)).
  apply andb_true_iff. split; [apply Z.leb_le | apply Z.ltb_lt]; lia.
Qed.

Lemma decode_u32_field_mode_wraps (v : Z) :
  decode_u32 (Z.shiftr (Z.land v 4278190080) 24)
             (Z.shiftr (Z.land v 16711680) 16)
             (Z.shiftr (Z.land v 65280) 8)
             (Z.land v 255) = v mod 2 ^ 32.
Proof.
  unfold decode_u32.
  change (Z.land v 255)
    with (Z.shiftl (Z.shiftr (Z.land v (Z.shiftl 255 0)) 0) 0).
  change 4278190080 with (Z.shiftl 255 24).
  change 16711680 with (Z.shiftl 255 16).
  change 65280 with (Z.shiftl 255 8).
  apply Z.bits_inj'. intros n Hn.
  rewrite !Z.lor_spec, !testbit_byte_field by lia.
  rewrite Z.testbit_mod_pow2 by lia.
  destruct (Z.testbit v n); [| rewrite andb_false_r; reflexivity].
  cbn [andb]. rewrite andb_true_r.
  destruct (Z.leb_spec 24 n), (Z.leb_spec 16 n), (Z.leb_spec 8 n),
    (Z.leb_spec 0 n), (Z.ltb_spec n (24 + 8)), (Z.ltb_spec n (16 + 8)),
    (Z.ltb_spec n (8 + 8)), (Z.ltb_spec n (0 + 8)), (Z.ltb_spec n 32);
    cbn; try reflexivity; lia.
Qed.

(** X7.  The commands of the seven setters of [OpenLoopFieldModeHandler]
    carry the value modulo 2^32: a value and its residue give the same
    command, every byte of the command but the selector is in 0..255
    whatever the value (negative ones included), and decoding the four
    value bytes as the adapters decode a 32-bit reply gives the residue. *)
Theorem field_mode_command_wraps (b1 v : Z) :
  let command := field_mode_command b1 v in
  command = field_mode_command b1 (v mod 2 ^ 32)
  /\ forallb is_byte command = is_byte b1
  /\ forall (response : list Z) (s : sys),
       firstn 4 (skipn 2 response) = firstn 4 (skipn 2 command) ->
       decode ReplyU32 response s = (Ok (VInt (v mod 2 ^ 32)), s).
Proof.
  cbv zeta. unfold field_mode_command.
  change 4278190080 with (Z.shiftl 255 24).
  change 16711680 with (Z.shiftl 255 16).
  change 65280 with (Z.shiftl 255 8).
  rewrite !byte_of_field, !land_byte by lia.
  split; [| split].
  - assert (H : forall k, 0 <= k <= 24 ->
                Z.shiftr (v mod 2 ^ 32) k mod 256 = Z.shiftr v k mod 256).
    { intros k Hk. apply Z.bits_inj'. intros n Hn.
      change 256 with (2 ^ 8). rewrite !Z.testbit_mod_pow2 by lia.
      rewrite !Z.shiftr_spec, Z.testbit_mod_pow2 by lia.
      destruct (Z.ltb_spec n 8); [| reflexivity].
      destruct (Z.ltb_spec (n + k) 32); [reflexivity | lia]. }
    rewrite !H by lia.
    replace ((v mod 2 ^ 32) mod 256) with (v mod 256); [reflexivity |].
    change 256 with (2 ^ 8). apply Z.bits_inj'. intros n Hn.
    rewrite !Z.testbit_mod_pow2 by lia.
    destruct (Z.ltb_spec n 8); [| reflexivity].
    destruct (Z.ltb_spec n 32); [reflexivity | lia].
  - cbn [forallb]. rewrite !mod_256_is_byte.
    cbn. rewrite andb_true_r. reflexivity.
  - intros response s Hbytes.
    destruct response as [| r0 [| r1 [| r2 [| r3 [| r4 [| r5 rest]]]]]];
      cbn [firstn skipn] in Hbytes; try discriminate.
    injection Hbytes as -> -> -> ->.
    unfold decode, bind, index, ret. cbn [nth_error].
    rewrite <- (decode_u32_field_mode_wraps v).
    change 4278190080 with (Z.shiftl 255 24).
    change 16711680 with (Z.shiftl 255 16).
    change 65280 with (Z.shiftl 255 8).
    rewrite !byte_of_field, !land_byte by lia. reflexivity.
Qed.

Lemma decode_u16_duration (d : Z) :
  decode_u16 (Z.land (Z.shiftr d 8) 255) (Z.land d 255) = d mod 2 ^ 16.
Proof.
  unfold decode_u16. apply Z.bits_inj'. intros n Hn.
  rewrite Z.lor_spec, Z.shiftl_spec, !land_byte by lia.
  change 256 with (2 ^ 8). rewrite (Z.testbit_mod_pow2 d) by lia.
  destruct (Z.ltb_spec n 8) as [H8 | H8].
  - rewrite Z.testbit_neg_r by lia. rewrite Z.testbit_mod_pow2 by lia.
    destruct (Z.ltb_spec n 16); [reflexivity | lia].
  - rewrite !Z.testbit_mod_pow2 by lia.
    rewrite Z.shiftr_spec by lia. replace (n - 8 + 8) with n by lia.
    destruct (Z.ltb_spec n 8); [lia |]. cbn [andb]. rewrite orb_false_r.
    destruct (Z.ltb_spec (n - 8) 8), (Z.ltb_spec n 16); try reflexivity; lia.
Qed.

(** X8.  [HrdStreamingHandler.configure_stream]: the two duration bytes
    of the command hold the duration modulo 2^16; the handler's timeout is
    set to [duration_in_ms * 1000 + 1] before the command is tried, also
    when the channel is taken and the command is refused. *)
Theorem configure_stream_packs (data_index duration_in_ms : Z) (s : sys) :
  let b3 := Z.land (Z.shiftr duration_in_ms 8) 255 in
  let b4 := Z.land duration_in_ms 255 in
  let s1 := set_timeout (inject_Z (duration_in_ms * 1000 + 1)) s in
  decode_u16 b3 b4 = duration_in_ms mod 2 ^ 16
  /\ (in_flight s ->
      configure_stream data_index duration_in_ms s
      = (Raised (Failed RequestWhileInProgress), s1))
  /\ (~ in_flight s -> is_byte data_index = true ->
      configure_stream data_index duration_in_ms s
      = (Ok tt,
         record (os_command_command [3; 0; data_index; b3; b4; 0; 0; 0])
           (set_current_command (Some [3; 0; data_index; b3; b4; 0; 0; 0]) s1))).
Proof.
  cbv zeta. split; [apply decode_u16_duration | split].
  - unfold in_flight. intros H.
    unfold configure_stream, execute_command, bind, gets, modify. cbn.
    destruct (current_command (och s)); [reflexivity | congruence].
  - unfold in_flight. intros H Hb.
    unfold configure_stream, execute_command, bind, gets, modify, bytes, ret.
    cbn [och current_command set_timeout].
    destruct (current_command (och s)) eqn:E; [exfalso; apply H; discriminate |].
    cbn [forallb]. rewrite Hb, !land_byte, !mod_256_is_byte. reflexivity.
Qed.

Lemma lor_1_shiftl (x : Z) : Z.lor 1 (Z.shiftl x 1) = 2 * x + 1.
Proof.
  rewrite Z.shiftl_mul_pow2 by lia. change (2 ^ 1) with 2.
  assert (H : Z.land 1 (x * 2) = 0).
  { rewrite Z.land_comm. change 1 with (Z.ones 1).
    rewrite Z.land_ones by lia. change (2 ^ 1) with 2. apply Z.mod_mul. lia. }
  rewrite <- (Z.lxor_lor _ _ H), <- (Z.add_nocarry_lxor _ _ H). lia.
Qed.

Lemma lor_0_shiftl (x : Z) : Z.lor 0 (Z.shiftl x 1) = 2 * x.
Proof. rewrite Z.lor_0_l, Z.shiftl_mul_pow2 by lia. change (2 ^ 1) with 2. lia. Qed.

(** X9.  The register commands of
    [EncoderRegisterCommunicationHandler]: for byte arguments and a slave
    address below 128, on an idle channel, [read_register] writes
    [0, connector, 2 * slave, address, 0, 0, 0, 0] and [write_register]
    writes [0, connector, 2 * slave + 1, address, value, 0, 0, 0]. *)
Theorem register_command_layout
    (encoder_connector register_address register_value slave_address : Z) (s : sys) :
  ~ in_flight s ->
  is_byte encoder_connector = true ->
  is_byte register_address = true ->
  is_byte register_value = true ->
  0 <= slave_address < 128 ->
  let read := [0; encoder_connector; 2 * slave_address; register_address; 0; 0; 0; 0] in
  let write := [0; encoder_connector; 2 * slave_address + 1; register_address;
                register_value; 0; 0; 0] in
  read_register encoder_connector register_address slave_address s
  = (Ok tt, record (os_command_command read) (set_current_command (Some read) s))
  /\ write_register encoder_connector register_address register_value slave_address s
     = (Ok tt, record (os_command_command write) (set_current_command (Some write) s)).
Proof.
  unfold in_flight. intros H Hc Ha Hv Hs. cbv zeta.
  unfold read_register, write_register. rewrite lor_0_shiftl, lor_1_shiftl.
  unfold execute_command, bind, gets, modify, bytes, ret.
  destruct (current_command (och s)) eqn:E; [exfalso; apply H; discriminate |].
  cbn [forallb]. rewrite Hc, Ha, Hv.
  assert (H2 : is_byte (2 * slave_address) = true).
  { unfold is_byte. apply andb_true_iff. split; [apply Z.leb_le | apply Z.ltb_lt]; lia. }
  assert (H3 : is_byte (2 * slave_address + 1) = true).
  { unfold is_byte. apply andb_true_iff. split; [apply Z.leb_le | apply Z.ltb_lt]; lia. }
  rewrite H2, H3. split; reflexivity.
Qed.

End CommandExtras.

Lemma field_mode_command_wraps_witness :
  OsCmd.decode OsCmd.ReplyU32 [1; 0; 255; 255; 255; 255; 0; 0] (OsCmd.Handler_init 25 0)
  = (Ok (OsCmd.VInt ((-1) mod 2 ^ 32)), OsCmd.Handler_init 25 0).
Proof.
  apply (proj2 (proj2 (field_mode_command_wraps 0 (-1)))).
  reflexivity.
Defined.

Lemma configure_stream_packs_witness :
  let s := OsCmd.Handler_init 5 0 in
  let s1 := OsCmd.set_timeout (inject_Z (300 * 1000 + 1)) s in
  let busy := OsCmd.set_current_command (Some [3; 1; 0; 0; 0; 0; 0; 0]) s in
  OsCmd.configure_stream 1 300 s
  = (Ok tt,
     OsCmd.record
       (OsCmd.os_command_command
          [3; 0; 1; Z.land (Z.shiftr 300 8) 255; Z.land 300 255; 0; 0; 0])
       (OsCmd.set_current_command
          (Some [3; 0; 1; Z.land (Z.shiftr 300 8) 255; Z.land 300 255; 0; 0; 0]) s1))
  /\ OsCmd.configure_stream 1 300 busy
     = (Raised (Failed RequestWhileInProgress),
        OsCmd.set_timeout (inject_Z (300 * 1000 + 1)) busy).
Proof.
  intros s s1 busy. split.
  - apply (proj2 (proj2 (configure_stream_packs 1 300 s))).
    + unfold OsCmd.in_flight. simpl. intros H. apply H. reflexivity.
    + reflexivity.
  - apply (proj1 (proj2 (configure_stream_packs 1 300 busy))).
    unfold OsCmd.in_flight. simpl. discriminate.
Defined.

Lemma register_command_layout_witness :
  let s := OsCmd.Handler_init 1 0 in
  let read := [0; 1; 2 * 3; 5; 0; 0; 0; 0] in
  let write := [0; 1; 2 * 3 + 1; 5; 200; 0; 0; 0] in
  OsCmd.read_register 1 5 3 s
  = (Ok tt, OsCmd.record (OsCmd.os_command_command read)
              (OsCmd.set_current_command (Some read) s))
  /\ OsCmd.write_register 1 5 200 3 s
     = (Ok tt, OsCmd.record (OsCmd.os_command_command write)
                 (OsCmd.set_current_command (Some write) s)).
Proof.
  intros s.
  apply (register_command_layout 1 5 200 3 s).
  - unfold OsCmd.in_flight. simpl. intros H. apply H. reflexivity.
  - reflexivity.
  - reflexivity.
  - reflexivity.
  - lia.
Defined.

(** ** The encoder look-ups, the ratios and the data overflows *)

Section ToolboxExtras.

Import Toolbox.

Lemma range_In (a b x : Z) : In x (range a b) <-> a <= x < b.
Proof.
  unfold range. rewrite in_map_iff. split.
  - intros [i [<- Hi]]. apply in_seq in Hi. lia.
  - intros H. exists (Z.to_nat (x - a)). split; [lia |]. apply in_seq. lia.
Qed.

Lemma first_sensor_found (d : od) (functions subs : list Z) (i : Z) :
  first_sensor d functions subs = Some i ->
  exists pre sub post,
    subs = pre ++ sub :: post
    /\ i = feedback_sensor_ports d (sub + 1)
    /\ i <> 0
    /\ mem (parameter d i 2) functions = true
    /\ forall x, In x pre ->
         feedback_sensor_ports d (x + 1) = 0
         \/ mem (parameter d (feedback_sensor_ports d (x + 1)) 2) functions = false.
Proof.
  induction subs as [| sub rest IH]; cbn [first_sensor]; [discriminate |].
  destruct (Z.eqb_spec (feedback_sensor_ports d (sub + 1)) 0) as [E0 | E0]; cbn [negb andb].
  - intros H. destruct (IH H) as [pre [s1 [post [-> [Hi [Hn [Hm Hpre]]]]]]].
    exists (sub :: pre), s1, post. repeat split; try assumption.
    intros x [<- | Hx]; [left; exact E0 | apply Hpre; exact Hx].
  - destruct (mem (parameter d (feedback_sensor_ports d (sub + 1)) 2) functions) eqn:Em.
    + intros [= <-]. exists [], sub, rest. repeat split; try assumption.
      intros x [].
    + intros H. destruct (IH H) as [pre [s1 [post [-> [Hi [Hn [Hm Hpre]]]]]]].
      exists (sub :: pre), s1, post. repeat split; try assumption.
      intros x [<- | Hx]; [right; exact Em | apply Hpre; exact Hx].
Qed.

Lemma first_sensor_none (d : od) (functions subs : list Z) :
  first_sensor d functions subs = None ->
  forall x, In x subs ->
    feedback_sensor_ports d (x + 1) = 0
    \/ mem (parameter d (feedback_sensor_ports d (x + 1)) 2) functions = false.
Proof.
  induction subs as [| sub rest IH]; cbn [first_sensor]; [intros _ x [] |].
  destruct (Z.eqb_spec (feedback_sensor_ports d (sub + 1)) 0) as [E0 | E0]; cbn [negb andb].
  - intros H x [<- | Hx]; [left; exact E0 | apply IH; assumption].
  - destruct (mem (parameter d (feedback_sensor_ports d (sub + 1)) 2) functions) eqn:Em.
    + discriminate.
    + intros H x [<- | Hx]; [right; exact Em | apply IH; assumption].
Qed.

Lemma range_split (n : Z) (pre post : list Z) (sub : Z) :
  range 0 n = pre ++ sub :: post ->
  0 <= sub < n /\ forall x, 0 <= x < sub -> In x pre.
Proof.
  unfold range. set (f := fun i : nat => 0 + Z.of_nat i).
  set (m := Z.to_nat (n - 0)). intros H.
  assert (Hnth : forall k, (k < m)%nat -> nth k (map f (seq 0 m)) 0 = Z.of_nat k).
  { intros k Hk. rewrite (nth_indep _ 0 (f 0%nat))
      by (rewrite length_map, length_seq; exact Hk).
    rewrite map_nth, seq_nth by exact Hk. unfold f. lia. }
  assert (Hl : m = List.length (pre ++ sub :: post)).
  { rewrite <- H, length_map, length_seq. reflexivity. }
  rewrite length_app in Hl. cbn [List.length] in Hl.
  assert (Hs : sub = Z.of_nat (List.length pre)).
  { rewrite <- (Hnth (List.length pre)) by lia.
    rewrite H, app_nth2 by lia. rewrite Nat.sub_diag. reflexivity. }
  split; [lia |].
  intros x Hx.
  replace x with (nth (Z.to_nat x) pre 0); [apply nth_In; lia |].
  rewrite <- (app_nth1 pre (sub :: post)) by lia.
  rewrite <- H, Hnth by lia. lia.
Qed.

(** X10.  [get_motion_encoder_config_index], as [get_gear_ratio] calls it
    (position control: functions 1, 3, 6) and as [get_tachometer_ratio]
    calls it (velocity control: functions 1, 3, 7): the result is the
    configuration index of the first port, in port order 1..n, that is
    configured (index not 0) and whose function is one of the selected
    ones; it raises [ExceptionSensorConfig] naming these functions exactly
    when no port matches. *)
Theorem motion_encoder_is_first_matching_port (d : od) (S : Type) (st : S)
    (position_control velocity_control : option bool) (functions : list Z) :
  (position_control = Some true /\ velocity_control = None
   /\ functions = [1; 3; 6])
  \/ (position_control = None /\ velocity_control = Some true
      /\ functions = [1; 3; 7]) ->
  let n := feedback_sensor_ports_subindex d in
  let matches port :=
    feedback_sensor_ports d port <> 0
    /\ In (parameter d (feedback_sensor_ports d port) 2) functions in
  match fst (get_motion_encoder_config_index d position_control velocity_control st) with
  | Ok i =>
      exists port, 1 <= port <= n
                   /\ i = feedback_sensor_ports d port
                   /\ matches port
                   /\ forall q, 1 <= q < port -> ~ matches q
  | Raised e =>
      e = ExceptionSensorConfig (NoSensorForFunctions functions)
      /\ forall q, 1 <= q <= n -> ~ matches q
  | OutOfFuel => False
  end.
Proof.
  intros Hargs n matches.
  assert (Hrun : get_motion_encoder_config_index d position_control velocity_control st
                 = match first_sensor d functions (range 0 n) with
                   | Some i => (Ok i, st)
                   | None => (Raised (ExceptionSensorConfig
                                        (NoSensorForFunctions functions)), st)
                   end).
  { destruct Hargs as [[-> [-> ->]] | [-> [-> ->]]];
      unfold get_motion_encoder_config_index; cbn;
      fold n; destruct (first_sensor d _ (range 0 n)); reflexivity. }
  rewrite Hrun.
  assert (Hmem : forall x, mem x functions = true <-> In x functions).
  { intros x. unfold mem. rewrite existsb_exists. split.
    - intros [y [Hy He]]. apply Z.eqb_eq in He. subst. exact Hy.
    - intros H. exists x. split; [exact H | apply Z.eqb_refl]. }
  destruct (first_sensor d functions (range 0 n)) as [i |] eqn:Hf; cbn [fst].
  - destruct (first_sensor_found d functions (range 0 n) i Hf)
      as [pre [sub [post [Hsplit [Hi [Hn [Hm Hpre]]]]]]].
    destruct (range_split n pre post sub Hsplit) as [Hsub Hbefore].
    exists (sub + 1). split; [lia |]. split; [exact Hi |]. split.
    + unfold matches. rewrite <- Hi. split; [exact Hn | apply Hmem; exact Hm].
    + intros q Hq [Hq0 Hqm].
      destruct (Hpre (q - 1)) as [H0 | Hfalse].
      * apply Hbefore. lia.
      * replace (q - 1 + 1) with q in H0 by lia. contradiction.
      * replace (q - 1 + 1) with q in Hfalse by lia.
        apply Hmem in Hqm. congruence.
  - split; [reflexivity |]. intros q Hq [Hq0 Hqm].
    destruct (first_sensor_none d functions (range 0 n) Hf (q - 1)) as [H0 | Hfalse].
    + apply range_In. lia.
    + replace (q - 1 + 1) with q in H0 by lia. contradiction.
    + replace (q - 1 + 1) with q in Hfalse by lia.
      apply Hmem in Hqm. congruence.
Qed.

Lemma first_function_of_sensor (d : od) (functions subs : list Z) :
  first_function d functions subs
  = option_map (fun i => parameter d i 2) (first_sensor d functions subs).
Proof.
  induction subs as [| sub rest IH]; [reflexivity |].
  cbn [first_function first_sensor].
  destruct (negb (feedback_sensor_ports d (sub + 1) =? 0)
            && mem (parameter d (feedback_sensor_ports d (sub + 1)) 2) functions);
    [reflexivity | exact IH].
Qed.

(** X11.  [get_sensor_function_for_position_control] and
    [get_sensor_function_for_velocity_control] agree with
    [get_motion_encoder_config_index]: they return the function of the
    very sensor that the index look-up selects, and fail exactly when the
    look-up fails. *)
Theorem sensor_function_of_motion_encoder (d : od) (S : Type) (st : S) :
  (match fst (get_motion_encoder_config_index d (Some true) None st) with
   | Ok i => get_sensor_function_for_position_control d = Some (parameter d i 2)
   | _ => get_sensor_function_for_position_control d = None
   end)
  /\ (match fst (get_motion_encoder_config_index d None (Some true) st) with
      | Ok i => get_sensor_function_for_velocity_control d = Some (parameter d i 2)
      | _ => get_sensor_function_for_velocity_control d = None
      end).
Proof.
  unfold get_sensor_function_for_position_control,
    get_sensor_function_for_velocity_control, get_motion_encoder_config_index.
  rewrite !first_function_of_sensor. cbn [andb app].
  split.
  - destruct (first_sensor d _ (range 0 (feedback_sensor_ports_subindex d)));
      reflexivity.
  - destruct (first_sensor d _ (range 0 (feedback_sensor_ports_subindex d)));
      reflexivity.
Qed.

(** X12.  [get_rpm_unit] and [get_si_unit_scaling_factor] read the same
    four SI prefix codes: the unit name and the factor always go together
    ("rpm" with 1, "deci-rpm" with 10, "centi-rpm" with 100, "mili-rpm"
    with 1000), and both are [None] for every other code. *)
Theorem rpm_unit_matches_scaling_factor (d : od) :
  In (get_rpm_unit d, get_si_unit_scaling_factor d)
     [(Some "rpm", Some 1); (Some "deci-rpm", Some 10);
      (Some "centi-rpm", Some 100); (Some "mili-rpm", Some 1000);
      (None, None)]%string.
Proof.
  unfold get_rpm_unit, get_si_unit_scaling_factor.
  destruct (si_unit_velocity d =? 11814656); [cbn; auto |].
  destruct (si_unit_velocity d =? 4290004736); [cbn; auto |].
  destruct (si_unit_velocity d =? 4273227520); [cbn; auto |].
  destruct (si_unit_velocity d =? 4256450304); cbn; auto 6.
Qed.

Lemma get_gearbox_ratio_cases (d : od) (S : Type) (st : S) :
  get_gearbox_ratio d st
  = if gear_ratio_shaft_revolutions d =? 0
    then (Raised ZeroDivisionError, st)
    else (Ok (gear_ratio_motor_revolutions d / gear_ratio_shaft_revolutions d), st).
Proof.
  unfold get_gearbox_ratio, floordiv.
  destruct (gear_ratio_shaft_revolutions d =? 0); reflexivity.
Qed.

Lemma get_motion_encoder_config_index_state (d : od) (S : Type) (st : S)
    (p v : option bool) :
  snd (get_motion_encoder_config_index d p v st) = st.
Proof.
  unfold get_motion_encoder_config_index.
  destruct (_ && _); [reflexivity |].
  destruct (first_sensor d _ _); reflexivity.
Qed.

Lemma get_commutation_encoder_config_index_state (d : od) (S : Type) (st : S) :
  snd (get_commutation_encoder_config_index d st) = st.
Proof.
  unfold get_commutation_encoder_config_index.
  destruct (first_sensor d _ _); reflexivity.
Qed.

Lemma ratio_cases (d : od) (S : Type) (st st' : S) (p v : option bool) (r : Z) :
  (x <- get_motion_encoder_config_index d p v ;;
   c <- get_commutation_encoder_config_index d ;;
   if negb (x =? c) then get_gearbox_ratio d else ret 1) st = (Ok r, st') ->
  st' = st
  /\ (r = 1
      \/ (gear_ratio_shaft_revolutions d <> 0
          /\ r = gear_ratio_motor_revolutions d / gear_ratio_shaft_revolutions d)).
Proof.
  unfold bind.
  pose proof (get_motion_encoder_config_index_state d S st p v) as H1.
  destruct (get_motion_encoder_config_index d p v st) as [[x | e |] s1];
    cbn in H1; subst s1; try discriminate.
  pose proof (get_commutation_encoder_config_index_state d S st) as H2.
  destruct (get_commutation_encoder_config_index d st) as [[c | e |] s2];
    cbn in H2; subst s2; try discriminate.
  destruct (negb (x =? c)).
  - rewrite get_gearbox_ratio_cases.
    destruct (Z.eqb_spec (gear_ratio_shaft_revolutions d) 0); [discriminate |].
    intros [= <- <-]. split; [reflexivity | right; split; [assumption | reflexivity]].
  - unfold ret. intros [= <- <-]. auto.
Qed.

(** X13.  What [__init__] of the position and velocity supervisors
    leaves when it returns: the shaft revolutions are not zero, the gearbox
    ratio is the floor quotient of motor by shaft revolutions, the gear
    ratio factor and the tachometer ratio factor are each either 1 or the
    gearbox ratio, no target position is set (target velocity 0), and the
    frame conversion factor is 0 until a configuration is made. *)
Theorem supervisor_init_ratios (d : od) (S : Type) (st st' : S) :
  let gearbox := gear_ratio_motor_revolutions d / gear_ratio_shaft_revolutions d in
  (forall h, Profiler.Position.init d st = (Ok h, st') ->
     gear_ratio_shaft_revolutions d <> 0
     /\ Profiler.Position.gearbox_ratio h = gearbox
     /\ (Profiler.Position.gear_ratio_factor h = 1
         \/ Profiler.Position.gear_ratio_factor h = gearbox)
     /\ (Profiler.Position.tachometer_ratio_factor h = 1
         \/ Profiler.Position.tachometer_ratio_factor h = gearbox)
     /\ Profiler.Position.target_position h = None
     /\ Profiler.Position.configured_frame_to_position_control_frame h = 0%Q)
  /\ (forall h, Profiler.Velocity.init d st = (Ok h, st') ->
        gear_ratio_shaft_revolutions d <> 0
        /\ Profiler.Velocity.gearbox_ratio h = gearbox
        /\ (Profiler.Velocity.gear_ratio_factor h = 1
            \/ Profiler.Velocity.gear_ratio_factor h = gearbox)
        /\ (Profiler.Velocity.tachometer_ratio_factor h = 1
            \/ Profiler.Velocity.tachometer_ratio_factor h = gearbox)
        /\ Profiler.Velocity.target_velocity h = 0
        /\ Profiler.Velocity.configured_frame_to_velocity_control_frame h = 0%Q).
Proof.
  cbv zeta. split; intros h Hinit.
  - unfold Profiler.Position.init in Hinit. unfold bind at 1 in Hinit.
    destruct (get_tachometer_ratio d st) as [[t | e |] s1] eqn:Ht; try discriminate.
    unfold bind at 1 in Hinit.
    destruct (get_gear_ratio d s1) as [[g | e |] s2] eqn:Hg; try discriminate.
    unfold bind at 1 in Hinit.
    rewrite get_gearbox_ratio_cases in Hinit.
    destruct (Z.eqb_spec (gear_ratio_shaft_revolutions d) 0) as [E | E];
      [discriminate |].
    unfold ret in Hinit. injection Hinit as <- _.
    destruct (ratio_cases d S st s1 None (Some true) t Ht) as [-> Hts].
    destruct (ratio_cases d S st s2 (Some true) None g Hg) as [_ Hgs].
    cbn. repeat split; try assumption; tauto.
  - unfold Profiler.Velocity.init in Hinit. unfold bind at 1 in Hinit.
    destruct (get_tachometer_ratio d st) as [[t | e |] s1] eqn:Ht; try discriminate.
    unfold bind at 1 in Hinit.
    destruct (get_gear_ratio d s1) as [[g | e |] s2] eqn:Hg; try discriminate.
    unfold bind at 1 in Hinit.
    rewrite get_gearbox_ratio_cases in Hinit.
    destruct (Z.eqb_spec (gear_ratio_shaft_revolutions d) 0) as [E | E];
      [discriminate |].
    unfold ret in Hinit. injection Hinit as <- _.
    destruct (ratio_cases d S st s1 None (Some true) t Ht) as [-> Hts].
    destruct (ratio_cases d S st s2 (Some true) None g Hg) as [_ Hgs].
    cbn. repeat split; try assumption; tauto.
Qed.

(** X14.  A device without feedback sensor ports: both supervisors fail
    in [__init__] with the [ExceptionSensorConfig] of the tachometer
    look-up (functions 1, 3, 7), which runs first; [get_gear_ratio], the
    commutation look-up and the two sensor-function look-ups fail too. *)
Theorem supervisor_init_without_sensor (d : od) (S : Type) (st : S) :
  feedback_sensor_ports_subindex d <= 0 ->
  Profiler.Position.init d st
  = (Raised (ExceptionSensorConfig (NoSensorForFunctions [1; 3; 7])), st)
  /\ Profiler.Velocity.init d st
     = (Raised (ExceptionSensorConfig (NoSensorForFunctions [1; 3; 7])), st)
  /\ get_gear_ratio d st
     = (Raised (ExceptionSensorConfig (NoSensorForFunctions [1; 3; 6])), st)
  /\ get_commutation_encoder_config_index d st
     = (Raised (ExceptionSensorConfig NoSensorForCommutation), st)
  /\ get_sensor_function_for_position_control d = None
  /\ get_sensor_function_for_velocity_control d = None.
Proof.
  intros Hn.
  assert (Hr : range 0 (feedback_sensor_ports_subindex d) = []).
  { unfold range. replace (Z.to_nat (feedback_sensor_ports_subindex d - 0)) with 0%nat
      by lia. reflexivity. }
  unfold Profiler.Position.init, Profiler.Velocity.init, get_tachometer_ratio,
    get_gear_ratio, get_motion_encoder_config_index,
    get_commutation_encoder_config_index,
    get_sensor_function_for_position_control,
    get_sensor_function_for_velocity_control, bind.
  rewrite Hr. cbn. repeat split.
Qed.

(** *** Data overflows *)

Lemma map_from_length (p : nat) (f : Q -> Q) (l : list Q) :
  List.length (map_from p f l) = List.length l.
Proof.
  unfold map_from. rewrite length_app, length_map, <- length_app, firstn_skipn.
  reflexivity.
Qed.

Lemma map_from_nth (p : nat) (f : Q -> Q) (l : list Q) (i : nat) :
  (i < List.length l)%nat ->
  nth i (map_from p f l) 0%Q
  = if (p <=? i)%nat then f (nth i l 0%Q) else nth i l 0%Q.
Proof.
  intros Hi. unfold map_from.
  destruct (Nat.leb_spec p i) as [Hp | Hp].
  - rewrite app_nth2 by (rewrite length_firstn; lia).
    rewrite length_firstn, Nat.min_l by lia.
    rewrite (nth_indep _ 0%Q (f 0%Q)) by (rewrite length_map, length_skipn; lia).
    rewrite map_nth, nth_skipn. f_equal. f_equal. lia.
  - rewrite app_nth1 by (rewrite length_firstn; lia).
    rewrite nth_firstn. destruct (Nat.ltb_spec i p); [reflexivity | lia].
Qed.

Lemma shifts_length (delta : Q) (positions : list nat) :
  forall l,
    List.length (fold_left (fun c p => map_from p (fun x => x + delta)%Q c) positions l)
    = List.length l.
Proof.
  induction positions as [| p ps IH]; intros l; [reflexivity |].
  cbn [fold_left]. rewrite IH. apply map_from_length.
Qed.

Lemma shifts_nth (delta : Q) (positions : list nat) (i : nat) :
  forall l,
    (i < List.length l)%nat ->
    (nth i (fold_left (fun c p => map_from p (fun x => x + delta)%Q c) positions l) 0
     == nth i l 0
        + inject_Z (Z.of_nat (List.length (filter (fun p => (p <=? i)%nat) positions)))
          * delta)%Q.
Proof.
  induction positions as [| p ps IH]; intros l Hi.
  - cbn [fold_left filter List.length]. change (inject_Z (Z.of_nat 0)) with 0%Q. ring.
  - cbn [fold_left filter]. rewrite IH by (rewrite map_from_length; exact Hi).
    rewrite map_from_nth by exact Hi.
    destruct (p <=? i)%nat.
    + cbn [List.length]. rewrite Nat2Z.inj_succ. unfold Z.succ.
      rewrite inject_Z_plus. change (inject_Z 1) with 1%Q.
      ring.
    + ring.
Qed.

(** X15.  The two loops of [remove_data_overflows], on integer data with
    an integer resolution (where the additions of the code are exact), for
    whatever overflow positions were found: the length of the data is
    kept, the sample at index [i] is moved by the resolution times the
    number of positive overflows at or before [i] minus the number of
    negative ones, and data without overflows are returned unchanged.  The
    positions that [get_data_overflows] reports lie in 1..len-1, so the
    first sample is never moved. *)
Theorem remove_data_overflows_shifts (data : list Z) (data_resolution : Z)
    (positive negative : list nat) :
  let continuous :=
    shift_overflows positive negative (map inject_Z data) (inject_Z data_resolution) in
  let upto (i : nat) (positions : list nat) :=
    Z.of_nat (List.length (filter (fun p => (p <=? i)%nat) positions)) in
  List.length continuous = List.length data
  /\ (forall i, (i < List.length data)%nat ->
        (nth i continuous 0
         == inject_Z (nth i data 0 + (upto i positive - upto i negative)
                                     * data_resolution)%Z)%Q)
  /\ (positive = [] -> negative = [] -> continuous = map inject_Z data)
  /\ (forall (samples : list Q) (resolution max_step_relative : Q) (p : nat),
        In p (fst (get_data_overflows samples resolution max_step_relative))
        \/ In p (snd (get_data_overflows samples resolution max_step_relative)) ->
        (1 <= p < List.length samples)%nat).
Proof.
  cbv zeta. unfold shift_overflows.
  assert (Hminus : forall c ps,
             fold_left (fun c p => map_from p (fun x => x - inject_Z data_resolution)%Q c)
               ps c
             = fold_left
                 (fun c p => map_from p (fun x => x + - inject_Z data_resolution)%Q c)
                 ps c).
  { reflexivity. }
  rewrite Hminus.
  split; [| split; [| split]].
  - rewrite !shifts_length. apply length_map.
  - intros i Hi.
    rewrite shifts_nth by (rewrite shifts_length, length_map; exact Hi).
    rewrite shifts_nth by (rewrite length_map; exact Hi).
    change 0%Q with (inject_Z 0). rewrite map_nth.
    rewrite inject_Z_plus, inject_Z_mult. unfold Z.sub.
    rewrite inject_Z_plus, inject_Z_opp. ring.
  - intros -> ->. reflexivity.
  - intros samples resolution max_step_relative p.
    unfold get_data_overflows. cbn [fst snd].
    intros [Hp | Hp]; apply filter_In in Hp; destruct Hp as [Hp _];
      apply in_seq in Hp; lia.
Qed.

(** X16.  With a resolution that is not negative and a relative step of
    at most one half, [get_data_overflows] never reports the same position
    as a positive and as a negative overflow. *)
Theorem data_overflows_are_disjoint (data : list Q)
    (data_resolution max_step_relative : Q) (p : nat) :
  (0 <= data_resolution)%Q ->
  (max_step_relative <= 1 # 2)%Q ->
  In p (fst (get_data_overflows data data_resolution max_step_relative)) ->
  ~ In p (snd (get_data_overflows data data_resolution max_step_relative)).
Proof.
  intros Hr Hm Hpos Hneg. unfold get_data_overflows in *. cbn [fst snd] in *.
  apply filter_In in Hpos. apply filter_In in Hneg.
  destruct Hpos as [_ Hpos]. destruct Hneg as [_ Hneg].
  apply andb_true_iff in Hpos. apply andb_true_iff in Hneg.
  destruct Hpos as [H1 _]. destruct Hneg as [H2 _].
  unfold Qltb in H1, H2. apply negb_true_iff in H1, H2.
  assert (L1 : ~ (nth (p - 1) data 0 <= data_resolution * (1 - max_step_relative))%Q)
    by (intros H; apply Qle_bool_iff in H; congruence).
  assert (L2 : ~ (data_resolution * max_step_relative <= nth (p - 1) data 0)%Q)
    by (intros H; apply Qle_bool_iff in H; congruence).
  apply Qnot_le_lt in L1. apply Qnot_le_lt in L2.
  assert (data_resolution * max_step_relative
          <= data_resolution * (1 - max_step_relative))%Q; [| lra].
  setoid_replace (data_resolution * (1 - max_step_relative))%Q
    with (data_resolution * max_step_relative
          + data_resolution * (1 - 2 * max_step_relative))%Q by ring.
  assert (0 <= data_resolution * (1 - 2 * max_step_relative))%Q; [| lra].
  apply Qmult_le_0_compat; lra.
Qed.

End ToolboxExtras.

(** A device with two encoders: port 1 holds configuration 8720 with
    function 5 (commutation only), port 2 holds configuration 8721 with
    function 3 (motion control feedback only); the gearbox is 6:2. *)
Lemma motion_encoder_is_first_matching_port_witness :
  let d := Toolbox.mkOd 11814656 6 2 2
             (fun port => if port =? 1 then 8720 else 8721)
             (fun index _ => if index =? 8720 then 5 else 3) in
  let n := Toolbox.feedback_sensor_ports_subindex d in
  let matches port :=
    Toolbox.feedback_sensor_ports d port <> 0
    /\ In (Toolbox.parameter d (Toolbox.feedback_sensor_ports d port) 2) [1; 3; 6] in
  match fst (Toolbox.get_motion_encoder_config_index d (Some true) None tt) with
  | Ok i =>
      exists port, 1 <= port <= n
                   /\ i = Toolbox.feedback_sensor_ports d port
                   /\ matches port
                   /\ forall q, 1 <= q < port -> ~ matches q
  | Raised e =>
      e = ExceptionSensorConfig (NoSensorForFunctions [1; 3; 6])
      /\ forall q, 1 <= q <= n -> ~ matches q
  | OutOfFuel => False
  end.
Proof.
  intros d.
  apply (motion_encoder_is_first_matching_port d unit tt (Some true) None [1; 3; 6]).
  left. repeat split.
Defined.

Example motion_encoder_on_second_port :
  let d := Toolbox.mkOd 11814656 6 2 2
             (fun port => if port =? 1 then 8720 else 8721)
             (fun index _ => if index =? 8720 then 5 else 3) in
  fst (Toolbox.get_motion_encoder_config_index d (Some true) None tt) = Ok 8721
  /\ Toolbox.get_sensor_function_for_position_control d = Some 3
  /\ fst (Toolbox.get_gear_ratio d tt) = Ok 3.
Proof. vm_compute. repeat split. Qed.

Lemma supervisor_init_ratios_witness :
  let d := Toolbox.mkOd 11814656 6 2 2
             (fun port => if port =? 1 then 8720 else 8721)
             (fun index _ => if index =? 8720 then 5 else 3) in
  match Profiler.Position.init d tt with
  | (Ok h, _) =>
      Toolbox.gear_ratio_shaft_revolutions d <> 0
      /\ Profiler.Position.gearbox_ratio h = 6 / 2
      /\ (Profiler.Position.gear_ratio_factor h = 1
          \/ Profiler.Position.gear_ratio_factor h = 6 / 2)
      /\ (Profiler.Position.tachometer_ratio_factor h = 1
          \/ Profiler.Position.tachometer_ratio_factor h = 6 / 2)
      /\ Profiler.Position.target_position h = None
      /\ Profiler.Position.configured_frame_to_position_control_frame h = 0%Q
  | _ => False
  end.
Proof.
  intros d.
  destruct (Profiler.Position.init d tt) as [[h | x |] st'] eqn:E.
  - apply (proj1 (supervisor_init_ratios d unit tt st') h E).
  - vm_compute in E. discriminate E.
  - vm_compute in E. discriminate E.
Defined.

Lemma supervisor_init_without_sensor_witness :
  let d := Toolbox.mkOd 11814656 1 1 0 (fun _ => 8720) (fun _ _ => 1) in
  Profiler.Position.init d tt
  = (Raised (ExceptionSensorConfig (NoSensorForFunctions [1; 3; 7])), tt)
  /\ Profiler.Velocity.init d tt
     = (Raised (ExceptionSensorConfig (NoSensorForFunctions [1; 3; 7])), tt)
  /\ Toolbox.get_gear_ratio d tt
     = (Raised (ExceptionSensorConfig (NoSensorForFunctions [1; 3; 6])), tt)
  /\ Toolbox.get_commutation_encoder_config_index d tt
     = (Raised (ExceptionSensorConfig NoSensorForCommutation), tt)
  /\ Toolbox.get_sensor_function_for_position_control d = None
  /\ Toolbox.get_sensor_function_for_velocity_control d = None.
Proof.
  intros d.
  apply (supervisor_init_without_sensor d unit tt).
  simpl. lia.
Defined.

(** Encoder data of resolution 100 that wrap from 95 to 5 and later back
    from 3 to 97: the samples from index 2 on are moved up by 100, those
    from index 5 on are moved back. *)
Lemma remove_data_overflows_shifts_witness :
  let data := [90; 95; 5; 10; 3; 97; 92] in
  let continuous :=
    Toolbox.shift_overflows [2%nat] [5%nat] (map inject_Z data) (inject_Z 100) in
  (nth 3 continuous 0 == inject_Z (10 + (1 - 0) * 100))%Q
  /\ (nth 6 continuous 0 == inject_Z (92 + (1 - 1) * 100))%Q
  /\ Toolbox.shift_overflows [] [] (map inject_Z data) (inject_Z 100)
     = map inject_Z data.
Proof.
  intros data continuous. split; [| split].
  - apply (proj1 (proj2 (remove_data_overflows_shifts data 100 [2%nat] [5%nat])) 3%nat).
    simpl. lia.
  - apply (proj1 (proj2 (remove_data_overflows_shifts data 100 [2%nat] [5%nat])) 6%nat).
    simpl. lia.
  - apply (proj1 (proj2 (proj2 (remove_data_overflows_shifts data 100 [] []))));
      reflexivity.
Defined.

Example shift_overflows_run :
  map Qred (Toolbox.shift_overflows [2%nat] [5%nat]
              (map inject_Z [90; 95; 5; 10; 3; 97; 92]) (inject_Z 100))
  = map inject_Z [90; 95; 105; 110; 103; 97; 92].
Proof. vm_compute. reflexivity. Qed.

Lemma data_overflows_are_disjoint_witness :
  ~ In 2%nat (snd (Toolbox.get_data_overflows [90; 95; 5; 10]%Q 100 (1 # 10))).
Proof.
  apply (data_overflows_are_disjoint [90; 95; 5; 10]%Q 100%Q (1 # 10)%Q 2%nat).
  - discriminate.
  - discriminate.
  - vm_compute. left. reflexivity.
Defined.

(** ** Configuration failures and the velocity target *)

Section ProfilerExtras.

Import Profiler.

Lemma truediv_zero (S : Type) (a : Z) (s : S) :
  truediv a 0 s = (Raised ZeroDivisionError, s).
Proof. reflexivity. Qed.

(** X17.  Division by zero in [set_profiler_configuration].  A position
    supervisor whose gear ratio factor is 0 (a gearbox ratio below 1 after
    the floor division) raises [ZeroDivisionError] for every frame but the
    position control frame; a velocity supervisor whose tachometer ratio
    factor is 0 does so for every frame but the velocity control frame.
    The configured frame has been stored by then; nothing else has
    changed and nothing was written to the drive. *)
Theorem configuration_divides_by_zero (frame : VelocityParametersFrame)
    (a d v tolerance : Q) (tol pt sd : option Q)
    (ep : env Position.t) (ev : env Velocity.t) :
  (Position.gear_ratio_factor (self ep) = 0 ->
   frame <> POSITION_CONTROL_FRAME ->
   Position.set_profiler_configuration frame a d v tol pt sd ep
   = (Raised ZeroDivisionError,
      mkEnv (Position.set_configured_frame frame (self ep)) (clock ep) (calls ep)))
  /\ (Velocity.tachometer_ratio_factor (self ev) = 0 ->
      frame <> VELOCITY_CONTROL_FRAME ->
      Velocity.set_profiler_configuration frame a d tolerance pt sd ev
      = (Raised ZeroDivisionError,
         mkEnv (Velocity.set_configured_frame frame (self ev)) (clock ev) (calls ev))).
Proof.
  split; intros Hz Hf.
  - unfold Position.set_profiler_configuration.
    unfold bind at 1. unfold update at 1, modify at 1.
    unfold bind at 1. unfold Position.select_factor.
    unfold bind at 1. unfold gets at 1.
    cbn [self Position.set_configured_frame Position.gear_ratio_factor].
    rewrite Hz.
    destruct frame; try contradiction; reflexivity.
  - unfold Velocity.set_profiler_configuration.
    unfold bind at 1. unfold update at 1, modify at 1.
    unfold bind at 1. unfold Velocity.select_factor.
    unfold bind at 1. unfold gets at 1.
    cbn [self Velocity.set_configured_frame Velocity.tachometer_ratio_factor].
    rewrite Hz.
    destruct frame; try contradiction; reflexivity.
Qed.

(** X18.  [set_profiler_configuration] with no SI scaling factor (an
    unknown SI prefix code): it raises [TypeError] at the first conversion
    to SI units, before any write to the drive; the frame and the
    converted profile values are stored already (for the velocity
    supervisor the tolerance too), while the timeout, the stabilization
    duration and, for the position supervisor, the tolerance keep their
    old values and the velocity target is not reset. *)
Theorem configuration_without_si_factor (frame : VelocityParametersFrame)
    (a d v tolerance : Q) (tol pt sd : option Q)
    (ep : env Position.t) (ev : env Velocity.t) :
  (Position.si_unit_scaling_factor (self ep) = None ->
   frame = POSITION_CONTROL_FRAME \/ Position.gear_ratio_factor (self ep) <> 0 ->
   let k := rule_to_position_control (Position.gearbox_ratio (self ep))
              (Position.gear_ratio_factor (self ep))
              (Position.tachometer_ratio_factor (self ep)) frame in
   exists e',
     Position.set_profiler_configuration frame a d v tol pt sd ep = (Raised TypeError, e')
     /\ calls e' = calls ep
     /\ Position.configured_frame (self e') = Some frame
     /\ Position.acceleration (self e') = (a * k)%Q
     /\ Position.deceleration (self e') = (d * k)%Q
     /\ Position.max_velocity (self e') = (v * k)%Q
     /\ Position.target_tolerance (self e') = Position.target_tolerance (self ep)
     /\ Position.profiler_timeout (self e') = Position.profiler_timeout (self ep)
     /\ Position.stabilization_duration (self e')
        = Position.stabilization_duration (self ep))
  /\ (Velocity.si_unit_scaling_factor (self ev) = None ->
      frame = VELOCITY_CONTROL_FRAME \/ Velocity.tachometer_ratio_factor (self ev) <> 0 ->
      let k := rule_to_velocity_control (Velocity.gearbox_ratio (self ev))
                 (Velocity.gear_ratio_factor (self ev))
                 (Velocity.tachometer_ratio_factor (self ev)) frame in
      exists e',
        Velocity.set_profiler_configuration frame a d tolerance pt sd ev
        = (Raised TypeError, e')
        /\ calls e' = calls ev
        /\ Velocity.configured_frame (self e') = Some frame
        /\ Velocity.acceleration (self e') = (a * k)%Q
        /\ Velocity.deceleration (self e') = (d * k)%Q
        /\ Velocity.target_tolerance (self e') = (tolerance * k)%Q
        /\ Velocity.target_velocity (self e') = Velocity.target_velocity (self ev)
        /\ Velocity.profiler_timeout (self e') = Velocity.profiler_timeout (self ev)
        /\ Velocity.stabilization_duration (self e')
           = Velocity.stabilization_duration (self ev)).
Proof.
  split; intros Hsi Hk k; subst k.
  - unfold Position.set_profiler_configuration.
    unfold bind at 1. unfold update at 1, modify at 1.
    unfold bind at 1.
    rewrite position_select_factor by exact Hk.
    unfold bind, gets, update, modify, times_si, invoke, when_given, ret, raise.
    cbn. rewrite Hsi. cbn.
    eexists. split; [reflexivity |]. cbn. repeat split.
  - unfold Velocity.set_profiler_configuration.
    unfold bind at 1. unfold update at 1, modify at 1.
    unfold bind at 1.
    rewrite velocity_select_factor by exact Hk.
    unfold bind, gets, update, modify, times_si, invoke, when_given, ret, raise.
    cbn. rewrite Hsi. cbn.
    eexists. split; [reflexivity |]. cbn. repeat split.
Qed.

Lemma int_inject_Z_mult (x y : Z) : int (inject_Z x * inject_Z y) = x * y.
Proof.
  unfold int, inject_Z, Qmult. cbn [Qnum Qden].
  change (Z.pos (1 * 1)) with 1. apply Z.quot_1_r.
Qed.

Lemma int_zero_factor (x k : Q) : (k == 0)%Q -> int (x * k) = 0.
Proof.
  intros Hk. unfold Qeq in Hk. cbn in Hk. rewrite Z.mul_1_r in Hk.
  unfold int, Qmult. cbn [Qnum Qden]. rewrite Hk, Z.mul_0_r.
  apply Z.quot_0_l. discriminate.
Qed.

Lemma int_unit_factor (x : Z) : int (inject_Z x * 1) = x.
Proof.
  unfold int, inject_Z, Qmult. cbn [Qnum Qden].
  change (Z.pos (1 * 1)) with 1. rewrite Z.quot_1_r. lia.
Qed.

(** X19.  [VelocityProfileHandler.set_target_velocity] stores an integer
    target.  With an SI factor it writes that target times the factor to
    the drive and sets the stabilization deadline to now plus the
    stabilization duration; without one it raises [TypeError] after
    storing the target and before any write.  The target is [int] of the
    velocity times the frame factor, a product the code takes in doubles;
    it is stated where that product is exact: with the frame factor 0, as
    [__init__] leaves it, the target is 0 whatever velocity is asked, and
    on a supervisor configured in the velocity control frame the target of
    an integer velocity is that velocity. *)
Theorem set_target_velocity_effects (target_velocity : Q) (e : env Velocity.t) :
  let h := self e in
  let k := Velocity.configured_frame_to_velocity_control_frame h in
  exists target : Z,
    (forall f, Velocity.si_unit_scaling_factor h = Some f ->
       Velocity.set_target_velocity target_velocity e
       = (Ok tt,
          mkEnv (Velocity.set_stabilization_time
                   (clock e + Velocity.stabilization_duration h)%Q
                   (Velocity.set_target target h))
            (clock e) (od_target_velocity (target * f) :: calls e)))
    /\ (Velocity.si_unit_scaling_factor h = None ->
        Velocity.set_target_velocity target_velocity e
        = (Raised TypeError,
           mkEnv (Velocity.set_target target h) (clock e) (calls e)))
    /\ ((k == 0)%Q -> target = 0)
    /\ (forall (e0 : env Velocity.t) (a d tol : Q) (pt sd : option Q) (v : Z),
          e = snd (Velocity.set_profiler_configuration VELOCITY_CONTROL_FRAME
                     a d tol pt sd e0) ->
          target_velocity = inject_Z v ->
          target = v).
Proof.
  intros h k. subst h k.
  exists (int (target_velocity
               * Velocity.configured_frame_to_velocity_control_frame (self e))).
  split; [| split; [| split]].
  - intros f Hsi.
    unfold Velocity.set_target_velocity, bind, gets, update, modify, times_si,
      invoke, time, ret.
    cbn. rewrite Hsi. cbn. rewrite int_inject_Z_mult. reflexivity.
  - intros Hsi.
    unfold Velocity.set_target_velocity, bind, gets, update, modify, times_si,
      invoke, time, ret, raise.
    cbn. rewrite Hsi. reflexivity.
  - apply int_zero_factor.
  - intros e0 a d tol pt sd v He ->.
    destruct (velocity_configuration_state VELOCITY_CONTROL_FRAME a d tol pt sd e0)
      as [_ [Hf _]]; [left; reflexivity |].
    rewrite <- He in Hf. rewrite Hf. cbn [rule_to_velocity_control].
    apply int_unit_factor.
Qed.

End ProfilerExtras.

(** A gearbox of 1:2 with the position encoder behind it: the floor
    division makes the gear ratio factor 0, and the configuration in the
    motor shaft frame divides by it. *)
Lemma configuration_divides_by_zero_witness :
  let hp := Profiler.Position.mk (Some 1) 1 0 0 0 0 0 30 20 2 None None None 0 in
  let hv := Profiler.Velocity.mk (Some 1) 0 1 0 0 0 0 20 2 None 0 None 0 in
  Profiler.Position.set_profiler_configuration Profiler.MOTOR_SHAFT_FRAME
    1000 1000 1000 None None None (Profiler.mkEnv hp 0 [])
  = (Raised ZeroDivisionError,
     Profiler.mkEnv
       (Profiler.Position.set_configured_frame Profiler.MOTOR_SHAFT_FRAME hp) 0 [])
  /\ Profiler.Velocity.set_profiler_configuration Profiler.MOTOR_SHAFT_FRAME
       1000 1000 5 None None (Profiler.mkEnv hv 0 [])
     = (Raised ZeroDivisionError,
        Profiler.mkEnv
          (Profiler.Velocity.set_configured_frame Profiler.MOTOR_SHAFT_FRAME hv) 0 []).
Proof.
  intros hp hv.
  destruct (configuration_divides_by_zero Profiler.MOTOR_SHAFT_FRAME
              1000%Q 1000%Q 1000%Q 5%Q None None None
              (Profiler.mkEnv hp 0 []) (Profiler.mkEnv hv 0 [])) as [Hp Hv].
  split.
  - apply Hp; [reflexivity | discriminate].
  - apply Hv; [reflexivity | discriminate].
Defined.

Example gear_ratio_factor_zero_after_init :
  let d := Toolbox.mkOd 11814656 1 2 2
             (fun port => if port =? 1 then 8720 else 8721)
             (fun index _ => if index =? 8720 then 5 else 3) in
  match Profiler.Position.init d tt with
  | (Ok h, _) =>
      Profiler.Position.gear_ratio_factor h = 0
      /\ fst (Profiler.Position.set_profiler_configuration Profiler.MOTOR_SHAFT_FRAME
                1000 1000 1000 None None None (Profiler.mkEnv h 0 []))
         = Raised ZeroDivisionError
  | _ => False
  end.
Proof. vm_compute. split; reflexivity. Qed.

Lemma configuration_without_si_factor_witness :
  let hp := Profiler.Position.mk None 1 1 1 0 0 0 30 20 2 None None None 0 in
  let k := Profiler.rule_to_position_control 1 1 1 Profiler.MOTOR_SHAFT_FRAME in
  exists e',
    Profiler.Position.set_profiler_configuration Profiler.MOTOR_SHAFT_FRAME
      1000 800 600 (Some 5%Q) None None (Profiler.mkEnv hp 0 [])
    = (Raised TypeError, e')
    /\ Profiler.calls e' = []
    /\ Profiler.Position.configured_frame (Profiler.self e')
       = Some Profiler.MOTOR_SHAFT_FRAME
    /\ Profiler.Position.acceleration (Profiler.self e') = (1000 * k)%Q
    /\ Profiler.Position.deceleration (Profiler.self e') = (800 * k)%Q
    /\ Profiler.Position.max_velocity (Profiler.self e') = (600 * k)%Q
    /\ Profiler.Position.target_tolerance (Profiler.self e') = 30%Q
    /\ Profiler.Position.profiler_timeout (Profiler.self e') = 20%Q
    /\ Profiler.Position.stabilization_duration (Profiler.self e') = 2%Q.
Proof.
  intros hp k.
  apply (proj1 (configuration_without_si_factor Profiler.MOTOR_SHAFT_FRAME
                  1000%Q 800%Q 600%Q 5%Q (Some 5%Q) None None
                  (Profiler.mkEnv hp 0 [])
                  (Profiler.mkEnv
                     (Profiler.Velocity.mk None 1 1 1 0 0 0 20 2 None 0 None 0) 0 []))).
  - reflexivity.
  - right. cbn. discriminate.
Defined.

(** A velocity supervisor configured in the velocity control frame, SI
    factor 10: the target 101 is stored as 101 and written as 1010. *)
Lemma set_target_velocity_effects_witness :
  let h := Profiler.Velocity.mk (Some 10) 2 1 1 0 0 0 20 2 None 0 None 0 in
  let e := snd (Profiler.Velocity.set_profiler_configuration
                  Profiler.VELOCITY_CONTROL_FRAME 1000 800 5 None None
                  (Profiler.mkEnv h 7 [])) in
  Profiler.Velocity.set_target_velocity 101 e
  = (Ok tt,
     Profiler.mkEnv
       (Profiler.Velocity.set_stabilization_time
          (Profiler.clock e + Profiler.Velocity.stabilization_duration (Profiler.self e))%Q
          (Profiler.Velocity.set_target 101 (Profiler.self e)))
       (Profiler.clock e)
       (Profiler.od_target_velocity (101 * 10) :: Profiler.calls e)).
Proof.
  intros h e.
  destruct (set_target_velocity_effects 101%Q e) as [target [Hrun [_ [_ Hown]]]].
  assert (Ht : target = 101).
  { apply (Hown (Profiler.mkEnv h 7 []) 1000%Q 800%Q 5%Q None None 101);
      reflexivity. }
  rewrite Ht in Hrun. apply Hrun. vm_compute. reflexivity.
Defined.

Example set_target_velocity_before_configuration :
  let h := Profiler.Velocity.mk (Some 10) 2 1 1 0 0 0 20 2 None 0 None 0 in
  let run := Profiler.Velocity.set_target_velocity 101 (Profiler.mkEnv h 7 []) in
  fst run = Ok tt
  /\ Profiler.Velocity.target_velocity (Profiler.self (snd run)) = 0
  /\ Profiler.calls (snd run) = [Profiler.od_target_velocity 0].
Proof. vm_compute. repeat split. Qed.

(** ** [go_to_position] *)

Section PositionExtras.

Import Profiler.

Variable demand_at : nat -> Z.

Lemma go_loop_step (fuel : nat) (expected : option Z)
    (timeout : Q) (e : env Position.t) (target : Z) (d0 : Q) :
  Position.target_position (self e) = Some target ->
  Position.stabilization_time (self e) = Some d0 ->
  let tol := Position.target_tolerance (self e) in
  let e1 := mkEnv (self e) (clock e + (1 # 100))%Q (calls e) in
  let p := Position.mkPoll (1 # 100)
             (demand_at (Position.demand_reads (calls e))) expected in
  let e2 := Position.polled tol target p e1 in
  Position.go_loop demand_at (S fuel) expected timeout e
  = if Qltb tol 0
    then (Position.Crashed ValueError,
          mkEnv (self e) (clock e1)
            (od_position_demand_internal_value (Position.demand p) :: calls e))
    else if Position.in_tolerance tol target p && Qltb d0 (clock e1)
    then (Position.Reached, e2)
    else if Qltb timeout (clock e1)
    then (Position.NotAchieved expected
            (demand_at (Position.demand_reads (calls e2))) (Some target),
          mkEnv (self e2) (clock e2)
            (od_position_demand_internal_value
               (demand_at (Position.demand_reads (calls e2))) :: calls e2))
    else Position.go_loop demand_at fuel expected timeout e2.
Proof.
  intros Ht Hd tol e1 p e2.
  pose proof (is_target_reached_step e1 target d0 p Ht Hd) as Hstep.
  cbn [Position.go_loop]. fold e1.
  change (Position.is_target_reached expected
            (demand_at (Position.demand_reads (calls e1))) e1)
    with (Position.is_target_reached (Position.expected p) (Position.demand p) e1).
  rewrite Hstep. change (Position.target_tolerance (self e1)) with tol. fold e2.
  destruct (Qltb tol 0); [reflexivity |].
  destruct (Position.in_tolerance tol target p && Qltb d0 (clock e1)); [reflexivity |].
  destruct (polled_fields tol target p e1) as [Ft [_ [_ Fc]]]. fold e2 in Ft, Fc.
  rewrite Fc, Ft. cbn [self e1]. rewrite Ht. reflexivity.
Qed.

(** What holds when the loop leaves through [return]. *)
Lemma go_loop_reached (expected : option Z) (timeout lo : Q) (P : Prop) :
  forall (fuel : nat) (e e' : env Position.t) (target : Z) (d0 : Q),
    Position.target_position (self e) = Some target ->
    Position.stabilization_time (self e) = Some d0 ->
    (lo <= d0)%Q ->
    (lo <= clock e + Position.stabilization_duration (self e))%Q ->
    (P -> (clock e <= timeout)%Q) ->
    Position.go_loop demand_at fuel expected timeout e = (Position.Reached, e') ->
    (lo < clock e')%Q
    /\ (P -> (clock e' <= timeout + (1 # 100))%Q)
    /\ Position.target_position (self e') = Some target
    /\ exists d rest,
         calls e' = od_position_demand_internal_value d :: rest
         /\ close_enough (inject_Z d)
              (inject_Z (match expected with None => target | Some x => x end))
              (Position.target_tolerance (self e)) = true.
Proof.
  induction fuel as [| fuel IH]; intros e e' target d0 Ht Hd Hlo Hlo' Hle Hrun.
  - discriminate Hrun.
  - rewrite (go_loop_step fuel expected timeout e target d0 Ht Hd) in Hrun.
    cbv zeta in Hrun.
    set (tol := Position.target_tolerance (self e)) in *.
    set (e1 := mkEnv (self e) (clock e + (1 # 100))%Q (calls e)) in *.
    set (p := Position.mkPoll (1 # 100)
                (demand_at (Position.demand_reads (calls e))) expected) in *.
    destruct (polled_fields tol target p e1) as [Ft [Ftol [Fd Fc]]].
    cbn [self clock e1] in Ft, Ftol, Fd, Fc. fold e1 in Ft, Ftol, Fd, Fc.
    destruct (Qltb tol 0); [discriminate Hrun |].
    destruct (Position.in_tolerance tol target p) eqn:Hin.
    + destruct (Qltb d0 (clock e1)) eqn:Hlate; cbn [andb] in Hrun.
      * injection Hrun as <-. apply Qltb_lt in Hlate. cbn [clock e1] in Hlate.
        rewrite Fc, Ft. split; [lra |]. split; [intros HP; specialize (Hle HP); lra |].
        split; [exact Ht |].
        exists (Position.demand p), (calls e). split.
        -- unfold Position.polled. reflexivity.
        -- exact Hin.
      * destruct (Qltb timeout (clock e1)) eqn:Hto; [discriminate Hrun |].
        apply Qltb_ge in Hto.
        destruct (IH (Position.polled tol target p e1) e' target d0) as [H1 [H2 [H3 H4]]].
        -- rewrite Ft. exact Ht.
        -- unfold Position.polled. rewrite Hin. exact Hd.
        -- exact Hlo.
        -- rewrite Fc, Fd. lra.
        -- intros _. rewrite Fc. exact Hto.
        -- exact Hrun.
        -- rewrite Ftol in H4. auto.
    + cbn [andb] in Hrun.
      destruct (Qltb timeout (clock e1)) eqn:Hto; [discriminate Hrun |].
      apply Qltb_ge in Hto.
      destruct (IH (Position.polled tol target p e1) e' target
                  (clock e1 + Position.stabilization_duration (self e1))%Q)
        as [H1 [H2 [H3 H4]]].
      * rewrite Ft. exact Ht.
      * unfold Position.polled. rewrite Hin. reflexivity.
      * cbn [clock self e1]. lra.
      * rewrite Fc, Fd. lra.
      * intros _. rewrite Fc. exact Hto.
      * exact Hrun.
      * rewrite Ftol in H4. auto.
Qed.

(** The loop ends within [n] turns when the timeout is less than [n] sleeps
    away. *)
Lemma go_loop_ends (expected : option Z) (timeout : Q) :
  forall (n : nat) (e : env Position.t) (target : Z) (d0 : Q),
    Position.target_position (self e) = Some target ->
    Position.stabilization_time (self e) = Some d0 ->
    (0 <= Position.target_tolerance (self e))%Q ->
    (clock e <= timeout)%Q ->
    (timeout - clock e < inject_Z (Z.of_nat n) * (1 # 100))%Q ->
    forall fuel, (n <= fuel)%nat ->
      exists e',
        (Position.go_loop demand_at fuel expected timeout e = (Position.Reached, e')
         \/ (exists d,
               Position.go_loop demand_at fuel expected timeout e
               = (Position.NotAchieved expected d (Some target), e'))
            /\ (timeout < clock e')%Q)
        /\ (clock e' <= timeout + (1 # 100))%Q.
Proof.
  induction n as [| n IH]; intros e target d0 Ht Hd Htol Hle Hlt fuel Hfuel.
  - exfalso. change (inject_Z (Z.of_nat 0)) with 0%Q in Hlt. lra.
  - destruct fuel as [| fuel]; [lia |].
    rewrite (go_loop_step fuel expected timeout e target d0 Ht Hd). cbv zeta.
    set (tol := Position.target_tolerance (self e)) in *.
    set (e1 := mkEnv (self e) (clock e + (1 # 100))%Q (calls e)) in *.
    set (p := Position.mkPoll (1 # 100)
                (demand_at (Position.demand_reads (calls e))) expected) in *.
    destruct (polled_fields tol target p e1) as [Ft [Ftol [Fd Fc]]].
    cbn [self clock e1] in Ft, Ftol, Fd, Fc. fold e1 in Ft, Ftol, Fd, Fc.
    assert (Hneg : Qltb tol 0 = false) by (apply Qltb_ge; exact Htol).
    rewrite Hneg.
    destruct (Position.in_tolerance tol target p && Qltb d0 (clock e1)) eqn:Hdone.
    + eexists. split; [left; reflexivity |]. rewrite Fc. lra.
    + destruct (Qltb timeout (clock e1)) eqn:Hto.
      * apply Qltb_lt in Hto. cbn [clock e1] in Hto.
        eexists. split.
        -- right. split; [eexists; reflexivity |]. cbn [clock]. rewrite Fc. exact Hto.
        -- cbn [clock]. rewrite Fc. lra.
      * apply Qltb_ge in Hto. cbn [clock e1] in Hto.
        assert (Hd1 : exists d1,
                   Position.stabilization_time (self (Position.polled tol target p e1))
                   = Some d1).
        { unfold Position.polled. destruct (Position.in_tolerance tol target p);
            cbn; eauto. }
        destruct Hd1 as [d1 Hd1].
        destruct (IH (Position.polled tol target p e1) target d1) with (fuel := fuel)
          as [e' [Hrun Hbound]].
        -- rewrite Ft. exact Ht.
        -- exact Hd1.
        -- rewrite Ftol. exact Htol.
        -- rewrite Fc. exact Hto.
        -- rewrite Fc. rewrite Nat2Z.inj_succ in Hlt. unfold Z.succ in Hlt.
           rewrite inject_Z_plus in Hlt. change (inject_Z 1) with 1%Q in Hlt.
           set (x := inject_Z (Z.of_nat n)) in *. lra.
        -- lia.
        -- exists e'. split; [exact Hrun | exact Hbound].
Qed.

(** On a device that holds an accepted demand the loop returns once the
    deadline has passed. *)
Lemma go_loop_holds (expected : option Z) (timeout : Q) (target : Z) (d0 tol : Q) :
  (forall k, close_enough (inject_Z (demand_at k))
               (inject_Z (match expected with None => target | Some x => x end))
               tol = true) ->
  (0 <= tol)%Q ->
  (d0 <= timeout)%Q ->
  forall (n : nat) (e : env Position.t),
    Position.target_position (self e) = Some target ->
    Position.stabilization_time (self e) = Some d0 ->
    Position.target_tolerance (self e) = tol ->
    (clock e <= d0)%Q ->
    (d0 - clock e < inject_Z (Z.of_nat n) * (1 # 100))%Q ->
    forall fuel, (n <= fuel)%nat ->
      exists e',
        Position.go_loop demand_at fuel expected timeout e = (Position.Reached, e')
        /\ (d0 < clock e')%Q
        /\ (clock e' <= d0 + (1 # 100))%Q
        /\ (Position.demand_reads (calls e')
            <= Position.demand_reads (calls e) + n)%nat.
Proof.
  intros Hhold Htol Hd0 n.
  induction n as [| n IH]; intros e Ht Hd Hetol Hle Hlt fuel Hfuel.
  - exfalso. change (inject_Z (Z.of_nat 0)) with 0%Q in Hlt. lra.
  - destruct fuel as [| fuel]; [lia |].
    rewrite (go_loop_step fuel expected timeout e target d0 Ht Hd). cbv zeta.
    rewrite Hetol.
    set (e1 := mkEnv (self e) (clock e + (1 # 100))%Q (calls e)) in *.
    set (p := Position.mkPoll (1 # 100)
                (demand_at (Position.demand_reads (calls e))) expected) in *.
    destruct (polled_fields tol target p e1) as [Ft [Ftol [Fd Fc]]].
    cbn [self clock e1] in Ft, Ftol, Fd, Fc. fold e1 in Ft, Ftol, Fd, Fc.
    assert (Hneg : Qltb tol 0 = false) by (apply Qltb_ge; exact Htol).
    rewrite Hneg.
    assert (Hin : Position.in_tolerance tol target p = true) by apply Hhold.
    assert (Hcalls : calls (Position.polled tol target p e1)
                     = od_position_demand_internal_value (Position.demand p) :: calls e)
      by reflexivity.
    rewrite Hin. cbn [andb].
    destruct (Qltb d0 (clock e1)) eqn:Hlate.
    + apply Qltb_lt in Hlate. cbn [clock e1] in Hlate.
      eexists. split; [reflexivity |]. rewrite Fc, Hcalls.
      split; [exact Hlate |]. split; [lra |].
      unfold Position.demand_reads. cbn [filter List.length]. lia.
    + apply Qltb_ge in Hlate. cbn [clock e1] in Hlate.
      assert (Hto : Qltb timeout (clock e1) = false)
        by (apply Qltb_ge; cbn [clock e1]; lra).
      rewrite Hto.
      destruct (IH (Position.polled tol target p e1)) with (fuel := fuel)
        as [e' [Hrun [H1 [H2 H3]]]].
      * rewrite Ft. exact Ht.
      * unfold Position.polled. rewrite Hin. exact Hd.
      * rewrite Ftol. exact Hetol.
      * rewrite Fc. exact Hlate.
      * rewrite Fc. rewrite Nat2Z.inj_succ in Hlt. unfold Z.succ in Hlt.
        rewrite inject_Z_plus in Hlt. change (inject_Z 1) with 1%Q in Hlt.
        set (x := inject_Z (Z.of_nat n)) in *. lra.
      * lia.
      * exists e'. split; [exact Hrun |]. split; [exact H1 |]. split; [exact H2 |].
        rewrite Hcalls in H3. unfold Position.demand_reads in H3 |- *.
        cbn [filter List.length] in H3. lia.
Qed.

Lemma sleeps_until (x : Q) :
  (0 <= x)%Q ->
  (x < inject_Z (Z.of_nat (S (Z.to_nat (Qfloor (x * 100))))) * (1 # 100))%Q.
Proof.
  intros Hx.
  assert (Hf : 0 <= Qfloor (x * 100)).
  { change 0 with (Qfloor 0). apply Qfloor_resp_le. lra. }
  rewrite Nat2Z.inj_succ, Z2Nat.id by exact Hf.
  unfold Z.succ. pose proof (Qlt_floor (x * 100)) as Hfl.
  set (y := inject_Z (Qfloor (x * 100) + 1)) in *. lra.
Qed.

(** X20.  [go_to_position] ends.  With a tolerance and a profiler
    timeout that are not negative, whatever positions the drive reports,
    the call either returns or fails with "Expected position wasn't
    achieved", at most the profiler timeout plus two sleeps of 10 ms after
    it was called; when it fails, more than the timeout plus one sleep has
    passed.  (Sleeps last exactly 10 ms and the calls take no time.) *)
Theorem go_to_position_terminates (target_position : Z)
    (expected_position : option Z) (e : env Position.t) :
  let T := Position.profiler_timeout (self e) in
  (0 <= Position.target_tolerance (self e))%Q ->
  (0 <= T)%Q ->
  exists n, forall fuel, (n <= fuel)%nat ->
    exists e',
      (Position.go_to_position demand_at fuel target_position expected_position e
       = (Position.Reached, e')
       \/ (exists d,
             Position.go_to_position demand_at fuel target_position expected_position e
             = (Position.NotAchieved expected_position d (Some target_position), e'))
          /\ (T + (1 # 100) < clock e' - clock e)%Q)
      /\ (clock e' - clock e <= T + (2 # 100))%Q.
Proof.
  intros T Htol HT.
  exists (S (Z.to_nat (Qfloor (T * 100)))). intros fuel Hfuel.
  unfold Position.go_to_position. rewrite start_trajectory_runs.
  cbn [self clock Position.set_stabilization_time Position.set_target
       Position.profiler_timeout].
  fold T.
  match goal with
  | |- context [Position.go_loop _ _ _ _ ?x] => set (e1 := x)
  end.
  destruct (go_loop_ends expected_position (clock e + (1 # 100) + T)%Q
              (S (Z.to_nat (Qfloor (T * 100)))) e1 target_position
              (clock e + (1 # 100) + Position.stabilization_duration (self e))%Q)
    with (fuel := fuel) as [e' [Hrun Hbound]].
  - reflexivity.
  - reflexivity.
  - exact Htol.
  - cbn [clock e1]. lra.
  - cbn [clock e1]. pose proof (sleeps_until T HT) as Hs.
    set (y := inject_Z (Z.of_nat (S (Z.to_nat (Qfloor (T * 100)))))) in *. lra.
  - exact Hfuel.
  - exists e'. split; [| lra].
    destruct Hrun as [Hrun | [[d Hrun] Hafter]].
    + left. exact Hrun.
    + right. split; [exists d; exact Hrun | lra].
Qed.

(** X21.  [go_to_position] returns only on a stable demand: when it
    returns, the target position is the one given, more than the
    stabilization duration plus one sleep has passed since the call, the
    last read of the demand position is one [math.isclose] accepts for the
    expected position, and, for a timeout that is not negative, at most
    the timeout plus two sleeps have passed. *)
Theorem go_to_position_returns_only_when_stable (fuel : nat) (target_position : Z)
    (expected_position : option Z) (e e' : env Position.t) :
  let T := Position.profiler_timeout (self e) in
  let D := Position.stabilization_duration (self e) in
  Position.go_to_position demand_at fuel target_position expected_position e
  = (Position.Reached, e') ->
  (D + (1 # 100) < clock e' - clock e)%Q
  /\ ((0 <= T)%Q -> (clock e' - clock e <= T + (2 # 100))%Q)
  /\ Position.target_position (self e') = Some target_position
  /\ exists d rest,
       calls e' = od_position_demand_internal_value d :: rest
       /\ close_enough (inject_Z d)
            (inject_Z (match expected_position with
                       | None => target_position
                       | Some x => x
                       end))
            (Position.target_tolerance (self e)) = true.
Proof.
  intros T D Hrun.
  unfold Position.go_to_position in Hrun. rewrite start_trajectory_runs in Hrun.
  cbn [self clock Position.set_stabilization_time Position.set_target
       Position.profiler_timeout] in Hrun.
  fold T D in Hrun.
  match type of Hrun with
  | context [Position.go_loop _ _ _ _ ?x] => set (e1 := x) in Hrun
  end.
  destruct (go_loop_reached expected_position (clock e + (1 # 100) + T)%Q
              (clock e + (1 # 100) + D)%Q (0 <= T)%Q fuel e1 e' target_position
              (clock e + (1 # 100) + D)%Q)
    as [H1 [H2 [H3 H4]]].
  - reflexivity.
  - reflexivity.
  - lra.
  - cbn [clock self e1 Position.stabilization_duration Position.set_target
         Position.set_stabilization_time]. fold D. lra.
  - intros HT. cbn [clock e1]. lra.
  - exact Hrun.
  - split; [lra |]. split; [intros HT; specialize (H2 HT); lra |].
    split; [exact H3 | exact H4].
Qed.

(** X22.  A stabilization duration that exceeds the profiler timeout by
    a sleep or more makes [go_to_position] fail always, also on a drive
    that sits on the target. *)
Theorem go_to_position_fails_when_stabilization_exceeds_timeout
    (target_position : Z) (expected_position : option Z) (e : env Position.t) :
  let T := Position.profiler_timeout (self e) in
  let D := Position.stabilization_duration (self e) in
  (0 <= Position.target_tolerance (self e))%Q ->
  (0 <= T)%Q ->
  (T + (1 # 100) <= D)%Q ->
  exists n, forall fuel, (n <= fuel)%nat ->
    exists d e',
      Position.go_to_position demand_at fuel target_position expected_position e
      = (Position.NotAchieved expected_position d (Some target_position), e').
Proof.
  intros T D Htol HT HD.
  exists (S (Z.to_nat (Qfloor (T * 100)))). intros fuel Hfuel.
  unfold Position.go_to_position. rewrite start_trajectory_runs.
  cbn [self clock Position.set_stabilization_time Position.set_target
       Position.profiler_timeout].
  fold T.
  match goal with
  | |- context [Position.go_loop _ _ _ _ ?x] => set (e1 := x)
  end.
  destruct (go_loop_ends expected_position (clock e + (1 # 100) + T)%Q
              (S (Z.to_nat (Qfloor (T * 100)))) e1 target_position
              (clock e + (1 # 100) + Position.stabilization_duration (self e))%Q)
    with (fuel := fuel) as [e' [[Hr | [[d Hr] _]] _]];
    try reflexivity; try exact Htol; try exact Hfuel.
  - cbn [clock e1]. lra.
  - cbn [clock e1]. pose proof (sleeps_until T HT) as Hs.
    set (y := inject_Z (Z.of_nat (S (Z.to_nat (Qfloor (T * 100)))))) in *. lra.
  - exfalso.
    destruct (go_loop_reached expected_position (clock e + (1 # 100) + T)%Q
                (clock e + (1 # 100) + D)%Q True fuel e1 e' target_position
                (clock e + (1 # 100) + D)%Q)
      as [H1 [H2 _]].
    + reflexivity.
    + reflexivity.
    + lra.
    + cbn [clock self e1 Position.stabilization_duration Position.set_target
           Position.set_stabilization_time]. fold D. lra.
    + intros _. cbn [clock e1]. lra.
    + exact Hr.
    + specialize (H2 I). lra.
  - exists d, e'. exact Hr.
Qed.

(** X23.  With a negative target tolerance [go_to_position] starts the
    trajectory (target written, start and reset of the control bits) and
    then raises [ValueError] at its first check, from [math.isclose]. *)
Theorem go_to_position_negative_tolerance (fuel : nat) (target_position : Z)
    (expected_position : option Z) (e : env Position.t) :
  (Position.target_tolerance (self e) < 0)%Q ->
  exists e',
    Position.go_to_position demand_at (S fuel) target_position expected_position e
    = (Position.Crashed ValueError, e')
    /\ calls e'
       = od_position_demand_internal_value
           (demand_at (Position.demand_reads (calls e)))
         :: sc_pp_reset_bits :: sc_pp_start_next_position_now
         :: od_target_position target_position :: calls e
    /\ Position.target_position (self e') = Some target_position.
Proof.
  intros Htol.
  unfold Position.go_to_position. rewrite start_trajectory_runs.
  cbn [self clock Position.set_stabilization_time Position.set_target
       Position.profiler_timeout].
  match goal with
  | |- context [Position.go_loop _ _ _ _ ?x] => set (e1 := x)
  end.
  rewrite (go_loop_step fuel expected_position _ e1 target_position
             (clock e + (1 # 100) + Position.stabilization_duration (self e))%Q)
    by reflexivity.
  cbv zeta.
  change (Position.target_tolerance (self e1)) with (Position.target_tolerance (self e)).
  apply Qltb_lt in Htol. rewrite Htol.
  eexists. split; [reflexivity |]. split; reflexivity.
Qed.

(** X24.  On a drive whose demand position is accepted at every read,
    with a stabilization duration that is not negative and not above the
    profiler timeout, [go_to_position] returns, between one and two
    sleeps after the stabilization duration has passed. *)
Theorem go_to_position_returns_when_demand_holds (target_position : Z)
    (expected_position : option Z) (e : env Position.t) :
  let T := Position.profiler_timeout (self e) in
  let D := Position.stabilization_duration (self e) in
  let tol := Position.target_tolerance (self e) in
  (0 <= tol)%Q ->
  (0 <= D)%Q ->
  (D <= T)%Q ->
  (forall k, close_enough (inject_Z (demand_at k))
               (inject_Z (match expected_position with
                          | None => target_position
                          | Some x => x
                          end)) tol = true) ->
  exists n, forall fuel, (n <= fuel)%nat ->
    exists e',
      Position.go_to_position demand_at fuel target_position expected_position e
      = (Position.Reached, e')
      /\ (D + (1 # 100) < clock e' - clock e)%Q
      /\ (clock e' - clock e <= D + (2 # 100))%Q
      /\ (Position.demand_reads (calls e') <= Position.demand_reads (calls e) + n)%nat.
Proof.
  intros T D tol Htol HD HDT Hhold.
  exists (S (Z.to_nat (Qfloor (D * 100)))). intros fuel Hfuel.
  unfold Position.go_to_position. rewrite start_trajectory_runs.
  cbn [self clock Position.set_stabilization_time Position.set_target
       Position.profiler_timeout].
  fold T D.
  match goal with
  | |- context [Position.go_loop _ _ _ _ ?x] => set (e1 := x)
  end.
  destruct (go_loop_holds expected_position (clock e + (1 # 100) + T)%Q
              target_position (clock e + (1 # 100) + D)%Q tol Hhold Htol)
    with (n := S (Z.to_nat (Qfloor (D * 100)))) (e := e1) (fuel := fuel)
    as [e' [Hrun [H1 [H2 H3]]]].
  - lra.
  - reflexivity.
  - reflexivity.
  - reflexivity.
  - cbn [clock e1]. lra.
  - cbn [clock e1]. pose proof (sleeps_until D HD) as Hs.
    set (y := inject_Z (Z.of_nat (S (Z.to_nat (Qfloor (D * 100)))))) in *. lra.
  - exact Hfuel.
  - exists e'. split; [exact Hrun |]. split; [lra |]. split; [lra |].
    exact H3.
Qed.

End PositionExtras.

(** A position supervisor with tolerance 30, time-out 1 s and
    stabilization 20 ms, on a drive whose demand stays at 0. *)
Lemma go_to_position_terminates_witness :
  let h := Profiler.Position.mk (Some 1) 1 1 1 0 0 0 30 1 (1 # 50) None None None 0 in
  let e := Profiler.mkEnv h 0 [] in
  exists n, forall fuel, (n <= fuel)%nat ->
    exists e',
      (Profiler.Position.go_to_position (fun _ => 0) fuel 1000 None e
       = (Profiler.Position.Reached, e')
       \/ (exists d,
             Profiler.Position.go_to_position (fun _ => 0) fuel 1000 None e
             = (Profiler.Position.NotAchieved None d (Some 1000), e'))
          /\ (1 + (1 # 100) < Profiler.clock e' - Profiler.clock e)%Q)
      /\ (Profiler.clock e' - Profiler.clock e <= 1 + (2 # 100))%Q.
Proof.
  intros h e.
  apply (go_to_position_terminates (fun _ => 0) 1000 None e); discriminate.
Defined.

Lemma go_to_position_returns_only_when_stable_witness :
  let h := Profiler.Position.mk (Some 1) 1 1 1 0 0 0 30 1 (1 # 50) None None None 0 in
  let e := Profiler.mkEnv h 0 [] in
  let e' := snd (Profiler.Position.go_to_position (fun _ => 990) 10 1000 None e) in
  ((1 # 50) + (1 # 100) < Profiler.clock e' - Profiler.clock e)%Q
  /\ ((0 <= 1)%Q -> (Profiler.clock e' - Profiler.clock e <= 1 + (2 # 100))%Q)
  /\ Profiler.Position.target_position (Profiler.self e') = Some 1000
  /\ exists d rest,
       Profiler.calls e' = Profiler.od_position_demand_internal_value d :: rest
       /\ close_enough (inject_Z d) (inject_Z 1000) 30 = true.
Proof.
  intros h e e'.
  apply (go_to_position_returns_only_when_stable (fun _ => 990) 10 1000 None e e').
  vm_compute. reflexivity.
Defined.

Example go_to_position_run :
  let h := Profiler.Position.mk (Some 1) 1 1 1 0 0 0 30 1 (1 # 50) None None None 0 in
  let run := Profiler.Position.go_to_position
               (fun n => if (n <? 4)%nat then 500 else 990) 20 1000 None
               (Profiler.mkEnv h 0 []) in
  fst run = Profiler.Position.Reached
  /\ Qred (Profiler.clock (snd run)) = (2 # 25)%Q
  /\ Profiler.Position.demand_reads (Profiler.calls (snd run)) = 7%nat.
Proof. vm_compute. repeat split. Qed.

Lemma go_to_position_fails_when_stabilization_exceeds_timeout_witness :
  let h := Profiler.Position.mk (Some 1) 1 1 1 0 0 0 30 1 2 None None None 0 in
  let e := Profiler.mkEnv h 0 [] in
  exists n, forall fuel, (n <= fuel)%nat ->
    exists d e',
      Profiler.Position.go_to_position (fun _ => 1000) fuel 1000 None e
      = (Profiler.Position.NotAchieved None d (Some 1000), e').
Proof.
  intros h e.
  apply (go_to_position_fails_when_stabilization_exceeds_timeout
           (fun _ => 1000) 1000 None e); discriminate.
Defined.

Lemma go_to_position_negative_tolerance_witness :
  let h := Profiler.Position.mk (Some 1) 1 1 1 0 0 0 (-1) 20 2 None None None 0 in
  let e := Profiler.mkEnv h 0 [] in
  exists e',
    Profiler.Position.go_to_position (fun _ => 1000) 1 1000 None e
    = (Profiler.Position.Crashed ValueError, e')
    /\ Profiler.calls e'
       = Profiler.od_position_demand_internal_value 1000
         :: Profiler.sc_pp_reset_bits :: Profiler.sc_pp_start_next_position_now
         :: Profiler.od_target_position 1000 :: Profiler.calls e
    /\ Profiler.Position.target_position (Profiler.self e') = Some 1000.
Proof.
  intros h e.
  apply (go_to_position_negative_tolerance (fun _ => 1000) 0 1000 None e).
  reflexivity.
Defined.

Lemma go_to_position_returns_when_demand_holds_witness :
  let h := Profiler.Position.mk (Some 1) 1 1 1 0 0 0 30 20 2 None None None 0 in
  let e := Profiler.mkEnv h 0 [] in
  exists n, forall fuel, (n <= fuel)%nat ->
    exists e',
      Profiler.Position.go_to_position (fun _ => 990) fuel 1000 None e
      = (Profiler.Position.Reached, e')
      /\ (2 + (1 # 100) < Profiler.clock e' - Profiler.clock e)%Q
      /\ (Profiler.clock e' - Profiler.clock e <= 2 + (2 # 100))%Q
      /\ (Profiler.Position.demand_reads (Profiler.calls e')
          <= Profiler.Position.demand_reads (Profiler.calls e) + n)%nat.
Proof.
  intros h e.
  apply (go_to_position_returns_when_demand_holds (fun _ => 990) 1000 None e).
  - discriminate.
  - discriminate.
  - discriminate.
  - intros k. reflexivity.
Defined.

(** ** The stabilization window, repeated configuration, mode packing *)

Section WindowExtras.

Import Profiler.

Variable demand_at : nat -> Z.

Lemma inject_Z_succ (n : nat) :
  (inject_Z (Z.of_nat (S n)) == inject_Z (Z.of_nat n) + 1)%Q.
Proof.
  rewrite Nat2Z.inj_succ. unfold Z.succ. rewrite inject_Z_plus. reflexivity.
Qed.

Lemma demand_reads_polled (tol : Q) (target : Z) (p : Position.poll)
    (e : env Position.t) :
  Position.demand_reads (calls (Position.polled tol target p e))
  = S (Position.demand_reads (calls e)).
Proof. reflexivity. Qed.

(** The reads of the last stabilization duration before the loop returns. *)
Lemma go_loop_window (expected : option Z) (timeout : Q) :
  forall (fuel : nat) (e e' : env Position.t) (target : Z) (d0 : Q),
    Position.target_position (self e) = Some target ->
    Position.stabilization_time (self e) = Some d0 ->
    (d0 <= clock e + Position.stabilization_duration (self e))%Q ->
    Position.go_loop demand_at fuel expected timeout e = (Position.Reached, e') ->
    exists k : nat,
      (1 <= k <= fuel)%nat
      /\ Position.demand_reads (calls e') = (Position.demand_reads (calls e) + k)%nat
      /\ (clock e' == clock e + inject_Z (Z.of_nat k) * (1 # 100))%Q
      /\ (d0 < clock e')%Q
      /\ forall j : nat, (j < k)%nat ->
           (clock e' - Position.stabilization_duration (self e)
            <= clock e + inject_Z (Z.of_nat (S j)) * (1 # 100))%Q ->
           close_enough
             (inject_Z (demand_at (Position.demand_reads (calls e) + j)))
             (inject_Z (match expected with None => target | Some x => x end))
             (Position.target_tolerance (self e)) = true.
Proof.
  induction fuel as [| fuel IH]; intros e e' target d0 Ht Hd Hinv Hrun.
  - discriminate Hrun.
  - rewrite (go_loop_step demand_at fuel expected timeout e target d0 Ht Hd) in Hrun.
    cbv zeta in Hrun.
    set (tol := Position.target_tolerance (self e)) in *.
    set (D := Position.stabilization_duration (self e)) in *.
    set (e1 := mkEnv (self e) (clock e + (1 # 100))%Q (calls e)) in *.
    set (p := Position.mkPoll (1 # 100)
                (demand_at (Position.demand_reads (calls e))) expected) in *.
    destruct (polled_fields tol target p e1) as [Ft [Ftol [Fd Fc]]].
    cbn [self clock e1] in Ft, Ftol, Fd, Fc. fold e1 in Ft, Ftol, Fd, Fc.
    pose proof (demand_reads_polled tol target p e1) as Fr.
    cbn [calls e1] in Fr. fold e1 in Fr.
    destruct (Qltb tol 0); [discriminate Hrun |].
    destruct (Position.in_tolerance tol target p) eqn:Hin.
    + destruct (Qltb d0 (clock e1)) eqn:Hlate; cbn [andb] in Hrun.
      * injection Hrun as <-. apply Qltb_lt in Hlate. cbn [clock e1] in Hlate.
        exists 1%nat. rewrite Fc, Fr.
        split; [lia |]. split; [lia |].
        split; [change (inject_Z (Z.of_nat 1)) with 1%Q; lra |].
        split; [exact Hlate |].
        intros j Hj _. assert (j = 0%nat) by lia. subst j.
        rewrite Nat.add_0_r. exact Hin.
      * destruct (Qltb timeout (clock e1)); [discriminate Hrun |].
        destruct (IH (Position.polled tol target p e1) e' target d0)
          as [k [Hk [Hr [Hc [Hdl Hwin]]]]].
        -- rewrite Ft. exact Ht.
        -- unfold Position.polled. rewrite Hin. exact Hd.
        -- rewrite Fc, Fd. fold D. lra.
        -- exact Hrun.
        -- rewrite Fr in Hr, Hwin. rewrite Fc in Hc, Hwin. rewrite Fd, Ftol in Hwin.
           fold D in Hwin.
           exists (S k). split; [lia |]. split; [lia |].
           split; [rewrite Hc, (inject_Z_succ k); lra |].
           split; [exact Hdl |].
           intros [| j] Hj Hnear.
           ++ rewrite Nat.add_0_r. exact Hin.
           ++ replace (Position.demand_reads (calls e) + S j)%nat
                with (S (Position.demand_reads (calls e)) + j)%nat by lia.
              apply Hwin; [lia |].
              rewrite (inject_Z_succ (S j)) in Hnear. lra.
    + cbn [andb] in Hrun.
      destruct (Qltb timeout (clock e1)); [discriminate Hrun |].
      destruct (IH (Position.polled tol target p e1) e' target
                  (clock e1 + Position.stabilization_duration (self e1))%Q)
        as [k [Hk [Hr [Hc [Hdl Hwin]]]]].
      * rewrite Ft. exact Ht.
      * unfold Position.polled. rewrite Hin. reflexivity.
      * rewrite Fc, Fd. cbn [clock self e1]. apply Qle_refl.
      * exact Hrun.
      * rewrite Fr in Hr, Hwin. rewrite Fc in Hc, Hwin. rewrite Fd, Ftol in Hwin.
        cbn [clock self e1] in Hdl. fold D in Hwin, Hdl.
        exists (S k). split; [lia |]. split; [lia |].
        split; [rewrite Hc, (inject_Z_succ k); lra |].
        split; [lra |].
        intros [| j] Hj Hnear.
        -- exfalso. change (inject_Z (Z.of_nat 1)) with 1%Q in Hnear. lra.
        -- replace (Position.demand_reads (calls e) + S j)%nat
             with (S (Position.demand_reads (calls e)) + j)%nat by lia.
           apply Hwin; [lia |].
           rewrite (inject_Z_succ (S j)) in Hnear. lra.
Qed.

(** X25.  The window of [go_to_position].  When the call returns after
    [k] checks, [k] is at least 1, exactly [k] reads of the demand position
    were made, the time passed is that of [k + 1] sleeps, [k] sleeps are
    more than the stabilization duration, and every read made within the
    last stabilization duration before the return (the [j]-th, when the
    [k - 1 - j] sleeps after it do not exceed the duration) was accepted
    by [math.isclose] for the expected position. *)
Theorem go_to_position_stable_window (fuel : nat) (target_position : Z)
    (expected_position : option Z) (e e' : env Position.t) :
  let D := Position.stabilization_duration (self e) in
  let tol := Position.target_tolerance (self e) in
  let first := Position.demand_reads (calls e) in
  Position.go_to_position demand_at fuel target_position expected_position e
  = (Position.Reached, e') ->
  exists k : nat,
    (1 <= k <= fuel)%nat
    /\ Position.demand_reads (calls e') = (first + k)%nat
    /\ (clock e' == clock e + (1 # 100) + inject_Z (Z.of_nat k) * (1 # 100))%Q
    /\ (D < inject_Z (Z.of_nat k) * (1 # 100))%Q
    /\ forall j : nat, (j < k)%nat ->
         (inject_Z (Z.of_nat (k - S j)) * (1 # 100) <= D)%Q ->
         close_enough (inject_Z (demand_at (first + j)))
           (inject_Z (match expected_position with
                      | None => target_position
                      | Some x => x
                      end)) tol = true.
Proof.
  intros D tol first Hrun.
  unfold Position.go_to_position in Hrun. rewrite start_trajectory_runs in Hrun.
  cbn [self clock Position.set_stabilization_time Position.set_target
       Position.profiler_timeout] in Hrun.
  fold D in Hrun.
  match type of Hrun with
  | context [Position.go_loop _ _ _ _ ?x] => set (e1 := x) in Hrun
  end.
  destruct (go_loop_window expected_position
              (clock e + (1 # 100) + Position.profiler_timeout (self e))%Q
              fuel e1 e' target_position (clock e + (1 # 100) + D)%Q)
    as [k [Hk [Hr [Hc [Hdl Hwin]]]]].
  - reflexivity.
  - reflexivity.
  - cbn [clock self e1 Position.stabilization_duration Position.set_target
         Position.set_stabilization_time]. fold D. apply Qle_refl.
  - exact Hrun.
  - change (Position.demand_reads (calls e1)) with first in Hr, Hwin.
    change (clock e1) with (clock e + (1 # 100))%Q in Hc, Hwin.
    change (Position.stabilization_duration (self e1)) with D in Hwin.
    change (Position.target_tolerance (self e1)) with tol in Hwin.
    exists k. split; [exact Hk |]. split; [exact Hr |]. split; [exact Hc |].
    split; [lra |].
    intros j Hj Hnear. apply Hwin; [exact Hj |].
    assert (E : (inject_Z (Z.of_nat (k - S j))
                 == inject_Z (Z.of_nat k) - inject_Z (Z.of_nat (S j)))%Q).
    { rewrite Nat2Z.inj_sub by lia. unfold Z.sub.
      rewrite inject_Z_plus, inject_Z_opp. reflexivity. }
    rewrite E in Hnear. lra.
Qed.

End WindowExtras.

Section PackingExtras.

Import OsCmd.

(** X27.  [IcmuCalibrationModeHandler.enable_mode] packs the connector
    in the three low bits of the second command byte and the mode above
    them: for a connector in 0..7 and a mode in 0..31 the byte is
    [connector + 8 * mode], both can be read back from it, and on an idle
    channel the command [1, byte, 0, 0, 0, 0, 0, 0] (1 is the iC-MU
    calibration opcode) is written. *)
Theorem enable_mode_packs (encoder_connector mode : Z) (s : sys) :
  0 <= encoder_connector < 8 ->
  0 <= mode < 32 ->
  let b1 := Z.lor encoder_connector (Z.shiftl mode 3) in
  b1 = encoder_connector + 8 * mode
  /\ Z.land b1 7 = encoder_connector
  /\ Z.shiftr b1 3 = mode
  /\ (~ in_flight s ->
      enable_mode encoder_connector mode s
      = (Ok tt,
         record (os_command_command [OsCmdCommand.ICMU_CALIBRATION; b1; 0; 0; 0; 0; 0; 0])
           (set_current_command
              (Some [OsCmdCommand.ICMU_CALIBRATION; b1; 0; 0; 0; 0; 0; 0]) s))).
Proof.
  intros Hc Hm. cbv zeta.
  assert (Hdisj : Z.land encoder_connector (Z.shiftl mode 3) = 0).
  { apply Z.bits_inj'. intros n Hn. rewrite Z.land_spec, Z.bits_0.
    destruct (Z.ltb_spec n 3).
    - rewrite Z.shiftl_spec_low by lia. apply andb_false_r.
    - replace (Z.testbit encoder_connector n) with false; [reflexivity |].
      symmetry. destruct (Z.eq_dec encoder_connector 0) as [-> | Hnz];
        [apply Z.bits_0 |].
      apply Z.bits_above_log2; [lia |].
      assert (Z.log2 encoder_connector < 3); [| lia].
      apply Z.log2_lt_pow2; [lia | change (2 ^ 3) with 8; lia]. }
  assert (Hsum : Z.lor encoder_connector (Z.shiftl mode 3) = encoder_connector + 8 * mode).
  { rewrite <- (Z.lxor_lor _ _ Hdisj), <- (Z.add_nocarry_lxor _ _ Hdisj).
    rewrite Z.shiftl_mul_pow2 by lia. change (2 ^ 3) with 8. lia. }
  split; [exact Hsum |]. split; [| split].
  - rewrite Hsum. change 7 with (Z.ones 3). rewrite Z.land_ones by lia.
    change (2 ^ 3) with 8. rewrite (Z.mul_comm 8 mode), Z.mod_add by lia.
    apply Z.mod_small. lia.
  - rewrite Hsum, Z.shiftr_div_pow2 by lia. change (2 ^ 3) with 8.
    rewrite (Z.mul_comm 8 mode), Z.div_add by lia.
    rewrite (Z.div_small encoder_connector 8) by lia. lia.
  - unfold in_flight. intros H.
    unfold enable_mode, execute_command, bind, gets, modify, bytes, ret.
    destruct (current_command (och s)) eqn:E; [exfalso; apply H; discriminate |].
    assert (Hb : is_byte (Z.lor encoder_connector (Z.shiftl mode 3)) = true).
    { rewrite Hsum. unfold is_byte. apply andb_true_iff.
      split; [apply Z.leb_le | apply Z.ltb_lt]; lia. }
    cbn [forallb]. rewrite Hb. reflexivity.
Qed.

End PackingExtras.

Section IdemExtras.

Import Profiler.




End IdemExtras.

Lemma go_to_position_stable_window_witness :
  let h := Profiler.Position.mk (Some 1) 1 1 1 0 0 0 30 1 (1 # 50) None None None 0 in
  let e := Profiler.mkEnv h 0 [] in
  let demand_at := fun n : nat => if (n <? 4)%nat then 500 else 990 in
  let e' := snd (Profiler.Position.go_to_position demand_at 20 1000 None e) in
  exists k : nat,
    (1 <= k <= 20)%nat
    /\ Profiler.Position.demand_reads (Profiler.calls e') = (0 + k)%nat
    /\ (Profiler.clock e'
        == Profiler.clock e + (1 # 100) + inject_Z (Z.of_nat k) * (1 # 100))%Q
    /\ ((1 # 50) < inject_Z (Z.of_nat k) * (1 # 100))%Q
    /\ forall j : nat, (j < k)%nat ->
         (inject_Z (Z.of_nat (k - S j)) * (1 # 100) <= 1 # 50)%Q ->
         close_enough (inject_Z (demand_at (0 + j)%nat)) (inject_Z 1000) 30 = true.
Proof.
  intros h e demand_at e'.
  apply (go_to_position_stable_window demand_at 20 1000 None e e').
  vm_compute. reflexivity.
Defined.


Lemma enable_mode_packs_witness :
  let s := OsCmd.Handler_init 1 0 in
  let b1 := Z.lor 2 (Z.shiftl 1 3) in
  b1 = 2 + 8 * 1
  /\ Z.land b1 7 = 2
  /\ Z.shiftr b1 3 = 1
  /\ OsCmd.enable_mode 2 1 s
     = (Ok tt,
        OsCmd.record
          (OsCmd.os_command_command
             [OsCmd.OsCmdCommand.ICMU_CALIBRATION; b1; 0; 0; 0; 0; 0; 0])
          (OsCmd.set_current_command
             (Some [OsCmd.OsCmdCommand.ICMU_CALIBRATION; b1; 0; 0; 0; 0; 0; 0]) s)).
Proof.
  intros s b1.
  destruct (enable_mode_packs 2 1 s) as [H1 [H2 [H3 H4]]]; [lia | lia |].
  split; [exact H1 |]. split; [exact H2 |]. split; [exact H3 |].
  apply H4. unfold OsCmd.in_flight. simpl. intros H. apply H. reflexivity.
Defined.

(** A connector number above 7 runs into the mode bits: connector 8 with
    the configuration mode gives the byte of connector 0 with the raw
    mode. *)
Example enable_mode_connector_overlaps_mode :
  Z.lor 8 (Z.shiftl 0 3) = Z.lor 0 (Z.shiftl 1 3).
Proof. reflexivity. Qed.
